(** * The POSIX platform network-interface bridge (src/posix/platform/netif.cpp)

    A shallow embedding of the bridge between the Thread stack and the host
    tunnel device: prefix masks, the packet shuttle, the address and link
    reconciliation and the MLDv2 monitor, with the properties the design
    document states about them. *)

From Stdlib Require Import String ZArith List Bool Lia.
Import ListNotations.
Open Scope Z_scope.

(* ================================================================== *)
(** ** Octets and IPv6 addresses *)

(** A [uint8_t] is a [Z] in [0, 256); [struct in6_addr] is its sixteen
    octets [s6_addr], most significant first. *)
Definition byte_ok (b : Z) : Prop := 0 <= b < 256.

Definition in6_addr := list Z.

(** The cast to [uint8_t]. *)
Definition to_uint8 (z : Z) : Z := z mod 256.

(** [memset(buf + off, c, n)].  [None] is a write outside [buf]. *)
Definition memset (buf : list Z) (off c n : Z) : option (list Z) :=
  if (0 <=? off) && (0 <=? n) && (off + n <=? Z.of_nat (length buf)) then
    Some (firstn (Z.to_nat off) buf ++ repeat c (Z.to_nat n)
            ++ skipn (Z.to_nat (off + n)) buf)
  else None.

(** [buf[i] &= m] on an array of [uint8_t].  [None] is an index outside
    [buf]. *)
Definition and_assign (buf : list Z) (i m : Z) : option (list Z) :=
  if (0 <=? i) && (i <? Z.of_nat (length buf)) then
    Some (firstn (Z.to_nat i) buf
            ++ to_uint8 (Z.land (nth (Z.to_nat i) buf 0) m)
            :: skipn (S (Z.to_nat i)) buf)
  else None.

(* ================================================================== *)
(** ** Prefix masks (BSD-style address requests) *)

(** [apply_mask]: keep the first [mask] bits of [address], clear the rest. *)
Definition apply_mask (address : in6_addr) (mask : Z) : option in6_addr :=
  let mask := if mask >? 128 then 128 else mask in
  match memset address ((mask + 7) / 8) 0 (16 - (mask + 7) / 8) with
  | None => None
  | Some address' =>
      if negb (mask mod 8 =? 0) then
        and_assign address' (mask / 8) (Z.lnot (Z.shiftr 0xFF (mask mod 8)))
      else Some address'
  end.

(** The inner loop of [calculate_prefix_len]:
    [for (j = 7; j >= 0; j--) if (byte & (1 << j)) result++; else break;]
    with [n = j + 1] iterations left. *)
Fixpoint count_byte_bits (n : nat) (byte result : Z) : Z :=
  match n with
  | O => result
  | S j =>
      if negb (Z.land byte (Z.shiftl 1 (Z.of_nat j)) =? 0)
      then count_byte_bits j byte (result + 1)
      else result
  end.

(** The outer loop over [sin6_addr.s6_addr]: a full octet adds eight and
    continues, any other octet is counted bit by bit and ends the loop. *)
Fixpoint calculate_prefix_len_from (s6_addr : list Z) (result : Z) : Z :=
  match s6_addr with
  | [] => result
  | byte :: rest =>
      if byte =? 0xFF then calculate_prefix_len_from rest (result + 8)
      else count_byte_bits 8 byte result
  end.

Definition calculate_prefix_len (sin6_addr : in6_addr) : Z :=
  calculate_prefix_len_from sin6_addr 0.

(** *** The bit view of an address, used to state the properties *)

(** The eight bits of an octet, most significant first. *)
Definition bits_of_byte (b : Z) : list bool :=
  map (fun j => Z.testbit b (Z.of_nat j)) [7; 6; 5; 4; 3; 2; 1; 0]%nat.

Definition bits_of_bytes (l : list Z) : list bool := flat_map bits_of_byte l.

Definition byte_of_bits (bs : list bool) : Z :=
  fold_left (fun acc (b : bool) => 2 * acc + (if b then 1 else 0)) bs 0.

(** Pack a bit string into octets, eight bits at a time. *)
Fixpoint bytes_of_bits (n : nat) (bs : list bool) : list Z :=
  match n with
  | O => []
  | S n' => byte_of_bits (firstn 8 bs) :: bytes_of_bits n' (skipn 8 bs)
  end.

(** The number of leading one-bits of a bit string. *)
Fixpoint leading_ones (bs : list bool) : nat :=
  match bs with
  | true :: bs' => S (leading_ones bs')
  | _ => O
  end.

(** The 128-bit netmask of [n] one-bits followed by zero-bits. *)
Definition prefix_bits (n : nat) : list bool :=
  repeat true n ++ repeat false (128 - n).

Definition leading_ones_mask (n : nat) : in6_addr :=
  bytes_of_bits 16 (prefix_bits n).

Definition all_ones : in6_addr := repeat 0xFF 16.

(** [IsMulticast]: octet 0 is [0xff]. *)
Definition IsMulticast (a : in6_addr) : bool := nth 0 a 0 =? 0xff.

(** Modelled from the spec: the system macro [IN6_IS_ADDR_LINKLOCAL] of
    <netinet/in.h>, which is not part of the sources; an address is
    link-local unicast iff its first ten bits are [1111 1110 10]. *)
Definition IN6_IS_ADDR_LINKLOCAL (a : in6_addr) : bool :=
  (nth 0 a 0 =? 0xfe) && (Z.land (nth 1 a 0) 0xc0 =? 0x80).

(** Modelled from the spec: the system macro [IN6_IS_ADDR_MC_LINKLOCAL] of
    <netinet/in.h>, which is not part of the sources; a multicast address
    (octet 0 is [0xff]) whose scope nibble is 2, the link-local scope. *)
Definition IN6_IS_ADDR_MC_LINKLOCAL (a : in6_addr) : bool :=
  (nth 0 a 0 =? 0xff) && (Z.land (nth 1 a 0) 0x0f =? 0x02).

(** [a.s6_addr[i] = v]. *)
Definition set_octet (a : in6_addr) (i : nat) (v : Z) : in6_addr :=
  firstn i a ++ v :: skipn (S i) a.

(** [memcmp(a, b, 16) == 0]. *)
Fixpoint in6_eqb (a b : in6_addr) : bool :=
  match a, b with
  | [], [] => true
  | x :: a', y :: b' => (x =? y) && in6_eqb a' b'
  | _, _ => false
  end.

(* ================================================================== *)
(** ** Build configuration *)

(** The code is specialised by the preprocessor; [Platform] is the
    [#if defined(...)] it is compiled under. *)
Inductive Platform : Type := Linux | Apple | NetBSD | FreeBSD.

(** [#if defined(__APPLE__) || defined(__NetBSD__) || defined(__FreeBSD__)]. *)
Definition bsd_like (p : Platform) : bool :=
  match p with Linux => false | _ => true end.

(** [#ifdef RTM_NEWMADDR]: mac OS and FreeBSD announce multicast
    memberships on the routing socket. *)
Definition has_RTM_NEWMADDR (p : Platform) : bool :=
  match p with Apple | FreeBSD => true | _ => false end.

Definition OPENTHREAD_POSIX_USE_MLD_MONITOR (p : Platform) : bool :=
  match p with
  | NetBSD => false
  | _ => negb (has_RTM_NEWMADDR p)
  end.

(** [#if defined(__NetBSD__) || defined(__FreeBSD__)]: the platforms with
    [destroyTunnel]. *)
Definition has_destroyTunnel (p : Platform) : bool :=
  match p with NetBSD | FreeBSD => true | _ => false end.

(** The constants the code takes from headers that are not part of the
    sources: system headers and <openthread/instance.h>. *)
Record Headers : Type := {
  AF_INET6 : Z;
  PF_INET6 : Z;
  IFF_UP : Z;
  RTAX_NETMASK : Z;
  RTAX_IFA : Z;
  RTAX_MAX : nat;
  OT_CHANGED_THREAD_NETIF_STATE : Z
}.

Definition kMaxIp6Size : Z := 1536.
Definition kMaxMLDEvent : Z := 8192.
Definition IFNAMSIZ : nat := 16.
Definition ND6_INFINITE_LIFETIME : Z := 0xffffffff.

Definition kICMPv6MLDv2Type : Z := 143.
Definition kICMPv6MLDv2RecordChangeToExcludeType : Z := 3.
Definition kICMPv6MLDv2RecordChangeToIncludeType : Z := 4.
Definition sizeof_MLDv2Header : Z := 8.
Definition sizeof_MLDv2Record : Z := 20.
Definition sizeof_in6_addr : Z := 16.

(* ================================================================== *)
(** ** Errors, requests and observable events *)

Inductive otError : Type :=
| OT_ERROR_NONE
| OT_ERROR_FAILED
| OT_ERROR_NO_BUFS
| OT_ERROR_INVALID_STATE
| OT_ERROR_ALREADY
| OT_ERROR_NOT_FOUND
| OT_ERROR_other (n : Z).

Definition otError_is_none (e : otError) : bool :=
  match e with OT_ERROR_NONE => true | _ => false end.

Definition otError_is_already (e : otError) : bool :=
  match e with OT_ERROR_ALREADY => true | _ => false end.

Definition otError_is_not_found (e : otError) : bool :=
  match e with OT_ERROR_NOT_FOUND => true | _ => false end.

Inductive Errno : Type :=
| EBADF | EPERM | EEXIST | EINVAL | EALREADY | EADDRNOTAVAIL | Eother (n : Z).

Definition errno_is_EALREADY (e : Errno) : bool :=
  match e with EALREADY => true | _ => false end.

Inductive ExitCode : Type :=
| OT_EXIT_FAILURE | OT_EXIT_INVALID_ARGUMENTS | OT_EXIT_ERROR_ERRNO.

(** The result of a system call: its return value, or [-1] and [errno]. *)
Inductive SysRet : Type :=
| SysOk (v : Z)
| SysErr (e : Errno).

Definition sys_is_zero (r : SysRet) : bool :=
  match r with SysOk v => v =? 0 | SysErr _ => false end.

Record otNetifAddress : Type := {
  mAddress : in6_addr;
  mPrefixLength : Z
}.

(** A stack message is the octets it holds. *)
Definition otMessage := list Z.

Record in6_ifreq : Type := {
  ifr6_addr : in6_addr;
  ifr6_prefixlen : Z;
  ifr6_ifindex : Z
}.

Record in6_aliasreq : Type := {
  ifra_name : string;
  ifra_addr : in6_addr;
  ifra_prefixmask : in6_addr;
  ia6t_vltime : Z;
  ia6t_pltime : Z;
  ia6t_expire : Z;
  ia6t_preferred : Z;
  ifra_nodad : bool
}.

Inductive Ioctl : Type :=
| SIOCGIFFLAGS (ifr_name : string)
| SIOCSIFFLAGS (ifr_name : string) (ifr_flags : Z)
| SIOCSIFADDR (ifr6 : in6_ifreq)
| SIOCDIFADDR (ifr6 : in6_ifreq)
| SIOCAIFADDR_IN6 (ifr6 : in6_aliasreq)
| SIOCDIFADDR_IN6 (ifr6 : in6_aliasreq)
| SIOCIFDESTROY (ifr_name : string).

Inductive StackCall : Type :=
| IsEnabled
| AddUnicastAddress (a : otNetifAddress)
| RemoveUnicastAddress (a : in6_addr)
| SubscribeMulticastAddress (a : in6_addr)
| UnsubscribeMulticastAddress (a : in6_addr)
| NewMessage
| MessageAppend (data : list Z)
| MessageFree (m : otMessage)
| Send (m : otMessage).

Inductive LogLevel : Type := LogWarn | LogNote | LogInfo | LogDebg.

Inductive Event : Type :=
| EvIoctl (fd : Z) (req : Ioctl)
| EvWrite (fd : Z) (data : list Z)
| EvClose (fd : Z)
| EvStack (c : StackCall)
| EvPerror (s : string)
| EvLog (l : LogLevel).

Definition Trace := list Event.

(** The process-wide singletons of the file. *)
Record Globals : Type := {
  sTunFd : Z;
  sIpFd : Z;
  sNetlinkFd : Z;
  sMLDMonitorFd : Z;
  sTunIndex : Z;
  sTunName : string
}.

(** The host kernel as the bridge sees it: the flags of the tunnel
    interface, the requests it rejects, and what [write] on the tunnel
    returns when it does not take the whole datagram. *)
Record Kernel : Type := {
  k_ifflags : Z;
  k_ioctl_fault : Ioctl -> option Errno;
  k_write_fault : option SysRet
}.

(** The Thread stack is an opaque peer: its state [St] and what each call
    of its API returns are left to the instance.  [stk_has_buffers s n]
    tells whether [n] more octets of message data can be allocated. *)
Class OtStack (St : Type) : Type := {
  stk_ip6_enabled : St -> bool;
  stk_unicast_addresses : St -> list otNetifAddress;
  stk_add_unicast : otNetifAddress -> St -> otError * St;
  stk_remove_unicast : in6_addr -> St -> otError * St;
  stk_subscribe_multicast : in6_addr -> St -> otError * St;
  stk_unsubscribe_multicast : in6_addr -> St -> otError * St;
  stk_has_buffers : St -> nat -> bool;
  stk_send : otMessage -> St -> otError * St
}.

(* ================================================================== *)
(** ** The bridge *)

Section Bridge.

Context {St : Type} `{OtStack St}.
Variable hdr : Headers.
Variable platform : Platform.

Record World : Type := {
  globals : Globals;
  kernel : Kernel;
  stack : St
}.

(** How a piece of code ends: normally, by a jump to the [exit:] label of
    the enclosing function with the value of its [error] variable, by
    terminating the process ([VerifyOrDie], [DieNow]), or by an access
    outside an array. *)
Inductive Result (A : Type) : Type :=
| Normal (a : A) (w : World)
| Goto (e : otError) (w : World)
| Dead (code : ExitCode)
| Fault.

Arguments Normal {A} a w.
Arguments Goto {A} e w.
Arguments Dead {A} code.
Arguments Fault {A}.

Definition M (A : Type) : Type := World -> Trace * Result A.

Definition ret {A} (a : A) : M A := fun w => ([], Normal a w).

Definition bind {A B} (m : M A) (k : A -> M B) : M B :=
  fun w =>
    match m w with
    | (t, Normal a w') => let (t', r) := k a w' in (t ++ t', r)
    | (t, Goto e w') => (t, Goto e w')
    | (t, Dead c) => (t, Dead c)
    | (t, Fault) => (t, Fault)
    end.

Notation "x <- m ;; k" := (bind m (fun x => k))
  (at level 61, m at next level, right associativity).
Notation "m ;; k" := (bind m (fun _ => k))
  (at level 61, right associativity).

Definition emit (ev : Event) : M unit := fun w => ([ev], Normal tt w).

Definition goto_exit {A} (e : otError) : M A := fun w => ([], Goto e w).

Definition die {A} (code : ExitCode) : M A := fun _ => ([], Dead code).

Definition fault {A} : M A := fun _ => ([], Fault).

(** A function body followed by its [exit:] block; [body] yields the value
    of [error] when control falls through to the label. *)
Definition at_exit (body : M otError) (handler : otError -> M unit) : M unit :=
  fun w =>
    match body w with
    | (t, Normal e w') | (t, Goto e w') =>
        let (t', r) := handler e w' in (t ++ t', r)
    | (t, Dead c) => (t, Dead c)
    | (t, Fault) => (t, Fault)
    end.

Definition VerifyOrExit (cond : bool) (e : otError) : M unit :=
  if cond then ret tt else goto_exit e.

Definition VerifyOrDie (cond : bool) (code : ExitCode) : M unit :=
  if cond then ret tt else die code.

Definition SuccessOrExit (e : otError) : M unit :=
  if otError_is_none e then ret tt else goto_exit e.

Definition get_globals : M Globals := fun w => ([], Normal (globals w) w).

Definition set_globals (g : Globals) : M unit :=
  fun w => ([], Normal tt {| globals := g; kernel := kernel w; stack := stack w |}).

Definition otLogWarnPlat : M unit := emit (EvLog LogWarn).
Definition otLogNotePlat : M unit := emit (EvLog LogNote).
Definition otLogInfoPlat : M unit := emit (EvLog LogInfo).
Definition otLogDebgPlat : M unit := emit (EvLog LogDebg).
Definition perror (s : string) : M unit := emit (EvPerror s).

(** The common [exit:] block: a warning for an error, an info line
    otherwise. *)
Definition log_error (error : otError) : M unit :=
  if otError_is_none error then otLogInfoPlat else otLogWarnPlat.

(** *** System calls *)

Definition ioctl_result (k : Kernel) (fd : Z) (req : Ioctl) : SysRet :=
  if fd <? 0 then SysErr EBADF
  else match k_ioctl_fault k req with
       | Some e => SysErr e
       | None =>
           match req with
           | SIOCGIFFLAGS _ => SysOk (k_ifflags k)
           | _ => SysOk 0
           end
       end.

Definition ioctl_effect (k : Kernel) (req : Ioctl) (r : SysRet) : Kernel :=
  match r, req with
  | SysOk _, SIOCSIFFLAGS _ flags =>
      {| k_ifflags := flags;
         k_ioctl_fault := k_ioctl_fault k;
         k_write_fault := k_write_fault k |}
  | _, _ => k
  end.

Definition ioctl (fd : Z) (req : Ioctl) : M SysRet :=
  fun w =>
    let r := ioctl_result (kernel w) fd req in
    ([EvIoctl fd req],
     Normal r {| globals := globals w;
                 kernel := ioctl_effect (kernel w) req r;
                 stack := stack w |}).

Definition write (fd : Z) (data : list Z) : M SysRet :=
  fun w =>
    ([EvWrite fd data],
     Normal (match k_write_fault (kernel w) with
             | Some r => r
             | None => SysOk (Z.of_nat (length data))
             end) w).

Definition close (fd : Z) : M unit := emit (EvClose fd).

(** *** Calls into the stack *)

Definition stack_call {A} (c : StackCall) (f : St -> A * St) : M A :=
  fun w =>
    let (a, s') := f (stack w) in
    ([EvStack c],
     Normal a {| globals := globals w; kernel := kernel w; stack := s' |}).

Definition otIp6IsEnabled : M bool :=
  stack_call IsEnabled (fun s => (stk_ip6_enabled s, s)).

Definition otIp6GetUnicastAddresses : M (list otNetifAddress) :=
  fun w => ([], Normal (stk_unicast_addresses (stack w)) w).

Definition otIp6AddUnicastAddress (a : otNetifAddress) : M otError :=
  stack_call (AddUnicastAddress a) (stk_add_unicast a).

Definition otIp6RemoveUnicastAddress (a : in6_addr) : M otError :=
  stack_call (RemoveUnicastAddress a) (stk_remove_unicast a).

Definition otIp6SubscribeMulticastAddress (a : in6_addr) : M otError :=
  stack_call (SubscribeMulticastAddress a) (stk_subscribe_multicast a).

Definition otIp6UnsubscribeMulticastAddress (a : in6_addr) : M otError :=
  stack_call (UnsubscribeMulticastAddress a) (stk_unsubscribe_multicast a).

(** Modelled from the spec: the message API of the stack ([new_message],
    [append], [read], [length], [free]), whose code is not part of the
    sources.  A new message is empty or, without buffers, [NULL]; an append
    adds the octets at the end or fails with [NoBufs]; a read copies up to
    the requested number of octets from an offset and returns how many. *)
Definition otIp6NewMessage : M (option otMessage) :=
  stack_call NewMessage
    (fun s => (if stk_has_buffers s 0 then Some [] else None, s)).

Definition otMessageAppend (m : otMessage) (data : list Z)
  : M (otError * otMessage) :=
  stack_call (MessageAppend data)
    (fun s => (if stk_has_buffers s (length data)
               then (OT_ERROR_NONE, m ++ data)
               else (OT_ERROR_NO_BUFS, m), s)).

Definition otMessageGetLength (m : otMessage) : Z :=
  Z.of_nat (length m) mod 65536.

Definition otMessageRead (m : otMessage) (offset len : Z) : Z * list Z :=
  let data := firstn (Z.to_nat len) (skipn (Z.to_nat offset) m) in
  (Z.of_nat (length data), data).

Definition otMessageFree (m : otMessage) : M unit :=
  emit (EvStack (MessageFree m)).

Definition otIp6Send (m : otMessage) : M otError :=
  stack_call (Send m) (stk_send m).

(** *** [unicastAddressIsSubscribed] (not compiled on Linux) *)

Definition unicastAddressIsSubscribed (netAddr : otNetifAddress) : M bool :=
  addresses <- otIp6GetUnicastAddresses ;;
  ret (existsb (fun address => in6_eqb (mAddress address) (mAddress netAddr))
         addresses).

(** The [in6_aliasreq] both BSD address requests fill in: the tunnel's
    name, the address, the mask of [prefix_len] leading ones and infinite
    lifetimes; on mac OS also the two further lifetimes and
    [IN6_IFF_NODAD]. *)
Definition make_aliasreq (name : string) (addr : in6_addr) (prefix_len : Z)
  : M in6_aliasreq :=
  match apply_mask all_ones prefix_len with
  | None => fault
  | Some mask =>
      let apple := match platform with Apple => true | _ => false end in
      ret {| ifra_name := name;
             ifra_addr := addr;
             ifra_prefixmask := mask;
             ia6t_vltime := ND6_INFINITE_LIFETIME;
             ia6t_pltime := ND6_INFINITE_LIFETIME;
             ia6t_expire := if apple then ND6_INFINITE_LIFETIME else 0;
             ia6t_preferred := if apple then ND6_INFINITE_LIFETIME else 0;
             ifra_nodad := apple |}
  end.

(** *** [UpdateUnicast] *)

Definition UpdateUnicast (aAddress : in6_addr) (aPrefixLength : Z)
    (aIsAdded : bool) : M unit :=
  at_exit
    (g <- get_globals ;;
     VerifyOrExit (sIpFd g >=? 0) OT_ERROR_INVALID_STATE ;;
     if bsd_like platform then
       ifr6 <- make_aliasreq (sTunName g) aAddress aPrefixLength ;;
       err <- ioctl (sIpFd g)
                (if aIsAdded then SIOCAIFADDR_IN6 ifr6 else SIOCDIFADDR_IN6 ifr6) ;;
       let err :=
         match err with
         | SysErr e => if errno_is_EALREADY e then SysOk 0 else err
         | SysOk _ => err
         end in
       (if sys_is_zero err then ret tt
        else perror "ioctl" ;; goto_exit OT_ERROR_FAILED) ;;
       ret OT_ERROR_NONE
     else
       let ifr6 := {| ifr6_addr := aAddress;
                      ifr6_prefixlen := aPrefixLength;
                      ifr6_ifindex := sTunIndex g |} in
       if aIsAdded then
         r <- ioctl (sIpFd g) (SIOCSIFADDR ifr6) ;;
         VerifyOrDie (sys_is_zero r) OT_EXIT_ERROR_ERRNO ;;
         ret OT_ERROR_NONE
       else
         r <- ioctl (sIpFd g) (SIOCDIFADDR ifr6) ;;
         (if sys_is_zero r then ret tt
          else perror "ioctl" ;; goto_exit OT_ERROR_FAILED) ;;
         ret OT_ERROR_NONE)
    (fun error =>
       if negb (otError_is_none error) then otLogWarnPlat else otLogInfoPlat).

(** *** [UpdateLink] *)

Definition UpdateLink : M unit :=
  at_exit
    (g <- get_globals ;;
     VerifyOrExit (sIpFd g >=? 0) OT_ERROR_NONE ;;
     r <- ioctl (sIpFd g) (SIOCGIFFLAGS (sTunName g)) ;;
     match r with
     | SysErr _ => perror "ioctl" ;; goto_exit OT_ERROR_FAILED
     | SysOk ifr_flags =>
         let if_state := Z.land ifr_flags (IFF_UP hdr) =? IFF_UP hdr in
         ot_state <- otIp6IsEnabled ;;
         otLogNotePlat ;;
         (if negb (Bool.eqb if_state ot_state) then
            r <- ioctl (sIpFd g)
                   (SIOCSIFFLAGS (sTunName g)
                      (if ot_state
                       then Z.lor ifr_flags (IFF_UP hdr)
                       else Z.land ifr_flags (Z.lnot (IFF_UP hdr)))) ;;
            if sys_is_zero r then ret tt
            else perror "ioctl" ;; goto_exit OT_ERROR_FAILED
          else ret tt) ;;
         ret OT_ERROR_NONE
     end)
    log_error.

(** *** [processStateChange] *)

Definition processStateChange (aFlags : Z) : M unit :=
  if negb (Z.lor (OT_CHANGED_THREAD_NETIF_STATE hdr) aFlags =? 0)
  then UpdateLink
  else ret tt.

(** Two consecutive state-change callbacks: the second runs in the world
    the first leaves, the stack untouched in between. *)
Definition two_state_changes (aFlags1 aFlags2 : Z) : M unit :=
  processStateChange aFlags1 ;; processStateChange aFlags2.

(** *** [processReceive]: a datagram from the stack to the tunnel *)

(** [gLogPackets] is [false] and never assigned: the hex dumps are not
    modelled. *)
Definition processReceive (aMessage : otMessage) : M unit :=
  at_exit
    (let length := otMessageGetLength aMessage in
     let offset := if bsd_like platform then 4 else 0 in
     let max_length := (kMaxIp6Size + 4) - 4 in
     g <- get_globals ;;
     VerifyOrExit (sTunFd g >? 0) OT_ERROR_NONE ;;
     let (nread, body) := otMessageRead aMessage 0 max_length in
     VerifyOrExit (nread =? length) OT_ERROR_NO_BUFS ;;
     let packet :=
       if bsd_like platform then
         [0; 0;
          Z.land (Z.shiftl (PF_INET6 hdr) 8) 0xFF;
          Z.land (Z.shiftl (PF_INET6 hdr) 0) 0xFF] ++ body
       else body in
     let length := if bsd_like platform then (length + 4) mod 65536 else length in
     r <- write (sTunFd g) (firstn (Z.to_nat length) packet) ;;
     (match r with
      | SysOk n => if n =? length then ret tt
                   else perror "write" ;; goto_exit OT_ERROR_FAILED
      | SysErr _ => perror "write" ;; goto_exit OT_ERROR_FAILED
      end) ;;
     ret OT_ERROR_NONE)
    (fun error => otMessageFree aMessage ;; log_error error).

(** *** [processTransmit]: a datagram from the tunnel to the stack *)

(** What [read] on the tunnel returns: an error, or the next datagram, of
    which the buffer takes at most [kMaxIp6Size] octets. *)
Inductive ReadResult : Type :=
| ReadErr (e : Errno)
| ReadData (data : list Z).

(** The [exit:] block frees [message] when it is not [NULL]; it is not
    [NULL] there exactly when the append failed, so the free is written at
    that jump. *)
Definition processTransmit (rd : ReadResult) : M unit :=
  at_exit
    (match rd with
     | ReadErr _ => goto_exit OT_ERROR_FAILED
     | ReadData data =>
         let packet := firstn (Z.to_nat kMaxIp6Size) data in
         let rval := Z.of_nat (length packet) in
         VerifyOrExit (rval >? 0) OT_ERROR_FAILED ;;
         message <- otIp6NewMessage ;;
         match message with
         | None => goto_exit OT_ERROR_NO_BUFS
         | Some message =>
             let strip :=
               bsd_like platform && (rval >=? 4)
               && (nth 0 packet 0 =? 0) && (nth 1 packet 0 =? 0) in
             let rval := if strip then rval - 4 else rval in
             let offset := if strip then 4 else 0 in
             r <- otMessageAppend message
                    (firstn (Z.to_nat (rval mod 65536))
                       (skipn (Z.to_nat offset) packet)) ;;
             let (error, message) := r in
             (if otError_is_none error then ret tt
              else otMessageFree message ;; goto_exit error) ;;
             otIp6Send message
         end
     end)
    log_error.

(** *** [processNetifAddrEvent], netlink dialect (Linux) *)

Inductive MsgType : Type :=
| RTM_NEWADDR | RTM_DELADDR | RTM_NEWMADDR | RTM_DELMADDR
| RTM_NEWLINK | RTM_DELLINK | RTM_IFINFO | RTM_other (n : Z).

Definition MsgType_eqb (a b : MsgType) : bool :=
  match a, b with
  | RTM_NEWADDR, RTM_NEWADDR | RTM_DELADDR, RTM_DELADDR
  | RTM_NEWMADDR, RTM_NEWMADDR | RTM_DELMADDR, RTM_DELMADDR
  | RTM_NEWLINK, RTM_NEWLINK | RTM_DELLINK, RTM_DELLINK
  | RTM_IFINFO, RTM_IFINFO => true
  | RTM_other n, RTM_other m => n =? m
  | _, _ => false
  end.

Inductive IfaType : Type :=
| IFA_ADDRESS | IFA_LOCAL | IFA_BROADCAST | IFA_ANYCAST | IFA_MULTICAST
| IFA_other (n : Z).

(** One attribute of an address message: its kind and the sixteen octets at
    [RTA_DATA]. *)
Record rtattr : Type := {
  rta_type : IfaType;
  rta_data : in6_addr
}.

(** A netlink address message: the [nlmsghdr] type, the [ifaddrmsg] and the
    attributes [RTA_OK]/[RTA_NEXT] walk over. *)
Record nlmsg_addr : Type := {
  nlmsg_type : MsgType;
  ifa_family : Z;
  ifa_prefixlen : Z;
  ifa_index : Z;
  ifa_attrs : list rtattr
}.

Definition note_or_warn (ok : bool) : M unit :=
  if ok then otLogNotePlat else otLogWarnPlat.

(** The attribute loop; [error] is the function's variable, which lives
    across the iterations. *)
Fixpoint netlink_attrs (msg : nlmsg_addr) (attrs : list rtattr)
    (error : otError) : M otError :=
  match attrs with
  | [] => ret error
  | rta :: rest =>
      match rta_type rta with
      | IFA_other _ => otLogWarnPlat ;; netlink_attrs msg rest error
      | _ =>
          let addr := rta_data rta in
          match nlmsg_type msg with
          | RTM_NEWADDR =>
              if negb (IsMulticast addr) then
                error <- otIp6AddUnicastAddress
                           {| mAddress := addr;
                              mPrefixLength := ifa_prefixlen msg |} ;;
                note_or_warn (otError_is_none error || otError_is_already error) ;;
                SuccessOrExit error ;;
                netlink_attrs msg rest error
              else
                error <- otIp6SubscribeMulticastAddress addr ;;
                let ok := otError_is_none error || otError_is_already error in
                note_or_warn ok ;;
                let error := if ok then OT_ERROR_NONE else error in
                SuccessOrExit error ;;
                netlink_attrs msg rest error
          | RTM_DELADDR =>
              if negb (IsMulticast addr) then
                error <- otIp6RemoveUnicastAddress addr ;;
                let ok := otError_is_none error || otError_is_not_found error in
                note_or_warn ok ;;
                netlink_attrs msg rest (if ok then OT_ERROR_NONE else error)
              else
                error <- otIp6UnsubscribeMulticastAddress addr ;;
                let ok := otError_is_none error || otError_is_not_found error in
                note_or_warn ok ;;
                netlink_attrs msg rest (if ok then OT_ERROR_NONE else error)
          | _ => netlink_attrs msg rest error
          end
      end
  end.

Definition processNetifAddrEvent_netlink (aNetlinkMessage : nlmsg_addr) : M unit :=
  at_exit
    (g <- get_globals ;;
     VerifyOrExit ((ifa_index aNetlinkMessage =? sTunIndex g)
                   && (ifa_family aNetlinkMessage =? AF_INET6 hdr))
       OT_ERROR_NONE ;;
     netlink_attrs aNetlinkMessage (ifa_attrs aNetlinkMessage) OT_ERROR_NONE)
    log_error.

(** *** [processNetifAddrEvent], routing-socket dialect (BSD, mac OS) *)

(** A [sockaddr] of the trailing array, as the [memcpy] of a
    [sockaddr_in6] sees it. *)
Record sockaddr_in6 : Type := {
  sin6_family : Z;
  sin6_addr : in6_addr
}.

(** A routing message: the type, the interface index and the [addrs]
    bitmask of the [ifa_msghdr] or [ifma_msghdr], and the sockaddrs that
    follow the header. *)
Record rt_msghdr : Type := {
  rtm_type : MsgType;
  rtm_index : Z;
  rtm_addrs : Z;
  rtm_sockaddrs : list sockaddr_in6
}.

(** [for (i = 0; i < RTAX_MAX; i++)]: pick the address and the netmask out
    of the sockaddr array; [n] iterations are left.  The walk ends where
    the message holds fewer sockaddrs than its bitmask announces. *)
Fixpoint scan_sockaddrs (n : nat) (i : Z) (addrmask : Z)
    (sas : list sockaddr_in6) (addr6 netmask : sockaddr_in6)
  : sockaddr_in6 * sockaddr_in6 :=
  match n with
  | O => (addr6, netmask)
  | S n' =>
      if negb (Z.land addrmask (Z.shiftl 1 i) =? 0) then
        match sas with
        | [] => (addr6, netmask)
        | sa :: rest =>
            let inet6 := sin6_family sa =? AF_INET6 hdr in
            scan_sockaddrs n' (i + 1) addrmask rest
              (if inet6 && (i =? RTAX_IFA hdr) then sa else addr6)
              (if inet6 && (i =? RTAX_NETMASK hdr) then sa else netmask)
        end
      else scan_sockaddrs n' (i + 1) addrmask sas addr6 netmask
  end.

(** [netmask_uninit] is the indeterminate content of the local [netmask],
    of which only [sin6_family] is initialised. *)
Definition processNetifAddrEvent_route (rtm : rt_msghdr)
    (netmask_uninit : in6_addr) : M unit :=
  at_exit
    (g <- get_globals ;;
     let is_addr := MsgType_eqb (rtm_type rtm) RTM_NEWADDR
                    || MsgType_eqb (rtm_type rtm) RTM_DELADDR in
     let is_maddr := has_RTM_NEWMADDR platform
                     && (MsgType_eqb (rtm_type rtm) RTM_NEWMADDR
                         || MsgType_eqb (rtm_type rtm) RTM_DELMADDR) in
     VerifyOrExit (negb (is_addr || is_maddr) || (rtm_index rtm =? sTunIndex g))
       OT_ERROR_NONE ;;
     let addrmask := if is_addr || is_maddr then rtm_addrs rtm else 0 in
     let (addr6, netmask) :=
       if negb (addrmask =? 0) then
         scan_sockaddrs (RTAX_MAX hdr) 0 addrmask (rtm_sockaddrs rtm)
           {| sin6_family := 0; sin6_addr := [] |}
           {| sin6_family := 0; sin6_addr := netmask_uninit |}
       else ({| sin6_family := 0; sin6_addr := [] |},
             {| sin6_family := 0; sin6_addr := netmask_uninit |}) in
     if sin6_family addr6 =? AF_INET6 hdr then
       let is_link_local := IN6_IS_ADDR_LINKLOCAL (sin6_addr addr6) in
       let addr :=
         if is_link_local then set_octet (sin6_addr addr6) 3 0
         else if IN6_IS_ADDR_MC_LINKLOCAL (sin6_addr addr6)
              then set_octet (sin6_addr addr6) 3 0
              else sin6_addr addr6 in
       if MsgType_eqb (rtm_type rtm) RTM_NEWADDR
          || (has_RTM_NEWMADDR platform
              && MsgType_eqb (rtm_type rtm) RTM_NEWMADDR) then
         if negb (IsMulticast addr) then
           let netAddr :=
             {| mAddress := addr;
                mPrefixLength :=
                  to_uint8 (calculate_prefix_len (sin6_addr netmask)) |} in
           subscribed <- unicastAddressIsSubscribed netAddr ;;
           if subscribed then otLogNotePlat ;; ret OT_ERROR_NONE
           else if is_link_local then
             ifr6 <- make_aliasreq (sTunName g) addr (mPrefixLength netAddr) ;;
             err <- ioctl (sIpFd g) (SIOCDIFADDR_IN6 ifr6) ;;
             note_or_warn (sys_is_zero err) ;;
             ret OT_ERROR_NONE
           else
             error <- otIp6AddUnicastAddress netAddr ;;
             note_or_warn (otError_is_none error || otError_is_already error) ;;
             ret error
         else
           error <- otIp6SubscribeMulticastAddress addr ;;
           note_or_warn (otError_is_none error || otError_is_already error) ;;
           ret error
       else if MsgType_eqb (rtm_type rtm) RTM_DELADDR
               || (has_RTM_NEWMADDR platform
                   && MsgType_eqb (rtm_type rtm) RTM_DELMADDR) then
         if negb (IsMulticast addr) then
           error <- otIp6RemoveUnicastAddress addr ;;
           note_or_warn (otError_is_none error || otError_is_not_found error) ;;
           ret error
         else
           error <- otIp6UnsubscribeMulticastAddress addr ;;
           note_or_warn (otError_is_none error || otError_is_not_found error) ;;
           ret error
       else ret OT_ERROR_NONE
     else ret OT_ERROR_NONE)
    (fun _ => ret tt).

(** *** [destroyTunnel] and [platformNetifDeinit] *)

Definition modify_globals (f : Globals -> Globals) : M unit :=
  g <- get_globals ;; set_globals (f g).

Definition with_sTunFd (v : Z) (g : Globals) : Globals :=
  {| sTunFd := v; sIpFd := sIpFd g; sNetlinkFd := sNetlinkFd g;
     sMLDMonitorFd := sMLDMonitorFd g; sTunIndex := sTunIndex g;
     sTunName := sTunName g |}.

Definition with_sIpFd (v : Z) (g : Globals) : Globals :=
  {| sTunFd := sTunFd g; sIpFd := v; sNetlinkFd := sNetlinkFd g;
     sMLDMonitorFd := sMLDMonitorFd g; sTunIndex := sTunIndex g;
     sTunName := sTunName g |}.

Definition with_sNetlinkFd (v : Z) (g : Globals) : Globals :=
  {| sTunFd := sTunFd g; sIpFd := sIpFd g; sNetlinkFd := v;
     sMLDMonitorFd := sMLDMonitorFd g; sTunIndex := sTunIndex g;
     sTunName := sTunName g |}.

Definition with_sMLDMonitorFd (v : Z) (g : Globals) : Globals :=
  {| sTunFd := sTunFd g; sIpFd := sIpFd g; sNetlinkFd := sNetlinkFd g;
     sMLDMonitorFd := v; sTunIndex := sTunIndex g;
     sTunName := sTunName g |}.

Definition with_sTunIndex (v : Z) (g : Globals) : Globals :=
  {| sTunFd := sTunFd g; sIpFd := sIpFd g; sNetlinkFd := sNetlinkFd g;
     sMLDMonitorFd := sMLDMonitorFd g; sTunIndex := v;
     sTunName := sTunName g |}.

Definition destroyTunnel : M otError :=
  g <- get_globals ;;
  r <- ioctl (sIpFd g) (SIOCIFDESTROY (sTunName g)) ;;
  if sys_is_zero r then ret OT_ERROR_NONE
  else perror "ioctl" ;; ret OT_ERROR_FAILED.

Definition platformNetifDeinit : M unit :=
  g <- get_globals ;;
  (if negb (sTunFd g =? -1) then
     close (sTunFd g) ;;
     modify_globals (with_sTunFd (-1)) ;;
     if has_destroyTunnel platform then _ <- destroyTunnel ;; ret tt
     else ret tt
   else ret tt) ;;
  g <- get_globals ;;
  (if negb (sIpFd g =? -1) then
     close (sIpFd g) ;; modify_globals (with_sIpFd (-1))
   else ret tt) ;;
  g <- get_globals ;;
  (if negb (sNetlinkFd g =? -1) then
     close (sNetlinkFd g) ;; modify_globals (with_sNetlinkFd (-1))
   else ret tt) ;;
  g <- get_globals ;;
  (if OPENTHREAD_POSIX_USE_MLD_MONITOR platform then
     if negb (sMLDMonitorFd g =? -1) then
       close (sMLDMonitorFd g) ;; modify_globals (with_sMLDMonitorFd (-1))
     else ret tt
   else ret tt) ;;
  modify_globals (with_sTunIndex 0).

(** *** [processMLDEvent] (with the MLD monitor only) *)

(** One entry of the list [getifaddrs] returns. *)
Record ifaddrs : Type := {
  ifa_name : string;
  ifa_addr : option sockaddr_in6
}.

(** What [recvfrom] on the MLD socket returns: an error, or a datagram, of
    which the buffer takes at most [kMaxMLDEvent] octets, and its source. *)
Inductive RecvResult : Type :=
| RecvErr (e : Errno)
| RecvFrom (data : list Z) (srcAddr : in6_addr).

(** [ntohs] of the two octets [hi lo] of a packed network-order field. *)
Definition ntohs (hi lo : Z) : Z := hi * 256 + lo.

(** [strncmp(a, b, IFNAMSIZ) == 0]. *)
Definition strncmp_eq (a b : string) : bool :=
  String.eqb (substring 0 IFNAMSIZ a) (substring 0 IFNAMSIZ b).

(** The loop over the interface addresses that sets [fromSelf]. *)
Definition from_self (name : string) (srcAddr : in6_addr)
    (ifAddrs : list ifaddrs) : bool :=
  existsb
    (fun ifAddr =>
       match ifa_addr ifAddr with
       | None => false
       | Some addr6 =>
           (sin6_family addr6 =? AF_INET6 hdr)
           && strncmp_eq name (ifa_name ifAddr)
           && in6_eqb (sin6_addr addr6) srcAddr
       end)
    ifAddrs.

(** The body of the record loop for one record in bounds: what is asked of
    the stack for its type and multicast address. *)
Definition handle_mld_record (mRecordType : Z) (address : in6_addr) : M unit :=
  if mRecordType =? kICMPv6MLDv2RecordChangeToIncludeType then
    err <- otIp6SubscribeMulticastAddress address ;;
    if otError_is_already err then otLogNotePlat
    else if negb (otError_is_none err) then otLogWarnPlat
    else otLogDebgPlat
  else if mRecordType =? kICMPv6MLDv2RecordChangeToExcludeType then
    err <- otIp6UnsubscribeMulticastAddress address ;;
    if negb (otError_is_none err) then otLogWarnPlat
    else otLogDebgPlat
  else ret tt.

(** The record loop, with [n = ntohs(hdr->mNumRecords) - i] iterations
    left. *)
Fixpoint mld_records (n : nat) (buffer : list Z) (offset : Z) : M unit :=
  match n with
  | O => ret tt
  | S n' =>
      let bufferLen := Z.of_nat (length buffer) in
      if offset <? bufferLen then
        if bufferLen >=? sizeof_MLDv2Record + offset then
          let mRecordType := nth (Z.to_nat offset) buffer 0 in
          let mNumSources :=
            ntohs (nth (Z.to_nat (offset + 2)) buffer 0)
                  (nth (Z.to_nat (offset + 3)) buffer 0) in
          let address :=
            firstn 16 (skipn (Z.to_nat (offset + 4)) buffer) in
          handle_mld_record mRecordType address ;;
          mld_records n' buffer
            (offset + (sizeof_MLDv2Record + sizeof_in6_addr * mNumSources))
        else mld_records n' buffer offset
      else ret tt
  end.

Definition processMLDEvent (rv : RecvResult)
    (getifaddrs : option (list ifaddrs)) : M unit :=
  at_exit
    (match rv with
     | RecvErr _ => goto_exit OT_ERROR_NONE
     | RecvFrom data srcAddr =>
         let buffer := firstn (Z.to_nat kMaxMLDEvent) data in
         let bufferLen := Z.of_nat (length buffer) in
         VerifyOrExit (bufferLen >? 0) OT_ERROR_NONE ;;
         let type := nth 0 buffer 0 in
         VerifyOrExit ((type =? kICMPv6MLDv2Type)
                       && (bufferLen >=? sizeof_MLDv2Header))
           OT_ERROR_NONE ;;
         match getifaddrs with
         | None => goto_exit OT_ERROR_NONE
         | Some ifAddrs =>
             g <- get_globals ;;
             VerifyOrExit (from_self (sTunName g) srcAddr ifAddrs)
               OT_ERROR_NONE ;;
             mld_records
               (Z.to_nat (ntohs (nth 6 buffer 0) (nth 7 buffer 0)))
               buffer sizeof_MLDv2Header ;;
             ret OT_ERROR_NONE
         end
     end)
    (fun _ => ret tt).

End Bridge.

Arguments Normal {St A} a w.
Arguments Goto {St A} e w.
Arguments Dead {St A} code.
Arguments Fault {St A}.
Arguments World St : clear implicits.
Arguments M St A : clear implicits.

(* ================================================================== *)
(** ** Observing a run *)

Definition ioctls_of (t : Trace) : list (Z * Ioctl) :=
  flat_map (fun ev => match ev with EvIoctl fd req => [(fd, req)] | _ => [] end) t.

Definition is_SIOCSIFFLAGS (ev : Event) : bool :=
  match ev with EvIoctl _ (SIOCSIFFLAGS _ _) => true | _ => false end.

(** The number of [SIOCSIFFLAGS] calls of a run. *)
Definition count_SIOCSIFFLAGS (t : Trace) : nat :=
  length (filter is_SIOCSIFFLAGS t).

Definition writes_of (t : Trace) : list (Z * list Z) :=
  flat_map (fun ev => match ev with EvWrite fd d => [(fd, d)] | _ => [] end) t.

Definition closes_of (t : Trace) : list Z :=
  flat_map (fun ev => match ev with EvClose fd => [fd] | _ => [] end) t.

Definition stack_calls_of (t : Trace) : list StackCall :=
  flat_map (fun ev => match ev with EvStack c => [c] | _ => [] end) t.

(** The messages handed to [otIp6Send]. *)
Definition sends_of (t : Trace) : list otMessage :=
  flat_map (fun ev => match ev with EvStack (Send m) => [m] | _ => [] end) t.

Definition warnings_of (t : Trace) : nat :=
  length
    (filter (fun ev => match ev with EvLog LogWarn => true | _ => false end)
       t).

(** The kernel's and the stack's view of the link. *)
Definition kernel_link_up (hdr : Headers) (k : Kernel) : bool :=
  Z.land (k_ifflags k) (IFF_UP hdr) =? IFF_UP hdr.

(* ================================================================== *)
(** ** MLDv2 reports on the wire *)

(** A multicast address record of a report: the type, the auxiliary
    length field, the multicast address and the source addresses. *)
Record MLDv2Record : Type := {
  mRecordType : Z;
  mAuxDataLen : Z;
  mMulticastAddress : in6_addr;
  mSources : list in6_addr
}.

Definition encode_uint16 (n : Z) : list Z := [n / 256; n mod 256].

(** The packed record: type, auxiliary length, number of sources and
    multicast address, then sixteen octets per source. *)
Definition encode_record (r : MLDv2Record) : list Z :=
  [mRecordType r; mAuxDataLen r]
    ++ encode_uint16 (Z.of_nat (length (mSources r)))
    ++ mMulticastAddress r
    ++ concat (mSources r).

(** The packed report: type 143, a reserved octet, the checksum, two
    reserved octets, the number of records, then the records. *)
Definition encode_report (rsv0 ck_hi ck_lo rsv1_hi rsv1_lo : Z)
    (records : list MLDv2Record) : list Z :=
  [kICMPv6MLDv2Type; rsv0; ck_hi; ck_lo; rsv1_hi; rsv1_lo]
    ++ encode_uint16 (Z.of_nat (length records))
    ++ concat (map encode_record records).

Definition wf_record (r : MLDv2Record) : Prop :=
  length (mMulticastAddress r) = 16%nat
  /\ Forall (fun s => length s = 16%nat) (mSources r)
  /\ Z.of_nat (length (mSources r)) < 65536.

(** A well-formed report: well-formed records, at most 65535 of them, and a
    datagram that fits the receive buffer. *)
Definition wf_report (records : list MLDv2Record) : Prop :=
  Forall wf_record records
  /\ Z.of_nat (length records) < 65536
  /\ sizeof_MLDv2Header
     + Z.of_nat (length (concat (map encode_record records))) <= kMaxMLDEvent.

(** What the monitor asks of the stack for one record: a subscription for
    type 4, the end of one for type 3, nothing otherwise. *)
Definition record_call (r : MLDv2Record) : list StackCall :=
  if mRecordType r =? 4 then [SubscribeMulticastAddress (mMulticastAddress r)]
  else if mRecordType r =? 3 then [UnsubscribeMulticastAddress (mMulticastAddress r)]
  else [].

(* ================================================================== *)
(** ** A reference stack and host, to run the bridge on *)

(** The address tables are lists; an address that is already there is
    [Already], one that is not there is [NotFound]; [rs_buffers] octets of
    message data can still be allocated. *)
Record RefStack : Type := {
  rs_enabled : bool;
  rs_unicast : list otNetifAddress;
  rs_multicast : list in6_addr;
  rs_buffers : option nat;
  rs_sent : list otMessage
}.

Definition rs_with_unicast (l : list otNetifAddress) (s : RefStack) : RefStack :=
  {| rs_enabled := rs_enabled s; rs_unicast := l;
     rs_multicast := rs_multicast s; rs_buffers := rs_buffers s;
     rs_sent := rs_sent s |}.

Definition rs_with_multicast (l : list in6_addr) (s : RefStack) : RefStack :=
  {| rs_enabled := rs_enabled s; rs_unicast := rs_unicast s;
     rs_multicast := l; rs_buffers := rs_buffers s;
     rs_sent := rs_sent s |}.

Definition rs_knows_unicast (a : in6_addr) (s : RefStack) : bool :=
  existsb (fun x => in6_eqb (mAddress x) a) (rs_unicast s).

Definition rs_knows_multicast (a : in6_addr) (s : RefStack) : bool :=
  existsb (fun x => in6_eqb x a) (rs_multicast s).

#[export] Instance RefStack_OtStack : OtStack RefStack := {|
  stk_ip6_enabled := rs_enabled;
  stk_unicast_addresses := rs_unicast;
  stk_add_unicast a s :=
    if rs_knows_unicast (mAddress a) s then (OT_ERROR_ALREADY, s)
    else (OT_ERROR_NONE, rs_with_unicast (a :: rs_unicast s) s);
  stk_remove_unicast a s :=
    if rs_knows_unicast a s
    then (OT_ERROR_NONE,
          rs_with_unicast
            (filter (fun x => negb (in6_eqb (mAddress x) a)) (rs_unicast s)) s)
    else (OT_ERROR_NOT_FOUND, s);
  stk_subscribe_multicast a s :=
    if rs_knows_multicast a s then (OT_ERROR_ALREADY, s)
    else (OT_ERROR_NONE, rs_with_multicast (a :: rs_multicast s) s);
  stk_unsubscribe_multicast a s :=
    if rs_knows_multicast a s
    then (OT_ERROR_NONE,
          rs_with_multicast
            (filter (fun x => negb (in6_eqb x a)) (rs_multicast s)) s)
    else (OT_ERROR_NOT_FOUND, s);
  stk_has_buffers s n :=
    match rs_buffers s with
    | Some free => (n <=? free)%nat
    | None => false
    end;
  stk_send m s :=
    (OT_ERROR_NONE,
     {| rs_enabled := rs_enabled s; rs_unicast := rs_unicast s;
        rs_multicast := rs_multicast s; rs_buffers := rs_buffers s;
        rs_sent := rs_sent s ++ [m] |})
|}.

(** Header values for the runs: [AF_INET6] as the design document gives it
    ([0x000A]), [IFF_UP] the lowest flag bit, the routing-socket indices
    of the BSD headers, and the netif-state bit of the change mask. *)
Definition example_headers : Headers := {|
  AF_INET6 := 0x0A;
  PF_INET6 := 0x0A;
  IFF_UP := 0x1;
  RTAX_NETMASK := 2;
  RTAX_IFA := 5;
  RTAX_MAX := 8;
  OT_CHANGED_THREAD_NETIF_STATE := Z.shiftl 1 20
|}.

(** An initialised instance: the three descriptors and the MLD socket
    open, the tunnel [wpan0] with index 7. *)
Definition example_globals : Globals := {|
  sTunFd := 5; sIpFd := 3; sNetlinkFd := 4; sMLDMonitorFd := 6;
  sTunIndex := 7; sTunName := "wpan0"
|}.

(** A kernel that accepts every request, the link down. *)
Definition example_kernel : Kernel := {|
  k_ifflags := 0;
  k_ioctl_fault := fun _ => None;
  k_write_fault := None
|}.

(** A kernel that rejects the requests [rejects] selects with [e]. *)
Definition faulty_kernel (flags : Z) (rejects : Ioctl -> bool) (e : Errno)
  : Kernel := {|
  k_ifflags := flags;
  k_ioctl_fault := fun req => if rejects req then Some e else None;
  k_write_fault := None
|}.

Definition is_set_flags (req : Ioctl) : bool :=
  match req with SIOCSIFFLAGS _ _ => true | _ => false end.

Definition is_add_address (req : Ioctl) : bool :=
  match req with SIOCSIFADDR _ | SIOCAIFADDR_IN6 _ => true | _ => false end.

(** A stack with IPv6 enabled, no addresses and room for messages. *)
Definition example_stack : RefStack := {|
  rs_enabled := true; rs_unicast := []; rs_multicast := [];
  rs_buffers := Some 4096%nat; rs_sent := []
|}.

(** The same stack out of message buffers. *)
Definition exhausted_stack : RefStack := {|
  rs_enabled := true; rs_unicast := []; rs_multicast := [];
  rs_buffers := None; rs_sent := []
|}.

Definition example_world : World RefStack := {|
  globals := example_globals;
  kernel := example_kernel;
  stack := example_stack
|}.

(** [fe80::abcd], [ff03::abcd] and [2001:db8::1]. *)
Definition addr_fe80_abcd : in6_addr :=
  [0xfe; 0x80; 0; 0; 0; 0; 0; 0; 0; 0; 0; 0; 0; 0; 0xab; 0xcd].
Definition addr_ff03_abcd : in6_addr :=
  [0xff; 0x03; 0; 0; 0; 0; 0; 0; 0; 0; 0; 0; 0; 0; 0xab; 0xcd].
Definition addr_2001_db8_1 : in6_addr :=
  [0x20; 0x01; 0x0d; 0xb8; 0; 0; 0; 0; 0; 0; 0; 0; 0; 0; 0; 0x01].

(** A host whose kernel rejects the requests [rejects] selects. *)
Definition world_rejecting (rejects : Ioctl -> bool) (e : Errno)
  : World RefStack := {|
  globals := example_globals;
  kernel := faulty_kernel 0 rejects e;
  stack := example_stack
|}.

Definition exhausted_world : World RefStack := {|
  globals := example_globals;
  kernel := example_kernel;
  stack := exhausted_stack
|}.

(** The tunnel's own addresses, as [getifaddrs] lists them. *)
Definition own_addresses : list ifaddrs :=
  [ {| ifa_name := "lo"; ifa_addr := None |};
    {| ifa_name := "wpan0";
       ifa_addr := Some {| sin6_family := 0x0A;
                           sin6_addr := addr_fe80_abcd |} |} ].

(** The record of scenario S4: record type 3 for [ff03::abcd]. *)
Definition record_type3 : MLDv2Record := {|
  mRecordType := 3; mAuxDataLen := 0;
  mMulticastAddress := addr_ff03_abcd; mSources := []
|}.

(** A record of type 4 for [ff03::abcd] with one source. *)
Definition record_type4 : MLDv2Record := {|
  mRecordType := 4; mAuxDataLen := 0;
  mMulticastAddress := addr_ff03_abcd; mSources := [addr_2001_db8_1]
|}.

(** [RTM_NEWADDR] for [fe80::abcd/64] on the tunnel, netlink dialect. *)
Definition netlink_new_fe80 : nlmsg_addr := {|
  nlmsg_type := RTM_NEWADDR;
  ifa_family := 0x0A;
  ifa_prefixlen := 64;
  ifa_index := 7;
  ifa_attrs := [ {| rta_type := IFA_ADDRESS; rta_data := addr_fe80_abcd |} ]
|}.


(** An IPv6 datagram (its first octets) and the same behind the af-prefix. *)
Definition datagram : list Z :=
  [0x60; 0x00; 0x00; 0x00; 0x00; 0x08; 0x3a; 0x40].
Definition framed_datagram : list Z := [0x00; 0x00; 0x00; 0x0A] ++ datagram.

(* ================================================================== *)
(** ** The rest of the bridge: multicast, kernel events, the event loop,
    the set-up *)

(** The attributes of an address message that hold an address, and what
    the netlink handler asks of the stack for one when the address was
    deleted. *)
Definition is_address_attr (rta : rtattr) : bool :=
  match rta_type rta with IFA_other _ => false | _ => true end.

Definition netlink_del_call (rta : rtattr) : StackCall :=
  if IsMulticast (rta_data rta)
  then UnsubscribeMulticastAddress (rta_data rta)
  else RemoveUnicastAddress (rta_data rta).

(** The address the routing-socket handler works with: the address of the
    message with the scope the kernel embeds in octet 3 of a link-local
    address cleared. *)
Definition without_embedded_scope (a : in6_addr) : in6_addr :=
  if IN6_IS_ADDR_LINKLOCAL a || IN6_IS_ADDR_MC_LINKLOCAL a
  then set_octet a 3 0 else a.

(** The calls of the stack that change its addresses: add and remove of
    a unicast address, subscribe and unsubscribe of a multicast group. *)
Definition is_address_call (c : StackCall) : bool :=
  match c with
  | AddUnicastAddress _ | RemoveUnicastAddress _
  | SubscribeMulticastAddress _ | UnsubscribeMulticastAddress _ => true
  | _ => false
  end.

Definition address_calls_of (t : Trace) : list StackCall :=
  filter is_address_call (stack_calls_of t).

(** The messages given to [otMessageFree]. *)
Definition frees_of (t : Trace) : list otMessage :=
  flat_map
    (fun ev => match ev with EvStack (MessageFree m) => [m] | _ => [] end) t.

(** The multicast group a call of the stack is about. *)
Definition group_of_call (c : StackCall) : option in6_addr :=
  match c with
  | SubscribeMulticastAddress a | UnsubscribeMulticastAddress a => Some a
  | _ => None
  end.

Record ipv6_mreq : Type := {
  ipv6mr_multiaddr : in6_addr;
  ipv6mr_interface : Z
}.

Inductive SockOpt : Type :=
| IPV6_JOIN_GROUP (mreq : ipv6_mreq)
| IPV6_LEAVE_GROUP (mreq : ipv6_mreq).

(** What the set-up opens: the ip socket
    ([SocketWithCloseExec(AF_INET6, SOCK_DGRAM, IPPROTO_IP)]), the event
    socket ([AF_NETLINK] on Linux, [PF_ROUTE] elsewhere), the tunnel device
    and the MLD socket ([AF_INET6, SOCK_RAW, IPPROTO_ICMPV6]). *)
Inductive Endpoint : Type :=
| IpSocket
| EventSocket
| TunDevice (path : string)
| MldSocket.

(** The requests of the set-up on a descriptor it has opened: [bind] to
    the netlink groups, the message filter and [O_NONBLOCK] of the routing
    socket, the tunnel [ioctl]s, and the two socket options of the MLD
    socket. *)
Inductive SetupCall : Type :=
| BindNetlinkGroups
| SetRouteFilter
| SetNonBlock
| TUNSETIFF (ifr_name : string)
| TUNSETLINK
| TUNSIFMODE
| TUNSIFHEAD
| MldJoinGroup (mreq : ipv6_mreq)
| MldBindToDevice (name : string).

(** What the set-up registers with the stack and the other platform
    modules. *)
Inductive StackSetup : Type :=
| SetEchoModeDisabled
| PlatformUdpInit (name : string)
| SetReceiveCallback
| SetAddressCallback
| SetStateChangedCallback
| SetMulticastPromiscuous.

(** The events of the whole bridge: those of the functions above, and the
    further calls the functions below make. *)
Inductive XEvent : Type :=
| XCore (ev : Event)
| XSetsockopt (fd : Z) (opt : SockOpt)
| XSetEnabled (enabled : bool)
| XOpen (e : Endpoint)
| XSetup (fd : Z) (c : SetupCall)
| XIfNameToIndex (name : string)
| XStackSetup (c : StackSetup).

(** The host during the set-up: the descriptor an [open] or [socket]
    returns ([-1] on failure), the requests it refuses, the name
    [TUNSETIFF] leaves in [ifr_name] for the name or pattern it was given,
    and [if_nametoindex] ([0] for no such interface). *)
Record Host : Type := {
  host_open : Endpoint -> Z;
  host_refuses : SetupCall -> option Errno;
  host_tun_name : string -> string;
  host_if_nametoindex : string -> Z
}.

(** [ff02::16]. *)
Definition kMLDv2MulticastAddress : in6_addr :=
  [0xff; 0x02; 0x00; 0x00; 0x00; 0x00; 0x00; 0x00;
   0x00; 0x00; 0x00; 0x00; 0x00; 0x00; 0x00; 0x16].

Definition with_sTunName (v : string) (g : Globals) : Globals :=
  {| sTunFd := sTunFd g; sIpFd := sIpFd g; sNetlinkFd := sNetlinkFd g;
     sMLDMonitorFd := sMLDMonitorFd g; sTunIndex := sTunIndex g;
     sTunName := v |}.

(** [OPENTHREAD_POSIX_TUN_DEVICE] as the file defines it when the build
    does not, and what follows the last slash of the BSD one. *)
Definition OPENTHREAD_POSIX_TUN_DEVICE (p : Platform) : string :=
  match p with Linux => "/dev/net/tun" | _ => "/dev/tun0" end.

Definition tun_device_basename : string := "tun0".

(** [#if OPENTHREAD_POSIX_MULTICAST_PROMISCUOUS_REQUIRED]. *)
Definition OPENTHREAD_POSIX_MULTICAST_PROMISCUOUS_REQUIRED (p : Platform)
  : bool :=
  negb (OPENTHREAD_POSIX_USE_MLD_MONITOR p)
  && match p with NetBSD => true | _ => false end.

(** The descriptors of the set-up, in the order it opens them. *)
Definition setup_opens (e : XEvent) : list Endpoint :=
  match e with XOpen ep => [ep] | _ => [] end.

Definition opens_of (t : list XEvent) : list Endpoint :=
  flat_map setup_opens t.

Definition setups_of (t : list XEvent) : list (Z * SetupCall) :=
  flat_map (fun ev => match ev with XSetup fd c => [(fd, c)] | _ => [] end) t.

Definition XTrace := list XEvent.

Definition core_events (t : XTrace) : Trace :=
  flat_map (fun ev => match ev with XCore e => [e] | _ => [] end) t.

Definition setsockopts_of (t : XTrace) : list (Z * SockOpt) :=
  flat_map (fun ev => match ev with XSetsockopt fd o => [(fd, o)] | _ => [] end)
    t.

(** The values given to [otIp6SetEnabled]. *)
Definition set_enabled_of (t : XTrace) : list bool :=
  flat_map (fun ev => match ev with XSetEnabled b => [b] | _ => [] end) t.

(** [otIp6SetEnabled], the one call of the stack's API the functions above
    do not make. *)
Class OtStackLink (St : Type) : Type := {
  stk_set_enabled : bool -> St -> otError * St
}.

(** [struct ifinfomsg], the fields the bridge reads. *)
Record ifinfomsg : Type := {
  ifi_index : Z;
  ifi_flags : Z
}.

(** One netlink message of a datagram: its payload as the address handler
    reads it (with the [nlmsghdr] type) and as the link handler reads it. *)
Record nlmsghdr : Type := {
  nh_ifaddr : nlmsg_addr;
  nh_ifinfo : ifinfomsg
}.

(** The message of a routing socket: as the address handler reads it, and
    the interface index of the [if_msghdr] view. *)
Record route_msg : Type := {
  rm_hdr : rt_msghdr;
  ifm_index : Z
}.

(** What a netlink message of a datagram asks of [otIp6SetEnabled]: a link
    message of the interface [index] carries the flags of the interface. *)
Definition link_change (hdr : Headers) (index : Z) (msg : nlmsghdr)
  : list bool :=
  match nlmsg_type (nh_ifaddr msg) with
  | RTM_NEWLINK | RTM_DELLINK =>
      if ifi_index (nh_ifinfo msg) =? index
      then [negb (Z.land (ifi_flags (nh_ifinfo msg)) (IFF_UP hdr) =? 0)]
      else []
  | _ => []
  end.

(** The descriptors the event loop watches. *)
Definition watched_fds (platform : Platform) (g : Globals) : list Z :=
  [sTunFd g; sNetlinkFd g]
    ++ if OPENTHREAD_POSIX_USE_MLD_MONITOR platform then [sMLDMonitorFd g]
       else [].

(** [fd_set]: the descriptors in the set. *)
Definition fd_set := Z -> bool.

Definition FD_ISSET (fd : Z) (s : fd_set) : bool := s fd.

(** How [platformNetifUpdateFdSet] ends: with the sets and the maximum, on
    a failed [assert], or with a descriptor that is no index of an
    [fd_set]. *)
Inductive FdSetOutcome : Type :=
| FdSets (aReadFdSet aErrorFdSet : fd_set) (aMaxFd : Z)
| AssertFailed
| FdOutOfRange.

Section BridgeRest.

Context {St : Type} `{OtStack St} `{OtStackLink St}.
Variable hdr : Headers.
Variable platform : Platform.

(** Constants of headers that are not part of the sources: the exit code
    of the [SuccessOrDie] macro of platform-posix.h for an error, and
    [FD_SETSIZE] of <sys/select.h>. *)
Variable SuccessOrDie_code : otError -> ExitCode.
Variable FD_SETSIZE : Z.

Definition MX (A : Type) : Type := World St -> XTrace * Result (St := St) A.

Definition retX {A} (a : A) : MX A := fun w => ([], Normal a w).

Definition bindX {A B} (m : MX A) (k : A -> MX B) : MX B :=
  fun w =>
    match m w with
    | (t, Normal a w') => let (t', r) := k a w' in (t ++ t', r)
    | (t, Goto e w') => (t, Goto e w')
    | (t, Dead c) => (t, Dead c)
    | (t, Fault) => (t, Fault)
    end.

Notation "x <- m ;; k" := (bindX m (fun x => k))
  (at level 61, m at next level, right associativity).
Notation "m ;; k" := (bindX m (fun _ => k))
  (at level 61, right associativity).

(** A function of the first part run as part of the whole. *)
Definition core {A} (m : M St A) : MX A :=
  fun w => let (t, r) := m w in (map XCore t, r).

Definition at_exitX (body : MX otError) (handler : otError -> MX unit)
  : MX unit :=
  fun w =>
    match body w with
    | (t, Normal e w') | (t, Goto e w') =>
        let (t', r) := handler e w' in (t ++ t', r)
    | (t, Dead c) => (t, Dead c)
    | (t, Fault) => (t, Fault)
    end.

Definition SuccessOrDie (error : otError) : MX unit :=
  if otError_is_none error then retX tt
  else core (die (SuccessOrDie_code error)).

Definition DieNow {A} (code : ExitCode) : MX A := core (die code).

(** [setsockopt] on the ip socket; [rejects] tells which requests the
    kernel refuses, and with what. *)
Definition setsockopt (rejects : SockOpt -> option Errno) (fd : Z)
    (opt : SockOpt) : MX SysRet :=
  fun w =>
    ([XSetsockopt fd opt],
     Normal (if fd <? 0 then SysErr EBADF
             else match rejects opt with
                  | Some e => SysErr e
                  | None => SysOk 0
                  end) w).

Definition otIp6SetEnabled (aEnabled : bool) : MX otError :=
  fun w =>
    let (e, s') := stk_set_enabled aEnabled (stack w) in
    ([XSetEnabled aEnabled],
     Normal e {| globals := globals w; kernel := kernel w; stack := s' |}).

(** *** [UpdateMulticast] and [processAddressChange] *)

Definition UpdateMulticast (rejects : SockOpt -> option Errno)
    (aAddress : in6_addr) (aIsAdded : bool) : MX unit :=
  at_exitX
    (g <- core get_globals ;;
     core (VerifyOrExit (sIpFd g >=? 0) OT_ERROR_NONE) ;;
     let mreq := {| ipv6mr_multiaddr := aAddress;
                    ipv6mr_interface := sTunIndex g |} in
     err <- setsockopt rejects (sIpFd g)
              (if aIsAdded then IPV6_JOIN_GROUP mreq
               else IPV6_LEAVE_GROUP mreq) ;;
     let quirk :=
       match err with
       | SysErr EINVAL => IN6_IS_ADDR_MC_LINKLOCAL aAddress
       | _ => false
       end in
     (if quirk then core otLogWarnPlat else retX tt) ;;
     let err := if quirk then SysOk 0 else err in
     (if negb (sys_is_zero err) then core otLogWarnPlat else retX tt) ;;
     (if sys_is_zero err then retX tt
      else core (perror "setsockopt") ;; core (goto_exit OT_ERROR_FAILED)) ;;
     retX OT_ERROR_NONE)
    (fun error => SuccessOrDie error ;; core otLogInfoPlat).

Definition processAddressChange (rejects : SockOpt -> option Errno)
    (aAddress : in6_addr) (aPrefixLength : Z) (aIsAdded : bool) : MX unit :=
  if nth 0 aAddress 0 =? 0xff
  then UpdateMulticast rejects aAddress aIsAdded
  else core (UpdateUnicast platform aAddress aPrefixLength aIsAdded).

(** *** [processNetifLinkEvent] (Linux) and [processNetifInfoEvent] (BSD) *)

Definition processNetifLinkEvent (ifinfo : ifinfomsg) : MX unit :=
  at_exitX
    (g <- core get_globals ;;
     core (VerifyOrExit (ifi_index ifinfo =? sTunIndex g) OT_ERROR_NONE) ;;
     error <- otIp6SetEnabled
                (negb (Z.land (ifi_flags ifinfo) (IFF_UP hdr) =? 0)) ;;
     core (SuccessOrExit error) ;;
     retX error)
    (fun error => core (log_error error)).

Definition processNetifInfoEvent (ifm : route_msg) : MX unit :=
  at_exitX
    (g <- core get_globals ;;
     core (VerifyOrExit (ifm_index ifm =? sTunIndex g) OT_ERROR_NONE) ;;
     core (UpdateLink hdr) ;;
     retX OT_ERROR_NONE)
    (fun error => core (log_error error)).

(** *** [processNetifEvent] *)

(** The [switch] on the message type, netlink dialect: address and link
    messages go to their handlers, any other type is reported. *)
Definition dispatch_netlink (msg : nlmsghdr) : MX unit :=
  match nlmsg_type (nh_ifaddr msg) with
  | RTM_NEWADDR | RTM_DELADDR =>
      core (processNetifAddrEvent_netlink hdr (nh_ifaddr msg))
  | RTM_NEWLINK | RTM_DELLINK => processNetifLinkEvent (nh_ifinfo msg)
  | _ => core otLogWarnPlat
  end.

(** The loop [NLMSG_OK] / [NLMSG_NEXT] over the messages of a datagram. *)
Fixpoint netlink_messages (msgs : list nlmsghdr) : MX unit :=
  match msgs with
  | [] => retX tt
  | msg :: rest => dispatch_netlink msg ;; netlink_messages rest
  end.

(** The [switch], routing-socket dialect; [netmask_uninit] as in the
    address handler. *)
Definition dispatch_route (msg : route_msg) (netmask_uninit : in6_addr)
  : MX unit :=
  match rtm_type (rm_hdr msg) with
  | RTM_NEWADDR | RTM_DELADDR =>
      core (processNetifAddrEvent_route hdr platform (rm_hdr msg)
              netmask_uninit)
  | RTM_NEWMADDR | RTM_DELMADDR =>
      if has_RTM_NEWMADDR platform
      then core (processNetifAddrEvent_route hdr platform (rm_hdr msg)
                   netmask_uninit)
      else core otLogWarnPlat
  | RTM_IFINFO => processNetifInfoEvent msg
  | _ => core otLogWarnPlat
  end.

(** What [recv] on the event socket returns: nothing (an error or an
    empty read), or a datagram as the dialect of the platform parses it. *)
Inductive NetifRecv : Type :=
| NetifNothing
| NetifNetlink (msgs : list nlmsghdr)
| NetifRoute (msg : route_msg) (netmask_uninit : in6_addr).

(** On Linux the buffer is walked as netlink messages, elsewhere it is one
    routing message; a datagram of the other dialect does not occur and is
    read as nothing. *)
Definition processNetifEvent (rv : NetifRecv) : MX unit :=
  match rv with
  | NetifNothing => retX tt
  | NetifNetlink msgs =>
      if bsd_like platform then retX tt else netlink_messages msgs
  | NetifRoute msg netmask_uninit =>
      if bsd_like platform then dispatch_route msg netmask_uninit
      else retX tt
  end.

(** *** [platformNetifUpdateFdSet] and [platformNetifProcess] *)

(** [FD_SET]; a descriptor outside [0, FD_SETSIZE) is no index of the
    set. *)
Definition FD_SET (fd : Z) (s : fd_set) : option fd_set :=
  if (0 <=? fd) && (fd <? FD_SETSIZE)
  then Some (fun x => (x =? fd) || s x)
  else None.

Definition raise_max (fd aMaxFd : Z) : Z :=
  if fd >? aMaxFd then fd else aMaxFd.

Definition platformNetifUpdateFdSet (g : Globals)
    (aReadFdSet aErrorFdSet : fd_set) (aMaxFd : Z) : FdSetOutcome :=
  if negb (sTunIndex g >? 0) then FdSets aReadFdSet aErrorFdSet aMaxFd
  else if negb ((sTunFd g >=? 0) && (sNetlinkFd g >=? 0) && (sIpFd g >=? 0))
  then AssertFailed
  else
    let mld := OPENTHREAD_POSIX_USE_MLD_MONITOR platform in
    match FD_SET (sTunFd g) aReadFdSet, FD_SET (sTunFd g) aErrorFdSet with
    | Some r1, Some e1 =>
        match FD_SET (sNetlinkFd g) r1, FD_SET (sNetlinkFd g) e1 with
        | Some r2, Some e2 =>
            let m2 := raise_max (sNetlinkFd g) (raise_max (sTunFd g) aMaxFd) in
            if mld then
              match FD_SET (sMLDMonitorFd g) r2,
                    FD_SET (sMLDMonitorFd g) e2 with
              | Some r3, Some e3 =>
                  FdSets r3 e3 (raise_max (sMLDMonitorFd g) m2)
              | _, _ => FdOutOfRange
              end
            else FdSets r2 e2 m2
        | _, _ => FdOutOfRange
        end
    | _, _ => FdOutOfRange
    end.

(** The event loop's entry point; the arguments after the sets are what
    the three descriptors deliver when they are read. *)
Definition platformNetifProcess (aReadFdSet aErrorFdSet : fd_set)
    (tun_read : ReadResult) (netif_recv : NetifRecv)
    (mld_recv : RecvResult) (getifaddrs : option (list ifaddrs))
  : MX unit :=
  let mld := OPENTHREAD_POSIX_USE_MLD_MONITOR platform in
  at_exitX
    (g <- core get_globals ;;
     core (VerifyOrExit (sTunIndex g >? 0) OT_ERROR_NONE) ;;
     g <- core get_globals ;;
     (if FD_ISSET (sTunFd g) aErrorFdSet
      then core (close (sTunFd g)) ;; DieNow OT_EXIT_FAILURE
      else retX tt) ;;
     g <- core get_globals ;;
     (if FD_ISSET (sNetlinkFd g) aErrorFdSet
      then core (close (sNetlinkFd g)) ;; DieNow OT_EXIT_FAILURE
      else retX tt) ;;
     g <- core get_globals ;;
     (if mld && FD_ISSET (sMLDMonitorFd g) aErrorFdSet
      then core (close (sMLDMonitorFd g)) ;; DieNow OT_EXIT_FAILURE
      else retX tt) ;;
     g <- core get_globals ;;
     (if FD_ISSET (sTunFd g) aReadFdSet
      then core (processTransmit platform tun_read)
      else retX tt) ;;
     g <- core get_globals ;;
     (if FD_ISSET (sNetlinkFd g) aReadFdSet
      then processNetifEvent netif_recv
      else retX tt) ;;
     g <- core get_globals ;;
     (if mld && FD_ISSET (sMLDMonitorFd g) aReadFdSet
      then core (processMLDEvent hdr mld_recv getifaddrs)
      else retX tt) ;;
     retX OT_ERROR_NONE)
    (fun _ => retX tt).

End BridgeRest.

Arguments MX St A : clear implicits.

Section BridgeSetup.

Context {St : Type} `{OtStack St}.
Variable platform : Platform.

(** Two switches of the build the sources do not fix: whether the routing
    socket has a message filter ([ROUTE_FILTER] or [RO_MSGFILTER] of
    <net/route.h>), and [OPENTHREAD_CONFIG_PLATFORM_UDP_ENABLE]. *)
Variable has_route_msgfilter : bool.
Variable OPENTHREAD_CONFIG_PLATFORM_UDP_ENABLE : bool.

Variable host : Host.

Notation "x <- m ;; k" := (bindX m (fun x => k))
  (at level 61, m at next level, right associativity).
Notation "m ;; k" := (bindX m (fun _ => k))
  (at level 61, right associativity).

Definition open_endpoint (e : Endpoint) : MX St Z :=
  fun w => ([XOpen e], Normal (host_open host e) w).

(** A request of the set-up on [fd]; a descriptor that is not open gives
    [EBADF]. *)
Definition setup_call (fd : Z) (c : SetupCall) : MX St SysRet :=
  fun w =>
    ([XSetup fd c],
     Normal (if fd <? 0 then SysErr EBADF
             else match host_refuses host c with
                  | Some e => SysErr e
                  | None => SysOk 0
                  end) w).

Definition if_nametoindex (name : string) : MX St Z :=
  fun w => ([XIfNameToIndex name], Normal (host_if_nametoindex host name) w).

Definition stack_setup (c : StackSetup) : MX St unit :=
  fun w => ([XStackSetup c], Normal tt w).

(** [strncpy(dst, src, IFNAMSIZ)] into a name of [IFNAMSIZ] octets. *)
Definition strncpy_name (src : string) : string := substring 0 IFNAMSIZ src.

(** *** [platformConfigureNetLink] *)

Definition platformConfigureNetLink : MX St unit :=
  fd <- open_endpoint EventSocket ;;
  core (modify_globals (with_sNetlinkFd fd)) ;;
  core (VerifyOrDie (fd >=? 0) OT_EXIT_ERROR_ERRNO) ;;
  if bsd_like platform then
    (if has_route_msgfilter then
       status <- setup_call fd SetRouteFilter ;;
       core (VerifyOrDie (sys_is_zero status) OT_EXIT_ERROR_ERRNO)
     else retX tt) ;;
    status <- setup_call fd SetNonBlock ;;
    core (VerifyOrDie (sys_is_zero status) OT_EXIT_ERROR_ERRNO)
  else
    r <- setup_call fd BindNetlinkGroups ;;
    core (VerifyOrDie (sys_is_zero r) OT_EXIT_ERROR_ERRNO).

(** *** [platformConfigureTunDevice]: the Linux one, and the one of
    NetBSD, FreeBSD and mac OS with [USE_TUN] *)

Definition platformConfigureTunDevice (aInterfaceName : option string)
  : MX St unit :=
  fd <- open_endpoint (TunDevice (OPENTHREAD_POSIX_TUN_DEVICE platform)) ;;
  core (modify_globals (with_sTunFd fd)) ;;
  core (VerifyOrDie (fd >=? 0) OT_EXIT_ERROR_ERRNO) ;;
  if bsd_like platform then
    (if has_destroyTunnel platform then
       err <- setup_call fd TUNSIFMODE ;;
       core (VerifyOrDie (sys_is_zero err) OT_EXIT_ERROR_ERRNO)
     else retX tt) ;;
    err <- setup_call fd TUNSIFHEAD ;;
    core (VerifyOrDie (sys_is_zero err) OT_EXIT_ERROR_ERRNO) ;;
    core (modify_globals (with_sTunName (strncpy_name tun_device_basename)))
  else
    ifr_name <-
      match aInterfaceName with
      | Some name =>
          core (VerifyOrDie (String.length name <? IFNAMSIZ)%nat
                  OT_EXIT_INVALID_ARGUMENTS) ;;
          retX (strncpy_name name)
      | None => retX (strncpy_name "wpan%d")
      end ;;
    r <- setup_call fd (TUNSETIFF ifr_name) ;;
    core (VerifyOrDie (sys_is_zero r) OT_EXIT_ERROR_ERRNO) ;;
    r <- setup_call fd TUNSETLINK ;;
    core (VerifyOrDie (sys_is_zero r) OT_EXIT_ERROR_ERRNO) ;;
    core (modify_globals
            (with_sTunName (strncpy_name (host_tun_name host ifr_name)))).

(** *** [mldListenerInit] (with the MLD monitor only) *)

Definition mldListenerInit : MX St unit :=
  fd <- open_endpoint MldSocket ;;
  core (modify_globals (with_sMLDMonitorFd fd)) ;;
  g <- core get_globals ;;
  r <- setup_call (sMLDMonitorFd g)
         (MldJoinGroup {| ipv6mr_multiaddr := kMLDv2MulticastAddress;
                          ipv6mr_interface := sTunIndex g |}) ;;
  core (VerifyOrDie (sys_is_zero r) OT_EXIT_FAILURE) ;;
  if bsd_like platform then retX tt
  else
    r <- setup_call (sMLDMonitorFd g)
           (MldBindToDevice (strncpy_name (sTunName g))) ;;
    core (VerifyOrDie (sys_is_zero r) OT_EXIT_FAILURE).

(** *** [platformNetifInit] *)

Definition platformNetifInit (aInterfaceName : option string) : MX St unit :=
  fd <- open_endpoint IpSocket ;;
  core (modify_globals (with_sIpFd fd)) ;;
  core (VerifyOrDie (fd >=? 0) OT_EXIT_ERROR_ERRNO) ;;
  stack_setup SetEchoModeDisabled ;;
  platformConfigureNetLink ;;
  platformConfigureTunDevice aInterfaceName ;;
  g <- core get_globals ;;
  index <- if_nametoindex (sTunName g) ;;
  core (modify_globals (with_sTunIndex index)) ;;
  core (VerifyOrDie (index >? 0) OT_EXIT_FAILURE) ;;
  (if OPENTHREAD_CONFIG_PLATFORM_UDP_ENABLE
   then stack_setup (PlatformUdpInit (sTunName g)) else retX tt) ;;
  (if OPENTHREAD_POSIX_USE_MLD_MONITOR platform
   then mldListenerInit else retX tt) ;;
  stack_setup SetReceiveCallback ;;
  stack_setup SetAddressCallback ;;
  stack_setup SetStateChangedCallback ;;
  (if OPENTHREAD_POSIX_MULTICAST_PROMISCUOUS_REQUIRED platform
   then stack_setup SetMulticastPromiscuous else retX tt).

End BridgeSetup.

#[export] Instance RefStack_OtStackLink : OtStackLink RefStack := {|
  stk_set_enabled b s :=
    (OT_ERROR_NONE,
     {| rs_enabled := b; rs_unicast := rs_unicast s;
        rs_multicast := rs_multicast s; rs_buffers := rs_buffers s;
        rs_sent := rs_sent s |})
|}.

(** [SuccessOrDie] as platform-posix.h has it upstream, and the usual
    [FD_SETSIZE], for the runs. *)
Definition example_SuccessOrDie_code (e : otError) : ExitCode :=
  OT_EXIT_FAILURE.

Definition example_FD_SETSIZE : Z := 1024.

(** No descriptor. *)
Definition no_fds : fd_set := fun _ => false.

(** The state before the set-up, as the initialisers of the file leave
    it. *)
Definition initial_globals : Globals := {|
  sTunFd := -1; sIpFd := -1; sNetlinkFd := -1; sMLDMonitorFd := -1;
  sTunIndex := 0; sTunName := ""
|}.

Definition initial_world : World RefStack := {|
  globals := initial_globals; kernel := example_kernel;
  stack := example_stack
|}.

(** A host that opens the descriptors 3, 4, 5 and 6, refuses nothing,
    names the tunnel [wpan0] and has it at index 7. *)
Definition example_host : Host := {|
  host_open e :=
    match e with
    | IpSocket => 3 | EventSocket => 4 | TunDevice _ => 5 | MldSocket => 6
    end;
  host_refuses _ := None;
  host_tun_name _ := "wpan0"%string;
  host_if_nametoindex name := if String.eqb name "wpan0" then 7 else 0
|}.

(** The descriptors [l] as a set. *)
Definition fd_set_of (l : list Z) : fd_set :=
  fun fd => existsb (Z.eqb fd) l.

(** A kernel that takes every socket option, and one that answers [e] to
    each. *)
Definition sockopt_accepted : SockOpt -> option Errno := fun _ => None.
Definition sockopt_refused (e : Errno) : SockOpt -> option Errno :=
  fun _ => Some e.

(** [ff02::1], a link-local group. *)
Definition addr_ff02_1 : in6_addr :=
  [0xff; 0x02; 0; 0; 0; 0; 0; 0; 0; 0; 0; 0; 0; 0; 0; 0x01].

(** The example instance with the stack holding [a] with a /64 prefix. *)
Definition world_knowing (a : in6_addr) : World RefStack := {|
  globals := example_globals;
  kernel := example_kernel;
  stack := rs_with_unicast [ {| mAddress := a; mPrefixLength := 64 |} ]
             example_stack
|}.

(** A netlink address message for the interface [index] with the
    attributes [attrs]. *)
Definition netlink_address_message (type : MsgType) (index : Z)
    (attrs : list rtattr) : nlmsg_addr := {|
  nlmsg_type := type;
  ifa_family := 0x0A;
  ifa_prefixlen := 64;
  ifa_index := index;
  ifa_attrs := attrs
|}.

(** Three attributes: [2001:db8::1], one that is no address, and
    [ff03::abcd]. *)
Definition three_attributes : list rtattr :=
  [ {| rta_type := IFA_ADDRESS; rta_data := addr_2001_db8_1 |};
    {| rta_type := IFA_other 6; rta_data := [] |};
    {| rta_type := IFA_LOCAL; rta_data := addr_ff03_abcd |} ].

(** A routing-socket address message for the interface [index]: a /64
    netmask at [RTAX_NETMASK] and [a] at [RTAX_IFA]. *)
Definition route_address_message (type : MsgType) (index : Z)
    (a : in6_addr) : rt_msghdr := {|
  rtm_type := type;
  rtm_index := index;
  rtm_addrs := Z.lor (Z.shiftl 1 2) (Z.shiftl 1 5);
  rtm_sockaddrs :=
    [ {| sin6_family := 0x0A; sin6_addr := leading_ones_mask 64 |};
      {| sin6_family := 0x0A; sin6_addr := a |} ]
|}.

(** [fe80:7::abcd]: [fe80::abcd] with the scope the kernel embeds. *)
Definition addr_fe80_abcd_scoped : in6_addr :=
  [0xfe; 0x80; 0; 0x07; 0; 0; 0; 0; 0; 0; 0; 0; 0; 0; 0xab; 0xcd].

(** A netlink link message for the interface [index] with the flags
    [flags]. *)
Definition netlink_link_message (type : MsgType) (index flags : Z)
  : nlmsghdr := {|
  nh_ifaddr := netlink_address_message type index [];
  nh_ifinfo := {| ifi_index := index; ifi_flags := flags |}
|}.

(** [RTM_IFINFO] for the interface [index]. *)
Definition route_ifinfo_message (index : Z) : route_msg := {|
  rm_hdr := {| rtm_type := RTM_IFINFO; rtm_index := index; rtm_addrs := 0;
               rtm_sockaddrs := [] |};
  ifm_index := index
|}.

(** A message of the stack that does not fit the tunnel's buffer. *)
Definition oversize_message : otMessage := repeat 0 1537.

(** An MLDv2 report that announces 65535 records and carries none. *)
Definition overstated_report : list Z := [143; 0; 0; 0; 0; 0; 0xff; 0xff].

(** Header values of an af-prefix platform: on FreeBSD [AF_INET6] and
    [PF_INET6] are 28; the other values as above. *)
Definition freebsd_headers : Headers := {|
  AF_INET6 := 28;
  PF_INET6 := 28;
  IFF_UP := 0x1;
  RTAX_NETMASK := 2;
  RTAX_IFA := 5;
  RTAX_MAX := 8;
  OT_CHANGED_THREAD_NETIF_STATE := Z.shiftl 1 20
|}.

(** Simplification inside the packet shuttle that leaves the arithmetic
    on lengths alone. *)
Ltac shuttle_cbn :=
  cbn -[Z.to_nat Z.of_nat Nat.min firstn skipn Z.modulo Z.eqb Z.gtb Z.geb
          Z.add Z.sub].

(** The set-up unfolded, reduced and split on the answers of the host. *)
Ltac setup_unfold :=
  unfold platformNetifInit, platformConfigureNetLink,
    platformConfigureTunDevice, mldListenerInit, open_endpoint, setup_call,
    if_nametoindex, stack_setup, bindX, core, modify_globals, bind,
    get_globals, set_globals, VerifyOrDie, die, retX, ret.

Ltac setup_cbn :=
  cbn [globals kernel stack fst snd app map negb andb
       with_sTunFd with_sIpFd with_sNetlinkFd with_sMLDMonitorFd
       with_sTunIndex with_sTunName
       sTunFd sIpFd sNetlinkFd sMLDMonitorFd sTunIndex sTunName
       bsd_like has_destroyTunnel has_RTM_NEWMADDR
       OPENTHREAD_POSIX_USE_MLD_MONITOR
       OPENTHREAD_POSIX_MULTICAST_PROMISCUOUS_REQUIRED
       OPENTHREAD_POSIX_TUN_DEVICE sys_is_zero Z.eqb].

Ltac setup_step :=
  match goal with
  | |- context [host_refuses ?h ?c] =>
      lazymatch goal with
      | E : host_refuses h c = _ |- _ => rewrite E
      | _ => destruct (host_refuses h c) eqn:?
      end
  | |- context [if ?c then _ else _] =>
      lazymatch goal with
      | E : c = _ |- _ => rewrite E
      | _ => destruct c eqn:?
      end
  end; setup_cbn.

Ltac setup_facts :=
  repeat match goal with
         | E : sys_is_zero (if ?c then _ else _) = _ |- _ =>
             destruct c eqn:?; cbn [sys_is_zero] in E; try discriminate E
         | E : sys_is_zero (SysOk 0) = _ |- _ => clear E
         end.

(* ================================================================== *)
(** ** Prefix lengths and prefix masks *)

(** A property checked on the 256 octets holds of every octet. *)
Lemma byte_cases (P : Z -> bool) :
  forallb P (map Z.of_nat (seq 0 256)) = true ->
  forall b, byte_ok b -> P b = true.
Proof.
  intros Hall b Hb.
  rewrite forallb_forall in Hall. apply Hall.
  rewrite in_map_iff. exists (Z.to_nat b). split.
  - unfold byte_ok in Hb. lia.
  - apply in_seq. unfold byte_ok in Hb. lia.
Qed.

Lemma count_byte_bits_acc (n : nat) (b r : Z) :
  count_byte_bits n b r = r + count_byte_bits n b 0.
Proof.
  revert r. induction n as [|j IH]; intros r; simpl.
  - lia.
  - destruct (negb (Z.land b (Z.shiftl 1 (Z.of_nat j)) =? 0)).
    + rewrite (IH (r + 1)), (IH 1). lia.
    + lia.
Qed.

Lemma count_byte_bits_leading (b : Z) :
  byte_ok b ->
  count_byte_bits 8 b 0 = Z.of_nat (leading_ones (bits_of_byte b)).
Proof.
  intros Hb.
  apply Z.eqb_eq.
  apply (byte_cases
           (fun b => count_byte_bits 8 b 0
                     =? Z.of_nat (leading_ones (bits_of_byte b)))); [|exact Hb].
  vm_compute. reflexivity.
Qed.

Lemma partial_byte_has_zero (b : Z) :
  byte_ok b -> b <> 0xFF -> existsb negb (bits_of_byte b) = true.
Proof.
  intros Hb Hne.
  assert (Hc : (b =? 0xFF) || existsb negb (bits_of_byte b) = true).
  { apply (byte_cases (fun b => (b =? 0xFF) || existsb negb (bits_of_byte b)));
      [vm_compute; reflexivity | exact Hb]. }
  apply orb_true_iff in Hc. destruct Hc as [Hc|Hc]; [|exact Hc].
  apply Z.eqb_eq in Hc. contradiction.
Qed.

Lemma leading_ones_stops (l rest : list bool) :
  existsb negb l = true -> leading_ones (l ++ rest) = leading_ones l.
Proof.
  induction l as [|x l IH]; simpl; intros Hex.
  - discriminate.
  - destruct x; simpl in *.
    + f_equal. apply IH. exact Hex.
    + reflexivity.
Qed.

Lemma calculate_prefix_len_from_leading (l : list Z) (r : Z) :
  Forall byte_ok l ->
  calculate_prefix_len_from l r = r + Z.of_nat (leading_ones (bits_of_bytes l)).
Proof.
  intros Hl. revert r.
  induction Hl as [|b l Hb Hl IH]; intros r.
  - simpl. lia.
  - change (bits_of_bytes (b :: l)) with (bits_of_byte b ++ bits_of_bytes l).
    cbn [calculate_prefix_len_from].
    destruct (b =? 255) eqn:E.
    + apply Z.eqb_eq in E. subst b. rewrite IH.
      change (bits_of_byte 255) with (repeat true 8).
      cbn [repeat app leading_ones]. lia.
    + apply Z.eqb_neq in E.
      rewrite leading_ones_stops by (apply partial_byte_has_zero; assumption).
      rewrite count_byte_bits_acc, count_byte_bits_leading by assumption.
      reflexivity.
Qed.

(** [calculate_prefix_len] returns the number of leading one-bits of any
    netmask, contiguous or not. *)
Lemma calculate_prefix_len_counts (mask : in6_addr) :
  Forall byte_ok mask ->
  calculate_prefix_len mask = Z.of_nat (leading_ones (bits_of_bytes mask)).
Proof.
  intros Hm. unfold calculate_prefix_len.
  rewrite calculate_prefix_len_from_leading by exact Hm. lia.
Qed.

Lemma list8_inv {A} (l : list A) :
  length l = 8%nat ->
  exists a b c d e f g h, l = [a; b; c; d; e; f; g; h].
Proof.
  intros Hl.
  do 8 (destruct l as [|? l]; [discriminate|]).
  destruct l; [|discriminate].
  repeat eexists.
Qed.

Lemma byte_of_bits_roundtrip (bs : list bool) :
  length bs = 8%nat ->
  bits_of_byte (byte_of_bits bs) = bs /\ byte_ok (byte_of_bits bs).
Proof.
  intros Hl.
  destruct (list8_inv bs Hl) as (a & b & c & d & e & f & g & h & ->).
  destruct a, b, c, d, e, f, g, h;
    (split; [reflexivity | unfold byte_ok; vm_compute; split; congruence]).
Qed.

Lemma bytes_of_bits_roundtrip (n : nat) (bs : list bool) :
  length bs = (8 * n)%nat ->
  bits_of_bytes (bytes_of_bits n bs) = bs
  /\ Forall byte_ok (bytes_of_bits n bs)
  /\ length (bytes_of_bits n bs) = n.
Proof.
  revert bs. induction n as [|n IH]; intros bs Hl.
  - destruct bs; [|discriminate]. simpl. auto.
  - assert (H8 : length (firstn 8 bs) = 8%nat) by (rewrite length_firstn; lia).
    assert (Hr : length (skipn 8 bs) = (8 * n)%nat) by (rewrite length_skipn; lia).
    destruct (byte_of_bits_roundtrip _ H8) as [Hb Hok].
    destruct (IH _ Hr) as (Hbs & Hall & Hlen).
    cbn [bytes_of_bits bits_of_bytes flat_map length].
    fold (bits_of_bytes (bytes_of_bits n (skipn 8 bs))).
    rewrite Hb, Hbs, firstn_skipn, Hlen. auto.
Qed.

Lemma prefix_bits_length (n : nat) :
  (n <= 128)%nat -> length (prefix_bits n) = 128%nat.
Proof.
  intros Hn. unfold prefix_bits. rewrite length_app, !repeat_length. lia.
Qed.

Lemma leading_ones_prefix (n m : nat) :
  leading_ones (repeat true n ++ repeat false m) = n.
Proof.
  induction n as [|n IH]; simpl.
  - destruct m; reflexivity.
  - f_equal. exact IH.
Qed.

Lemma leading_ones_mask_bits (n : nat) :
  (n <= 128)%nat ->
  bits_of_bytes (leading_ones_mask n) = prefix_bits n
  /\ Forall byte_ok (leading_ones_mask n)
  /\ length (leading_ones_mask n) = 16%nat.
Proof.
  intros Hn. unfold leading_ones_mask.
  apply bytes_of_bits_roundtrip. rewrite prefix_bits_length by exact Hn.
  reflexivity.
Qed.

(** C7.  For every [n] in 0..128, [calculate_prefix_len] of the 128-bit
    netmask made of [n] one-bits followed by [128 - n] zero-bits is [n]. *)
Theorem calculate_prefix_len_of_mask (n : nat) :
  (n <= 128)%nat ->
  calculate_prefix_len (leading_ones_mask n) = Z.of_nat n.
Proof.
  intros Hn.
  destruct (leading_ones_mask_bits n Hn) as (Hbits & Hok & _).
  rewrite calculate_prefix_len_counts by exact Hok.
  rewrite Hbits. unfold prefix_bits. rewrite leading_ones_prefix.
  reflexivity.
Qed.

Lemma calculate_prefix_len_of_mask_witness :
  (64 <= 128)%nat /\ calculate_prefix_len (leading_ones_mask 64) = 64.
Proof.
  split; [lia | apply (calculate_prefix_len_of_mask 64); lia].
Defined.

Lemma testbit_masked (b m j : Z) :
  0 <= j < 8 ->
  Z.testbit (to_uint8 (Z.land b m)) j = Z.testbit b j && Z.testbit m j.
Proof.
  intros Hj. unfold to_uint8. change 256 with (2 ^ 8).
  rewrite Z.mod_pow2_bits_low by lia. apply Z.land_spec.
Qed.

Lemma bits_of_masked_byte (b : Z) (k : nat) :
  (1 <= k <= 7)%nat ->
  bits_of_byte (to_uint8 (Z.land b (Z.lnot (Z.shiftr 0xFF (Z.of_nat k)))))
  = firstn k (bits_of_byte b) ++ repeat false (8 - k).
Proof.
  intros Hk. unfold bits_of_byte.
  assert (Hc : (k = 1 \/ k = 2 \/ k = 3 \/ k = 4 \/ k = 5 \/ k = 6 \/ k = 7)%nat)
    by lia.
  destruct Hc as [->|[->|[->|[->|[->|[->| ->]]]]]];
    cbn [map firstn repeat app Nat.sub];
    rewrite !testbit_masked by lia;
    repeat match goal with
           | |- context [Z.testbit (Z.lnot ?c) ?j] =>
               let v := eval vm_compute in (Z.testbit (Z.lnot c) j) in
               change (Z.testbit (Z.lnot c) j) with v
           end;
    rewrite ?andb_true_r, ?andb_false_r; reflexivity.
Qed.

Lemma list16_inv {A} (l : list A) :
  length l = 16%nat ->
  exists a0 a1 a2 a3 a4 a5 a6 a7 a8 a9 a10 a11 a12 a13 a14 a15,
    l = [a0; a1; a2; a3; a4; a5; a6; a7; a8; a9; a10; a11; a12; a13; a14; a15].
Proof.
  intros Hl.
  do 16 (destruct l as [|? l]; [discriminate|]).
  destruct l; [|discriminate].
  repeat eexists.
Qed.

(** What [apply_mask] leaves in the array for a prefix length of
    [8 * p + k] bits: [p] octets kept, one octet cut after [k] bits when
    [k] is not zero, zero octets after that. *)
Lemma apply_mask_shape (address : in6_addr) (n : nat) :
  length address = 16%nat -> (n <= 128)%nat ->
  apply_mask address (Z.of_nat n)
  = Some (let p := (n / 8)%nat in
          let k := (n mod 8)%nat in
          match k with
          | O => firstn p address ++ repeat 0 (16 - p)
          | _ => firstn p address
                   ++ to_uint8 (Z.land (nth p address 0)
                                  (Z.lnot (Z.shiftr 0xFF (Z.of_nat k))))
                   :: repeat 0 (15 - p)
          end).
Proof.
  intros Hl Hn.
  destruct (list16_inv address Hl)
    as (a0 & a1 & a2 & a3 & a4 & a5 & a6 & a7 & a8 & a9 & a10 & a11 & a12
        & a13 & a14 & a15 & ->).
  do 129 (destruct n as [|n]; [reflexivity|]).
  lia.
Qed.

Lemma bits_of_byte_length (b : Z) : length (bits_of_byte b) = 8%nat.
Proof. reflexivity. Qed.

Lemma bits_of_bytes_app (l1 l2 : list Z) :
  bits_of_bytes (l1 ++ l2) = bits_of_bytes l1 ++ bits_of_bytes l2.
Proof. apply flat_map_app. Qed.

Lemma bits_of_zeros (m : nat) :
  bits_of_bytes (repeat 0 m) = repeat false (8 * m).
Proof.
  induction m as [|m IH].
  - reflexivity.
  - replace (8 * S m)%nat with (8 + 8 * m)%nat by lia.
    rewrite repeat_app, <- IH. reflexivity.
Qed.

(** The first [8 * p + k] bits of an array are its first [p] octets and
    the first [k] bits of the next one. *)
Lemma firstn_bits (l : list Z) (p k : nat) :
  (p < length l)%nat -> (k <= 8)%nat ->
  firstn (8 * p + k) (bits_of_bytes l)
  = bits_of_bytes (firstn p l) ++ firstn k (bits_of_byte (nth p l 0)).
Proof.
  revert l. induction p as [|p IH]; intros l Hp Hk.
  - destruct l as [|b l]; [simpl in Hp; lia|].
    change (bits_of_bytes (b :: l)) with (bits_of_byte b ++ bits_of_bytes l).
    cbn [Nat.mul Nat.add firstn bits_of_bytes flat_map app nth].
    rewrite firstn_app, bits_of_byte_length.
    replace (k - 8)%nat with 0%nat by lia.
    rewrite firstn_O, app_nil_r. reflexivity.
  - destruct l as [|b l]; [simpl in Hp; lia|].
    change (bits_of_bytes (b :: l)) with (bits_of_byte b ++ bits_of_bytes l).
    cbn [firstn nth].
    change (bits_of_bytes (b :: firstn p l))
      with (bits_of_byte b ++ bits_of_bytes (firstn p l)).
    rewrite firstn_app, bits_of_byte_length.
    rewrite firstn_all2 by (rewrite bits_of_byte_length; lia).
    replace (8 * S p + k - 8)%nat with (8 * p + k)%nat by lia.
    rewrite IH by (simpl in Hp; lia).
    rewrite app_assoc. reflexivity.
Qed.

Lemma firstn_bits_whole (l : list Z) (p : nat) :
  (p <= length l)%nat ->
  firstn (8 * p) (bits_of_bytes l) = bits_of_bytes (firstn p l).
Proof.
  revert l. induction p as [|p IH]; intros l Hp.
  - reflexivity.
  - destruct l as [|b l]; [simpl in Hp; lia|].
    change (bits_of_bytes (b :: l)) with (bits_of_byte b ++ bits_of_bytes l).
    cbn [firstn].
    change (bits_of_bytes (b :: firstn p l))
      with (bits_of_byte b ++ bits_of_bytes (firstn p l)).
    rewrite firstn_app, bits_of_byte_length.
    rewrite firstn_all2 by (rewrite bits_of_byte_length; lia).
    replace (8 * S p - 8)%nat with (8 * p)%nat by lia.
    rewrite IH by (simpl in Hp; lia). reflexivity.
Qed.

(** [apply_mask] keeps the first [n] bits and clears the other [128 - n]. *)
Lemma apply_mask_bits (address : in6_addr) (n : nat) :
  length address = 16%nat -> (n <= 128)%nat ->
  exists r,
    apply_mask address (Z.of_nat n) = Some r
    /\ length r = 16%nat
    /\ bits_of_bytes r
       = firstn n (bits_of_bytes address) ++ repeat false (128 - n).
Proof.
  intros Hl Hn.
  rewrite (apply_mask_shape address n Hl Hn).
  eexists. split; [reflexivity|].
  pose proof (Nat.div_mod_eq n 8) as Hdm.
  pose proof (Nat.mod_upper_bound n 8 ltac:(discriminate)) as Hk.
  set (p := (n / 8)%nat) in *. set (k := (n mod 8)%nat) in *.
  cbv zeta.
  destruct k as [|k'] eqn:Ek.
  - split.
    + rewrite length_app, length_firstn, repeat_length. lia.
    + rewrite bits_of_bytes_app, bits_of_zeros.
      replace n with (8 * p)%nat at 1 by lia.
      rewrite firstn_bits_whole by lia.
      f_equal. f_equal. lia.
  - split.
    + rewrite length_app, length_firstn. cbn [length].
      rewrite repeat_length. lia.
    + change (?x :: repeat 0 (15 - p)) with ([x] ++ repeat 0 (15 - p)).
      rewrite !bits_of_bytes_app, bits_of_zeros.
      cbn [bits_of_bytes flat_map]. rewrite app_nil_r.
      rewrite bits_of_masked_byte by lia.
      replace n with (8 * p + S k')%nat at 1 by lia.
      rewrite firstn_bits by lia.
      rewrite <- !app_assoc. f_equal. f_equal.
      rewrite <- repeat_app. f_equal. lia.
Qed.

Lemma apply_mask_all_ones (n : nat) :
  (n <= 128)%nat ->
  apply_mask all_ones (Z.of_nat n) = Some (leading_ones_mask n).
Proof.
  intros Hn.
  do 129 (destruct n as [|n]; [vm_compute; reflexivity|]).
  lia.
Qed.

Lemma apply_mask_clamp (address : in6_addr) (mask : Z) :
  0 <= mask < 256 ->
  apply_mask address mask
  = apply_mask address (Z.of_nat (Z.to_nat (Z.min mask 128))).
Proof.
  intros Hm. unfold apply_mask.
  destruct (mask >? 128) eqn:E.
  - apply Z.gtb_lt in E. rewrite Z.min_r by lia. reflexivity.
  - assert (mask <= 128) by (rewrite Z.gtb_ltb in E; apply Z.ltb_ge in E; lia).
    rewrite Z.min_l by lia.
    rewrite Z2Nat.id by lia. rewrite E. reflexivity.
Qed.

(** The mask both BSD address requests are given: the all-ones mask cut
    at the prefix length. *)
Lemma apply_mask_all_ones_uint8 (mask : Z) :
  0 <= mask < 256 ->
  apply_mask all_ones mask
  = Some (leading_ones_mask (Z.to_nat (Z.min mask 128))).
Proof.
  intros Hm. rewrite apply_mask_clamp by exact Hm.
  apply apply_mask_all_ones. lia.
Qed.

(** C10.  [apply_mask] is total over the [uint8_t] prefix lengths: a length
    above 128 behaves as 128, no access leaves the sixteen octets, and the
    result keeps the first [min mask 128] bits and has zero bits after
    them, so the all-ones mask becomes that many one-bits followed by
    zero-bits. *)
Theorem apply_mask_total (address : in6_addr) (mask : Z) :
  length address = 16%nat -> 0 <= mask < 256 ->
  let n := Z.to_nat (Z.min mask 128) in
  exists r,
    apply_mask address mask = Some r
    /\ (128 < mask -> apply_mask address 128 = Some r)
    /\ length r = 16%nat
    /\ bits_of_bytes r
       = firstn n (bits_of_bytes address) ++ repeat false (128 - n)
    /\ (address = all_ones ->
        r = leading_ones_mask n /\ bits_of_bytes r = prefix_bits n).
Proof.
  intros Hl Hm n.
  assert (Hn : (n <= 128)%nat) by (unfold n; lia).
  destruct (apply_mask_bits address n Hl Hn) as (r & Hr & Hlen & Hbits).
  exists r. rewrite apply_mask_clamp by exact Hm. fold n.
  split; [exact Hr|]. split; [|split; [exact Hlen|split; [exact Hbits|]]].
  - intros Hgt. rewrite <- Hr. unfold n. rewrite Z.min_r by lia. reflexivity.
  - intros ->. rewrite apply_mask_all_ones in Hr by exact Hn.
    injection Hr as <-. split; [reflexivity|].
    apply leading_ones_mask_bits. exact Hn.
Qed.

Lemma apply_mask_total_witness :
  (length all_ones = 16%nat /\ 0 <= 200 < 256)
  /\ exists r,
      apply_mask all_ones 200 = Some r
      /\ (128 < 200 -> apply_mask all_ones 128 = Some r)
      /\ length r = 16%nat
      /\ bits_of_bytes r
         = firstn 128 (bits_of_bytes all_ones) ++ repeat false (128 - 128)
      /\ (all_ones = all_ones ->
          r = leading_ones_mask 128 /\ bits_of_bytes r = prefix_bits 128).
Proof.
  split; [split; [reflexivity | lia]|].
  apply (apply_mask_total all_ones 200); [reflexivity | lia].
Defined.

(* ================================================================== *)
(** ** Runs of the bridge *)

Section Properties.

Context {St : Type} `{OtStack St}.

(** A computation that ends normally hands its world to the next one. *)
Lemma bind_normal {A B} (m : M St A) (k : A -> M St B) w t a w' :
  m w = (t, Normal a w') ->
  bind m k w = (t ++ fst (k a w'), snd (k a w')).
Proof.
  intros Hm. unfold bind. rewrite Hm. destruct (k a w'). reflexivity.
Qed.

(** *** Link reconciliation *)

(** Every run of [UpdateLink], case by case: no descriptor, a failed
    query, the two sides equal, a rejected and an accepted request. *)
Lemma UpdateLink_run (hdr : Headers) (w : World St) :
  let g := globals w in
  let k := kernel w in
  let up := kernel_link_up hdr k in
  let ot := stk_ip6_enabled (stack w) in
  let flags' := if ot then Z.lor (k_ifflags k) (IFF_UP hdr)
                else Z.land (k_ifflags k) (Z.lnot (IFF_UP hdr)) in
  let get := EvIoctl (sIpFd g) (SIOCGIFFLAGS (sTunName g)) in
  let set := EvIoctl (sIpFd g) (SIOCSIFFLAGS (sTunName g) flags') in
  UpdateLink hdr w =
  if sIpFd g <? 0 then ([EvLog LogInfo], Normal tt w)
  else match k_ioctl_fault k (SIOCGIFFLAGS (sTunName g)) with
       | Some _ => ([get; EvPerror "ioctl"; EvLog LogWarn], Normal tt w)
       | None =>
           if Bool.eqb up ot
           then ([get; EvStack IsEnabled; EvLog LogNote; EvLog LogInfo],
                 Normal tt w)
           else match k_ioctl_fault k (SIOCSIFFLAGS (sTunName g) flags') with
                | Some _ =>
                    ([get; EvStack IsEnabled; EvLog LogNote; set;
                      EvPerror "ioctl"; EvLog LogWarn], Normal tt w)
                | None =>
                    ([get; EvStack IsEnabled; EvLog LogNote; set;
                      EvLog LogInfo],
                     Normal tt {| globals := g;
                                  kernel := {| k_ifflags := flags';
                                               k_ioctl_fault := k_ioctl_fault k;
                                               k_write_fault := k_write_fault k |};
                                  stack := stack w |})
                end
       end.
Proof.
  destruct w as [g k s]. cbn [globals kernel stack].
  unfold UpdateLink, at_exit, bind, get_globals, VerifyOrExit, ioctl,
    ioctl_result, otIp6IsEnabled, stack_call, otLogNotePlat, perror,
    log_error, otLogInfoPlat, otLogWarnPlat, emit, goto_exit, ret,
    kernel_link_up.
  cbn [globals kernel stack].
  destruct (sIpFd g <? 0) eqn:Efd.
  - assert (E : (sIpFd g >=? 0) = false) by lia. rewrite E. reflexivity.
  - assert (E : (sIpFd g >=? 0) = true) by lia. rewrite E. cbn.
    destruct (k_ioctl_fault k (SIOCGIFFLAGS (sTunName g))) as [e|] eqn:Eget;
      cbn; [reflexivity|].
    destruct (Bool.eqb (Z.land (k_ifflags k) (IFF_UP hdr) =? IFF_UP hdr)
                (stk_ip6_enabled s)) eqn:Eeq; cbn.
    + destruct k; reflexivity.
    + destruct (k_ioctl_fault k (SIOCSIFFLAGS _ _)) as [e|] eqn:Eset; cbn;
        destruct k; reflexivity.
Qed.

(** Whatever the mask, the state-change callback reconciles the link: the
    test [OT_CHANGED_THREAD_NETIF_STATE | aFlags] is never zero. *)
Lemma processStateChange_always_updates (hdr : Headers) (aFlags : Z)
    (w : World St) :
  OT_CHANGED_THREAD_NETIF_STATE hdr <> 0 ->
  processStateChange hdr aFlags w = UpdateLink hdr w.
Proof.
  intros Hbit. unfold processStateChange.
  destruct (Z.lor (OT_CHANGED_THREAD_NETIF_STATE hdr) aFlags =? 0) eqn:E.
  - apply Z.eqb_eq, Z.lor_eq_0_iff in E. destruct E as [E _]. contradiction.
  - reflexivity.
Qed.

(** C1.  A state-change callback whose mask does not intersect the
    netif-state bit still runs the whole link reconciliation. *)
Theorem processStateChange_ignores_mask (hdr : Headers) (aFlags : Z)
    (w : World St) :
  OT_CHANGED_THREAD_NETIF_STATE hdr <> 0 ->
  Z.land aFlags (OT_CHANGED_THREAD_NETIF_STATE hdr) = 0 ->
  processStateChange hdr aFlags w = UpdateLink hdr w.
Proof.
  intros Hbit _. apply processStateChange_always_updates. exact Hbit.
Qed.

Lemma UpdateLink_normal (hdr : Headers) (w : World St) :
  exists w', snd (UpdateLink hdr w) = Normal tt w'
             /\ globals w' = globals w /\ stack w' = stack w
             /\ k_ioctl_fault (kernel w') = k_ioctl_fault (kernel w).
Proof.
  rewrite UpdateLink_run.
  repeat match goal with
         | |- context [if ?c then _ else _] => destruct c
         | |- context [match ?c with Some _ => _ | None => _ end] => destruct c
         end; cbn [snd]; eexists; (split; [reflexivity|]); auto.
Qed.

(** [UpdateLink] issues [SIOCSIFFLAGS] only when the kernel's [IFF_UP] and
    the stack's ip6-enabled flag differ. *)
Lemma UpdateLink_sets_only_on_difference (hdr : Headers) (w : World St) :
  count_SIOCSIFFLAGS (fst (UpdateLink hdr w)) <> 0%nat ->
  kernel_link_up hdr (kernel w) <> stk_ip6_enabled (stack w).
Proof.
  rewrite UpdateLink_run.
  destruct (sIpFd (globals w) <? 0); [cbn; congruence|].
  destruct (k_ioctl_fault (kernel w) (SIOCGIFFLAGS _)); [cbn; congruence|].
  destruct (Bool.eqb _ _) eqn:E; [cbn; congruence|].
  intros _. apply eqb_false_iff in E. exact E.
Qed.

Lemma UpdateLink_count_le_1 (hdr : Headers) (w : World St) :
  (count_SIOCSIFFLAGS (fst (UpdateLink hdr w)) <= 1)%nat.
Proof.
  rewrite UpdateLink_run.
  repeat match goal with
         | |- context [if ?c then _ else _] => destruct c
         | |- context [match ?c with Some _ => _ | None => _ end] => destruct c
         end; cbn; lia.
Qed.

(** After a [SIOCSIFFLAGS] that the kernel accepted the two sides agree. *)
Lemma converged_after_set (hdr : Headers) (flags : Z) (ot : bool) :
  IFF_UP hdr <> 0 ->
  (Z.land (if ot then Z.lor flags (IFF_UP hdr)
           else Z.land flags (Z.lnot (IFF_UP hdr))) (IFF_UP hdr)
   =? IFF_UP hdr) = ot.
Proof.
  intros Hup. destruct ot.
  - apply Z.eqb_eq. apply Z.bits_inj'. intros n _.
    rewrite Z.land_spec, Z.lor_spec.
    destruct (Z.testbit flags n), (Z.testbit (IFF_UP hdr) n); reflexivity.
  - apply Z.eqb_neq.
    rewrite <- Z.land_assoc, (Z.land_comm (Z.lnot _)), Z.land_lnot_diag,
      Z.land_0_r.
    congruence.
Qed.

Lemma count_SIOCSIFFLAGS_app (t1 t2 : Trace) :
  count_SIOCSIFFLAGS (t1 ++ t2)
  = (count_SIOCSIFFLAGS t1 + count_SIOCSIFFLAGS t2)%nat.
Proof.
  unfold count_SIOCSIFFLAGS. rewrite filter_app, length_app. reflexivity.
Qed.

Lemma two_UpdateLink_count (hdr : Headers) (w : World St) :
  IFF_UP hdr <> 0 ->
  (forall name flags,
      k_ioctl_fault (kernel w) (SIOCSIFFLAGS name flags) = None) ->
  (count_SIOCSIFFLAGS
     (fst (bind (UpdateLink hdr) (fun _ => UpdateLink hdr) w)) <= 1)%nat.
Proof.
  intros Hup Hacc.
  pose proof (UpdateLink_run hdr w) as H1. cbv zeta in H1.
  destruct (sIpFd (globals w) <? 0) eqn:Efd;
    [|destruct (k_ioctl_fault (kernel w) (SIOCGIFFLAGS _)) eqn:Eget;
      [|destruct (Bool.eqb _ _) eqn:Eeq;
        [|rewrite Hacc in H1]]];
    rewrite (bind_normal _ _ _ _ _ _ H1); cbn [fst];
    rewrite count_SIOCSIFFLAGS_app.
  1-3: pose proof (UpdateLink_count_le_1 hdr w) as Hle; cbn; lia.
  rewrite UpdateLink_run. cbn [globals kernel stack k_ifflags k_ioctl_fault].
  rewrite Efd, Eget. unfold kernel_link_up. cbn [k_ifflags].
  rewrite converged_after_set by exact Hup.
  rewrite eqb_reflx. cbn. lia.
Qed.

(** C8, as the code has it.  [UpdateLink] issues [SIOCSIFFLAGS] only when
    the kernel's [IFF_UP] differs from the stack's ip6-enabled flag, and
    two consecutive state-change callbacks with the stack in the same
    state issue it at most once when the kernel accepts the request. *)
Theorem link_reconciliation_idempotent (hdr : Headers) (w : World St)
    (aFlags1 aFlags2 : Z) :
  (count_SIOCSIFFLAGS (fst (UpdateLink hdr w)) <> 0%nat ->
   kernel_link_up hdr (kernel w) <> stk_ip6_enabled (stack w))
  /\ (IFF_UP hdr <> 0 ->
      (forall name flags,
          k_ioctl_fault (kernel w) (SIOCSIFFLAGS name flags) = None) ->
      (count_SIOCSIFFLAGS (fst (two_state_changes hdr aFlags1 aFlags2 w))
       <= 1)%nat).
Proof.
  split; [apply UpdateLink_sets_only_on_difference|].
  intros Hup Hacc. unfold two_state_changes, processStateChange.
  destruct (negb (Z.lor _ aFlags1 =? 0)), (negb (Z.lor _ aFlags2 =? 0)).
  - apply two_UpdateLink_count; assumption.
  - destruct (UpdateLink_normal hdr w) as (w' & Hn & _).
    unfold bind. destruct (UpdateLink hdr w) as [t r] eqn:E.
    cbn [snd] in Hn. subst r. cbn [ret fst].
    rewrite app_nil_r. pose proof (UpdateLink_count_le_1 hdr w) as Hle.
    rewrite E in Hle. exact Hle.
  - unfold bind, ret. destruct (UpdateLink hdr w) as [t r] eqn:E.
    cbn [fst app]. pose proof (UpdateLink_count_le_1 hdr w) as Hle.
    rewrite E in Hle. exact Hle.
  - cbn. lia.
Qed.

(** *** Teardown *)

Lemma ioctl_effect_destroy (k : Kernel) (name : string) (r : SysRet) :
  ioctl_effect k (SIOCIFDESTROY name) r = k.
Proof. destruct r; reflexivity. Qed.

(** C9.  [platformNetifDeinit] closes each descriptor that is not [-1]
    once, in the order tun, ip, netlink, MLD (where the MLD monitor is
    compiled in), leaves all of them at [-1] and [sTunIndex] at [0]; a
    second call has no effect at all: no close, no request, the same
    state.  This holds from any state of the descriptors. *)
Theorem platformNetifDeinit_idempotent (platform : Platform) (w : World St) :
  let g := globals w in
  let mld := OPENTHREAD_POSIX_USE_MLD_MONITOR platform in
  exists w1,
    snd (platformNetifDeinit platform w) = Normal tt w1
    /\ closes_of (fst (platformNetifDeinit platform w))
       = filter (fun fd => negb (fd =? -1))
           ([sTunFd g; sIpFd g; sNetlinkFd g]
              ++ if mld then [sMLDMonitorFd g] else [])
    /\ sTunFd (globals w1) = -1
    /\ sIpFd (globals w1) = -1
    /\ sNetlinkFd (globals w1) = -1
    /\ sMLDMonitorFd (globals w1) = (if mld then -1 else sMLDMonitorFd g)
    /\ sTunIndex (globals w1) = 0
    /\ sTunName (globals w1) = sTunName g
    /\ stack w1 = stack w
    /\ platformNetifDeinit platform w1 = ([], Normal tt w1).
Proof.
  destruct w as [[tun ip nl mld idx name] k s]. cbn [globals].
  destruct (tun =? -1) eqn:Etun; [apply Z.eqb_eq in Etun; subst tun|];
    (destruct (ip =? -1) eqn:Eip; [apply Z.eqb_eq in Eip; subst ip|]);
    (destruct (nl =? -1) eqn:Enl; [apply Z.eqb_eq in Enl; subst nl|]);
    (destruct (mld =? -1) eqn:Emld; [apply Z.eqb_eq in Emld; subst mld|]);
    destruct platform;
    unfold platformNetifDeinit, destroyTunnel, modify_globals, bind,
      get_globals, set_globals, close, emit, ret, ioctl, perror;
    cbn [has_destroyTunnel OPENTHREAD_POSIX_USE_MLD_MONITOR
           has_RTM_NEWMADDR negb];
    repeat (progress
              (repeat match goal with
                      | E : (_ =? -1) = false |- _ => rewrite E
                      end;
               rewrite ?Z.eqb_refl, ?ioctl_effect_destroy;
               try match goal with
                   | |- context [sys_is_zero ?r] => destruct (sys_is_zero r)
                   end;
               cbn -[Z.eqb]));
    eexists; (split; [reflexivity|]);
    repeat (progress
              (repeat match goal with
                      | E : (_ =? -1) = false |- _ => rewrite E
                      end;
               rewrite ?Z.eqb_refl; cbn -[Z.eqb]));
    repeat split; reflexivity.
Qed.

(** *** The packet shuttle *)

(** The four octets written before a datagram: the third is always zero,
    whatever [PF_INET6] is, the fourth is its low octet. *)
Lemma af_prefix_octets (pf : Z) :
  Z.land (Z.shiftl pf 8) 0xFF = 0 /\ Z.land (Z.shiftl pf 0) 0xFF = pf mod 256.
Proof.
  split.
  - apply Z.bits_inj'. intros n Hn.
    rewrite Z.land_spec, Z.bits_0.
    destruct (Z.ltb_spec n 8).
    + rewrite Z.shiftl_spec_low by lia. reflexivity.
    + change 0xFF with (Z.ones 8). rewrite Z.ones_spec_high by lia.
      apply andb_false_r.
  - rewrite Z.shiftl_0_r. change 0xFF with (Z.ones 8).
    rewrite Z.land_ones by lia. reflexivity.
Qed.

(** What [processReceive] writes to the tunnel on an af-prefix platform. *)
Lemma processReceive_writes (hdr : Headers) (platform : Platform)
    (w : World St) (aMessage : otMessage) :
  bsd_like platform = true ->
  Z.of_nat (length aMessage) < 65536 ->
  let t := fst (processReceive hdr platform aMessage w) in
  let fd := sTunFd (globals w) in
  let framed := [0; 0; 0; PF_INET6 hdr mod 256] ++ aMessage in
  (forall x, In x (writes_of t) -> x = (fd, framed))
  /\ (fd > 0 -> Z.of_nat (length aMessage) <= kMaxIp6Size ->
      writes_of t = [(fd, framed)]).
Proof.
  intros Hbsd Hlen.
  destruct (af_prefix_octets (PF_INET6 hdr)) as [Hhi Hlo].
  destruct w as [g k s]. cbv zeta.
  unfold processReceive, at_exit, bind, get_globals, VerifyOrExit,
    otMessageRead, otMessageGetLength, write, otMessageFree, log_error,
    perror, otLogInfoPlat, otLogWarnPlat, emit, goto_exit, ret.
  rewrite Hbsd, Hhi, Hlo.
  cbn [globals kernel stack fst snd].
  rewrite Z.mod_small by lia.
  change (kMaxIp6Size + 4 - 4) with 1536. unfold kMaxIp6Size.
  change (Z.to_nat 0) with 0%nat. rewrite skipn_O.
  destruct (sTunFd g >? 0) eqn:Efd; shuttle_cbn.
  2:{ split. { intros x Hx. destruct Hx. } intros Hgt. lia. }
  rewrite length_firstn.
  match goal with
  | |- context [if ?c then _ else _] => destruct c eqn:Eread
  end; shuttle_cbn.
  2:{ split. { intros x Hx. destruct Hx. }
      intros _ Hle. apply Z.eqb_neq in Eread. lia. }
  apply Z.eqb_eq in Eread.
  assert (Hfit : (length aMessage <= 1536)%nat) by lia.
  assert (Hbody : firstn (Z.to_nat 1536) aMessage = aMessage)
    by (apply firstn_all2; lia).
  rewrite Hbody.
  rewrite Z.mod_small by lia.
  assert (Hall : firstn (Z.to_nat (Z.of_nat (length aMessage) + 4))
                   (0 :: 0 :: 0 :: PF_INET6 hdr mod 256 :: aMessage)
                 = 0 :: 0 :: 0 :: PF_INET6 hdr mod 256 :: aMessage).
  { apply firstn_all2. cbn [length]. lia. }
  rewrite Hall.
  destruct (k_write_fault k) as [[n|e]|]; shuttle_cbn;
    repeat (match goal with
            | |- context [if ?c then _ else _] => destruct c
            end; shuttle_cbn);
    (split; [|reflexivity]);
    intros x Hx; (destruct Hx as [<-|Hx]; [reflexivity|destruct Hx]).
Qed.

(** C4, as the code has it.  On a platform with af-prefix framing every
    write of [processReceive] to the tunnel carries the four octets
    [00 00 00 LO] followed by the datagram, where [LO] is the low octet of
    the platform's [PF_INET6], whatever that constant is; a datagram that
    fits the packet buffer is written when the tunnel is open.  The header
    is [00 00 00 0A] exactly where the low octet of [PF_INET6] is 10. *)
Theorem processReceive_af_prefix (hdr : Headers) (platform : Platform)
    (w : World St) (aMessage : otMessage) :
  bsd_like platform = true ->
  Z.of_nat (length aMessage) < 65536 ->
  let t := fst (processReceive hdr platform aMessage w) in
  let fd := sTunFd (globals w) in
  let af_prefix := [0x00; 0x00; 0x00; Z.land (PF_INET6 hdr) 0xFF] in
  (forall x, In x (writes_of t) -> x = (fd, af_prefix ++ aMessage))
  /\ (fd > 0 -> Z.of_nat (length aMessage) <= kMaxIp6Size ->
      writes_of t = [(fd, af_prefix ++ aMessage)])
  /\ (af_prefix = [0x00; 0x00; 0x00; 0x0A]
      <-> Z.land (PF_INET6 hdr) 0xFF = 0x0A).
Proof.
  intros Hbsd Hlen t fd af_prefix.
  pose proof (processReceive_writes hdr platform w aMessage Hbsd Hlen) as Hw.
  cbv zeta in Hw. destruct Hw as [Hall Hone].
  assert (Hlo : Z.land (PF_INET6 hdr) 0xFF = PF_INET6 hdr mod 256).
  { destruct (af_prefix_octets (PF_INET6 hdr)) as [_ Hlo].
    rewrite Z.shiftl_0_r in Hlo. exact Hlo. }
  subst t fd af_prefix. rewrite Hlo.
  split; [exact Hall|]. split; [exact Hone|].
  split; [intros Heq; injection Heq as Heq; exact Heq | intros ->; reflexivity].
Qed.

(** C6, as the code has it.  A datagram read from the tunnel is handed to
    the stack in exactly one send when the stack has a buffer for the
    message, and in none when it has not.  The message is the IPv6
    datagram: the packet itself without af-prefix framing, the packet
    without its first four octets when the platform frames and the packet
    starts with the header (two zero octets, then the address family),
    the packet itself when it does not start with a zero octet.  Without
    a buffer for a new message the stack is asked for nothing more; when
    the append fails the message is freed and not sent. *)
Theorem processTransmit_delivers (platform : Platform) (w : World St)
    (data D : list Z) :
  let packet := firstn (Z.to_nat kMaxIp6Size) data in
  (bsd_like platform = false /\ packet = D /\ D <> [])
  \/ (bsd_like platform = true
      /\ exists af_hi af_lo, packet = [0; 0; af_hi; af_lo] ++ D)
  \/ (bsd_like platform = true /\ packet = D /\ D <> []
      /\ nth 0 D 0 <> 0) ->
  let t := fst (processTransmit platform (ReadData data) w) in
  let new_message := stk_has_buffers (stack w) 0 in
  let append := stk_has_buffers (stack w) (length D) in
  sends_of t = (if new_message && append then [D] else [])
  /\ stack_calls_of t
     = (if new_message
        then if append then [NewMessage; MessageAppend D; Send D]
             else [NewMessage; MessageAppend D; MessageFree []]
        else [NewMessage]).
Proof.
  intros packet Hcase t new_message append. subst t new_message append.
  assert (Hplen : (length packet <= 1536)%nat).
  { unfold packet. rewrite length_firstn. unfold kMaxIp6Size. lia. }
  assert (Hp : firstn (Z.to_nat kMaxIp6Size) data = packet) by reflexivity.
  clearbody packet.
  destruct w as [g k s]. cbn [stack].
  unfold processTransmit, at_exit, bind, VerifyOrExit, otIp6NewMessage,
    otMessageAppend, otIp6Send, otMessageFree, stack_call, log_error,
    otLogInfoPlat, otLogWarnPlat, emit, goto_exit, ret.
  rewrite Hp. cbn [stack globals kernel].
  assert (Hpos : (Z.of_nat (length packet) >? 0) = true).
  { destruct Hcase as [(_ & HD & Hne)|[(_ & hi & lo & HD)|(_ & HD & Hne & _)]];
      rewrite HD; try (destruct D; [congruence|]); cbn [length app];
      apply Z.gtb_lt; lia. }
  rewrite Hpos. shuttle_cbn.
  destruct (stk_has_buffers s 0); shuttle_cbn; [|split; reflexivity].
  set (strip := bsd_like platform && (Z.of_nat (length packet) >=? 4)
                && (nth 0 packet 0 =? 0) && (nth 1 packet 0 =? 0)).
  assert (Hbody :
            firstn (Z.to_nat ((if strip then Z.of_nat (length packet) - 4
                               else Z.of_nat (length packet)) mod 65536))
              (skipn (Z.to_nat (if strip then 4 else 0)) packet) = D).
  { destruct Hcase as [(Hb & HD & Hne)|[(Hb & hi & lo & HD)|(Hb & HD & Hne & Hnz)]].
    - unfold strip. rewrite Hb. cbn [andb].
      rewrite Z.mod_small by lia. change (Z.to_nat 0) with 0%nat.
      rewrite skipn_O, firstn_all2 by lia. exact HD.
    - assert (Hs : strip = true).
      { unfold strip. rewrite Hb, HD. cbn [length app nth andb].
        rewrite !Z.eqb_refl.
        replace (Z.of_nat (S (S (S (S (length D))))) >=? 4) with true
          by (symmetry; apply Z.geb_le; lia).
        reflexivity. }
      rewrite Hs. rewrite HD in Hplen |- *. cbn [length app] in Hplen |- *.
      rewrite Z.mod_small by lia.
      change (Z.to_nat 4) with 4%nat. cbn [skipn].
      apply firstn_all2. lia.
    - assert (Hs : strip = false).
      { unfold strip. rewrite HD.
        apply Z.eqb_neq in Hnz. rewrite Hnz.
        rewrite andb_false_r. reflexivity. }
      rewrite Hs. rewrite Z.mod_small by lia. change (Z.to_nat 0) with 0%nat.
      rewrite skipn_O, firstn_all2 by lia. exact HD. }
  rewrite Hbody.
  destruct (stk_has_buffers s (length D)); shuttle_cbn;
    [|split; reflexivity].
  destruct (stk_send D s) as [e s']. shuttle_cbn.
  destruct (otError_is_none e); split; reflexivity.
Qed.

(** *** Unicast addresses pushed to the kernel *)

(** C5.  On Linux a failed address-add ioctl terminates the process:
    whatever the error, "already exists" included, [UpdateUnicast] ends in
    [VerifyOrDie] with [OT_EXIT_ERROR_ERRNO]. *)
Theorem UpdateUnicast_linux_add_failure_terminates (w : World St)
    (aAddress : in6_addr) (aPrefixLength : Z) (e : Errno) :
  let g := globals w in
  let req := SIOCSIFADDR {| ifr6_addr := aAddress;
                            ifr6_prefixlen := aPrefixLength;
                            ifr6_ifindex := sTunIndex g |} in
  sIpFd g >= 0 ->
  k_ioctl_fault (kernel w) req = Some e ->
  UpdateUnicast Linux aAddress aPrefixLength true w
  = ([EvIoctl (sIpFd g) req], Dead OT_EXIT_ERROR_ERRNO).
Proof.
  intros g req Hfd Hfault. destruct w as [g0 k s]. subst g req.
  cbn [globals kernel] in *.
  unfold UpdateUnicast, at_exit, bind, get_globals, VerifyOrExit, VerifyOrDie,
    ioctl, ioctl_result, die, ret.
  cbn [globals kernel stack bsd_like].
  assert (E : (sIpFd g0 >=? 0) = true) by lia. rewrite E.
  assert (E' : (sIpFd g0 <? 0) = false) by lia.
  cbn. rewrite E', Hfault. reflexivity.
Qed.

(** The sibling path: on the BSD-style platforms the same failure is
    tolerated.  [EALREADY] counts as success, any other error is reported
    by a warning, and the function returns. *)
Lemma UpdateUnicast_bsd_add_continues (platform : Platform) (w : World St)
    (aAddress : in6_addr) (aPrefixLength : Z) :
  let g := globals w in
  bsd_like platform = true ->
  0 <= aPrefixLength < 256 ->
  sIpFd g >= 0 ->
  exists ifr6,
    ifra_addr ifr6 = aAddress
    /\ ifra_prefixmask ifr6
       = leading_ones_mask (Z.to_nat (Z.min aPrefixLength 128))
    /\ UpdateUnicast platform aAddress aPrefixLength true w
       = (EvIoctl (sIpFd g) (SIOCAIFADDR_IN6 ifr6)
            :: match k_ioctl_fault (kernel w) (SIOCAIFADDR_IN6 ifr6) with
               | None => [EvLog LogInfo]
               | Some e => if errno_is_EALREADY e then [EvLog LogInfo]
                           else [EvPerror "ioctl"; EvLog LogWarn]
               end,
          Normal tt w).
Proof.
  intros g Hbsd Hlen Hfd. destruct w as [g0 k s]. subst g.
  cbn [globals kernel] in *.
  unfold UpdateUnicast, make_aliasreq, at_exit, bind, get_globals,
    VerifyOrExit, ioctl, ioctl_result, perror, otLogInfoPlat, otLogWarnPlat,
    emit, goto_exit, ret.
  rewrite Hbsd, (apply_mask_all_ones_uint8 _ Hlen).
  cbn [globals kernel stack].
  assert (E : (sIpFd g0 >=? 0) = true) by lia. rewrite E.
  assert (E' : (sIpFd g0 <? 0) = false) by lia.
  set (apple := match platform with Apple => true | _ => false end).
  exists {| ifra_name := sTunName g0;
            ifra_addr := aAddress;
            ifra_prefixmask :=
              leading_ones_mask (Z.to_nat (Z.min aPrefixLength 128));
            ia6t_vltime := ND6_INFINITE_LIFETIME;
            ia6t_pltime := ND6_INFINITE_LIFETIME;
            ia6t_expire := if apple then ND6_INFINITE_LIFETIME else 0;
            ia6t_preferred := if apple then ND6_INFINITE_LIFETIME else 0;
            ifra_nodad := apple |}.
  split; [reflexivity|]. split; [reflexivity|].
  cbn -[leading_ones_mask]. rewrite E'.
  destruct (k_ioctl_fault k _) as [e|] eqn:Ef; cbn -[leading_ones_mask].
  - destruct (errno_is_EALREADY e); reflexivity.
  - reflexivity.
Qed.

(** *** Addresses announced by the kernel *)





(** *** The MLD monitor *)

Lemma stack_calls_of_app (t1 t2 : Trace) :
  stack_calls_of (t1 ++ t2) = stack_calls_of t1 ++ stack_calls_of t2.
Proof. apply flat_map_app. Qed.

(** One record: a subscription for type 4, the end of one for type 3. *)
Lemma handle_mld_record_run (mRecordType : Z) (address : in6_addr)
    (w : World St) :
  exists t w',
    handle_mld_record mRecordType address w = (t, Normal tt w')
    /\ globals w' = globals w
    /\ stack_calls_of t
       = if mRecordType =? 4 then [SubscribeMulticastAddress address]
         else if mRecordType =? 3 then [UnsubscribeMulticastAddress address]
         else [].
Proof.
  destruct w as [g k s].
  unfold handle_mld_record, kICMPv6MLDv2RecordChangeToIncludeType,
    kICMPv6MLDv2RecordChangeToExcludeType, bind,
    otIp6SubscribeMulticastAddress, otIp6UnsubscribeMulticastAddress,
    stack_call, otLogNotePlat, otLogWarnPlat, otLogDebgPlat, emit, ret.
  destruct (mRecordType =? 4); [|destruct (mRecordType =? 3)]; cbn.
  - destruct (stk_subscribe_multicast address s) as [e s'].
    destruct e; cbn; do 2 eexists; (split; [reflexivity|split; reflexivity]).
  - destruct (stk_unsubscribe_multicast address s) as [e s'].
    destruct e; cbn; do 2 eexists; (split; [reflexivity|split; reflexivity]).
  - do 2 eexists. split; [reflexivity|split; reflexivity].
Qed.

Lemma ntohs_encode (n : Z) :
  0 <= n < 65536 -> ntohs (n / 256) (n mod 256) = n.
Proof.
  intros Hn. unfold ntohs. pose proof (Z.div_mod n 256). lia.
Qed.

Lemma concat_length_16 (l : list in6_addr) :
  Forall (fun s => length s = 16%nat) l ->
  length (concat l) = (16 * length l)%nat.
Proof.
  induction 1 as [|x l Hx Hl IH]; cbn [concat length].
  - reflexivity.
  - rewrite length_app, IH, Hx. lia.
Qed.

Lemma encode_record_length (r : MLDv2Record) :
  wf_record r ->
  Z.of_nat (length (encode_record r))
  = sizeof_MLDv2Record
    + sizeof_in6_addr * Z.of_nat (length (mSources r)).
Proof.
  intros (Ha & Hs & _). unfold encode_record, encode_uint16.
  rewrite !length_app, concat_length_16 by exact Hs.
  cbn [length]. rewrite Ha.
  unfold sizeof_MLDv2Record, sizeof_in6_addr. lia.
Qed.

(** The record loop on a buffer that holds [pre], then the packed records. *)
Lemma mld_records_run (records : list MLDv2Record) :
  Forall wf_record records ->
  forall (pre : list Z) (w : World St),
  exists t w',
    mld_records (length records)
      (pre ++ concat (map encode_record records))
      (Z.of_nat (length pre)) w = (t, Normal tt w')
    /\ globals w' = globals w
    /\ stack_calls_of t = flat_map record_call records.
Proof.
  induction 1 as [|r records Hr Hrs IH]; intros pre w.
  - do 2 eexists. split; [reflexivity|split; reflexivity].
  - pose proof (encode_record_length r Hr) as Hlen.
    destruct Hr as (Ha & Hs & Hns).
    cbn [length map concat mld_records].
    set (rest := concat (map encode_record records)) in *.
    set (buffer := pre ++ encode_record r ++ rest).
    assert (Hbuf : Z.of_nat (length buffer)
                   = Z.of_nat (length pre)
                     + Z.of_nat (length (encode_record r))
                     + Z.of_nat (length rest)).
    { unfold buffer. rewrite !length_app. lia. }
    assert (E1 : (Z.of_nat (length pre) <? Z.of_nat (length buffer)) = true).
    { apply Z.ltb_lt. unfold sizeof_MLDv2Record, sizeof_in6_addr in Hlen. lia. }
    assert (E2 : (Z.of_nat (length buffer)
                  >=? sizeof_MLDv2Record + Z.of_nat (length pre)) = true).
    { apply Z.geb_le. unfold sizeof_MLDv2Record, sizeof_in6_addr in *. lia. }
    rewrite E1, E2.
    assert (Hshape : buffer
                     = pre ++ [mRecordType r; mAuxDataLen r;
                               Z.of_nat (length (mSources r)) / 256;
                               Z.of_nat (length (mSources r)) mod 256]
                         ++ mMulticastAddress r
                         ++ (concat (mSources r) ++ rest)).
    { unfold buffer, encode_record, encode_uint16.
      rewrite <- !app_assoc. reflexivity. }
    assert (Hty : nth (Z.to_nat (Z.of_nat (length pre))) buffer 0
                  = mRecordType r).
    { rewrite Nat2Z.id, Hshape, app_nth2 by lia.
      rewrite Nat.sub_diag. reflexivity. }
    assert (Hhi : nth (Z.to_nat (Z.of_nat (length pre) + 2)) buffer 0
                  = Z.of_nat (length (mSources r)) / 256).
    { replace (Z.to_nat (Z.of_nat (length pre) + 2))
        with (length pre + 2)%nat by lia.
      rewrite Hshape, app_nth2_plus. reflexivity. }
    assert (Hlo : nth (Z.to_nat (Z.of_nat (length pre) + 3)) buffer 0
                  = Z.of_nat (length (mSources r)) mod 256).
    { replace (Z.to_nat (Z.of_nat (length pre) + 3))
        with (length pre + 3)%nat by lia.
      rewrite Hshape, app_nth2_plus. reflexivity. }
    assert (Haddr : firstn 16 (skipn (Z.to_nat (Z.of_nat (length pre) + 4))
                                 buffer)
                    = mMulticastAddress r).
    { replace (Z.to_nat (Z.of_nat (length pre) + 4))
        with (length pre + 4)%nat by lia.
      rewrite Hshape, skipn_app, skipn_all2 by lia.
      replace (length pre + 4 - length pre)%nat with 4%nat by lia.
      cbn [app skipn].
      rewrite firstn_app, Ha, Nat.sub_diag, firstn_O, app_nil_r.
      apply firstn_all2. lia. }
    rewrite Hty, Hhi, Hlo, Haddr, ntohs_encode by lia.
    destruct (handle_mld_record_run (mRecordType r) (mMulticastAddress r) w)
      as (t1 & w1 & Hrun1 & Hg1 & Hcalls1).
    rewrite (bind_normal _ _ _ _ _ _ Hrun1).
    replace (Z.of_nat (length pre)
             + (sizeof_MLDv2Record
                + sizeof_in6_addr * Z.of_nat (length (mSources r))))
      with (Z.of_nat (length (pre ++ encode_record r)))
      by (rewrite length_app; lia).
    unfold buffer. rewrite app_assoc.
    destruct (IH (pre ++ encode_record r) w1)
      as (t2 & w2 & Hrun2 & Hg2 & Hcalls2).
    fold rest in Hrun2. rewrite Hrun2. cbn [fst snd].
    exists (t1 ++ t2), w2. split; [reflexivity|]. split; [congruence|].
    rewrite stack_calls_of_app, Hcalls1, Hcalls2. reflexivity.
Qed.

(** C2, as the code has it.  For a well-formed MLDv2 report received from
    one of the tunnel's own addresses, the calls into the stack are, record
    by record and in order: a subscription to the record's multicast
    address for record type 4, the end of the subscription for record
    type 3, nothing for the other types. *)
Theorem processMLDEvent_report (hdr : Headers) (w : World St)
    (rsv0 ck_hi ck_lo rsv1_hi rsv1_lo : Z) (records : list MLDv2Record)
    (srcAddr : in6_addr) (ifAddrs : list ifaddrs) :
  wf_report records ->
  from_self hdr (sTunName (globals w)) srcAddr ifAddrs = true ->
  stack_calls_of
    (fst (processMLDEvent hdr
            (RecvFrom (encode_report rsv0 ck_hi ck_lo rsv1_hi rsv1_lo records)
               srcAddr)
            (Some ifAddrs) w))
  = flat_map record_call records.
Proof.
  intros (Hrecs & Hcount & Hfit) Hself.
  set (body := concat (map encode_record records)) in *.
  set (pre := [kICMPv6MLDv2Type; rsv0; ck_hi; ck_lo; rsv1_hi; rsv1_lo;
               Z.of_nat (length records) / 256;
               Z.of_nat (length records) mod 256]).
  assert (Hdata : encode_report rsv0 ck_hi ck_lo rsv1_hi rsv1_lo records
                  = pre ++ body) by reflexivity.
  assert (Hlen : length (pre ++ body) = (8 + length body)%nat)
    by (rewrite length_app; reflexivity).
  unfold sizeof_MLDv2Header, kMaxMLDEvent in Hfit.
  unfold processMLDEvent. rewrite Hdata.
  rewrite firstn_all2 by (unfold kMaxMLDEvent; lia).
  unfold at_exit, bind, VerifyOrExit, get_globals, ret, goto_exit.
  rewrite Hlen.
  assert (E1 : (Z.of_nat (8 + length body) >? 0) = true)
    by (apply Z.gtb_lt; lia).
  assert (E2 : (Z.of_nat (8 + length body) >=? sizeof_MLDv2Header) = true)
    by (apply Z.geb_le; unfold sizeof_MLDv2Header; lia).
  rewrite E1, E2.
  change (nth 0 (pre ++ body) 0) with kICMPv6MLDv2Type.
  change (nth 6 (pre ++ body) 0) with (Z.of_nat (length records) / 256).
  change (nth 7 (pre ++ body) 0) with (Z.of_nat (length records) mod 256).
  rewrite Z.eqb_refl, ntohs_encode, Nat2Z.id by lia.
  cbn [andb fst snd app]. rewrite Hself.
  destruct (mld_records_run records Hrecs pre w)
    as (t & w' & Hrun & _ & Hcalls).
  fold body in Hrun.
  change (Z.of_nat (length pre)) with sizeof_MLDv2Header in Hrun.
  rewrite Hrun. cbn [fst snd app]. rewrite !app_nil_r. exact Hcalls.
Qed.

End Properties.

(* ================================================================== *)
(** ** Concrete runs *)

(** The state-change callback with an empty mask on a host whose link is
    down while the stack is enabled: the link is brought up. *)
Example state_change_empty_mask_run :
  fst (processStateChange example_headers 0 example_world)
  = [EvIoctl 3 (SIOCGIFFLAGS "wpan0"); EvStack IsEnabled; EvLog LogNote;
     EvIoctl 3 (SIOCSIFFLAGS "wpan0" 1); EvLog LogInfo].
Proof. reflexivity. Qed.

Lemma processStateChange_ignores_mask_witness :
  (OT_CHANGED_THREAD_NETIF_STATE example_headers <> 0
   /\ Z.land 0 (OT_CHANGED_THREAD_NETIF_STATE example_headers) = 0)
  /\ processStateChange example_headers 0 example_world
     = UpdateLink example_headers example_world.
Proof.
  split; [split; [discriminate | reflexivity]|].
  apply (processStateChange_ignores_mask example_headers 0 example_world);
    [discriminate | reflexivity].
Defined.

(** Scenario S4 on the code: the report with one record of type 3 for
    [ff03::abcd], sent from the tunnel's own address, ends the
    subscription; a subscription is not asked for. *)
Lemma mld_record_type3_unsubscribes :
  wf_report [record_type3]
  /\ from_self example_headers "wpan0" addr_fe80_abcd own_addresses = true
  /\ stack_calls_of
       (fst (processMLDEvent example_headers
               (RecvFrom (encode_report 0 0 0 0 0 [record_type3])
                  addr_fe80_abcd)
               (Some own_addresses) example_world))
     = [UnsubscribeMulticastAddress addr_ff03_abcd]
  /\ ~ In (SubscribeMulticastAddress addr_ff03_abcd)
       (stack_calls_of
          (fst (processMLDEvent example_headers
                  (RecvFrom (encode_report 0 0 0 0 0 [record_type3])
                     addr_fe80_abcd)
                  (Some own_addresses) example_world))).
Proof.
  split.
  { split; [|split].
    - repeat constructor.
    - cbn. lia.
    - vm_compute. discriminate. }
  split; [reflexivity|]. split; [reflexivity|].
  intros [Hin|[]]. discriminate Hin.
Qed.

Lemma processMLDEvent_report_witness :
  (wf_report [record_type4; record_type3]
   /\ from_self example_headers (sTunName (globals example_world))
        addr_fe80_abcd own_addresses = true)
  /\ stack_calls_of
       (fst (processMLDEvent example_headers
               (RecvFrom
                  (encode_report 0 0x12 0x34 0 0 [record_type4; record_type3])
                  addr_fe80_abcd)
               (Some own_addresses) example_world))
     = [SubscribeMulticastAddress addr_ff03_abcd;
        UnsubscribeMulticastAddress addr_ff03_abcd].
Proof.
  assert (Hwf : wf_report [record_type4; record_type3]).
  { split; [|split].
    - repeat constructor.
    - cbn. lia.
    - vm_compute. discriminate. }
  split; [split; [exact Hwf | reflexivity]|].
  apply (processMLDEvent_report example_headers example_world 0 0x12 0x34 0 0
           [record_type4; record_type3] addr_fe80_abcd own_addresses);
    [exact Hwf | reflexivity].
Defined.



(** The framing on FreeBSD, where [PF_INET6] is 28: the datagram is written
    behind [00 00 00 1C], not behind [00 00 00 0A]. *)
Lemma processReceive_af_prefix_freebsd :
  bsd_like FreeBSD = true
  /\ writes_of
       (fst (processReceive freebsd_headers FreeBSD datagram example_world))
     = [(5, [0x00; 0x00; 0x00; 0x1C] ++ datagram)]
  /\ writes_of
       (fst (processReceive freebsd_headers FreeBSD datagram example_world))
     <> [(5, [0x00; 0x00; 0x00; 0x0A] ++ datagram)].
Proof. split; [reflexivity|]. split; [reflexivity | discriminate]. Qed.

Lemma processReceive_af_prefix_witness :
  (bsd_like FreeBSD = true
   /\ Z.of_nat (length datagram) < 65536
   /\ sTunFd (globals example_world) > 0
   /\ Z.of_nat (length datagram) <= kMaxIp6Size)
  /\ writes_of
       (fst (processReceive freebsd_headers FreeBSD datagram example_world))
     = [(5, [0x00; 0x00; 0x00; 0x1C] ++ datagram)].
Proof.
  assert (Hfit : Z.of_nat (length datagram) <= kMaxIp6Size)
    by (vm_compute; discriminate).
  split.
  - repeat split; try reflexivity. exact Hfit.
  - apply (processReceive_af_prefix freebsd_headers FreeBSD example_world
             datagram); try reflexivity. exact Hfit.
Defined.

Lemma UpdateUnicast_linux_add_failure_terminates_witness :
  (sIpFd (globals (world_rejecting is_add_address EEXIST)) >= 0
   /\ k_ioctl_fault (kernel (world_rejecting is_add_address EEXIST))
        (SIOCSIFADDR {| ifr6_addr := addr_2001_db8_1;
                        ifr6_prefixlen := 64;
                        ifr6_ifindex := 7 |}) = Some EEXIST)
  /\ UpdateUnicast Linux addr_2001_db8_1 64 true
       (world_rejecting is_add_address EEXIST)
     = ([EvIoctl 3 (SIOCSIFADDR {| ifr6_addr := addr_2001_db8_1;
                                   ifr6_prefixlen := 64;
                                   ifr6_ifindex := 7 |})],
        Dead OT_EXIT_ERROR_ERRNO).
Proof.
  split; [split; [cbn; lia | reflexivity]|].
  apply (UpdateUnicast_linux_add_failure_terminates
           (world_rejecting is_add_address EEXIST) addr_2001_db8_1 64 EEXIST);
    [cbn; lia | reflexivity].
Defined.

(** The same request on a BSD-style platform: a warning, and the bridge
    goes on. *)
Example UpdateUnicast_bsd_add_failure_run :
  snd (UpdateUnicast FreeBSD addr_2001_db8_1 64 true
         (world_rejecting is_add_address EEXIST))
  = Normal tt (world_rejecting is_add_address EEXIST)
  /\ warnings_of
       (fst (UpdateUnicast FreeBSD addr_2001_db8_1 64 true
               (world_rejecting is_add_address EEXIST))) = 1%nat
  /\ warnings_of
       (fst (UpdateUnicast FreeBSD addr_2001_db8_1 64 true
               (world_rejecting is_add_address EALREADY))) = 0%nat.
Proof. repeat split; reflexivity. Qed.

(** A datagram read while the stack is out of buffers is dropped: no send
    is invoked. *)
Lemma processTransmit_without_buffers_sends_nothing :
  sends_of (fst (processTransmit Linux (ReadData datagram) exhausted_world))
  = []
  /\ length
       (sends_of
          (fst (processTransmit Linux (ReadData datagram) exhausted_world)))
     <> 1%nat.
Proof. split; [reflexivity | discriminate]. Qed.

Lemma processTransmit_delivers_witness :
  (bsd_like FreeBSD = true
   /\ firstn (Z.to_nat kMaxIp6Size) framed_datagram
      = [0; 0; 0x00; 0x0A] ++ datagram)
  /\ (sends_of
        (fst (processTransmit FreeBSD (ReadData framed_datagram)
                example_world))
      = [datagram]
      /\ stack_calls_of
           (fst (processTransmit FreeBSD (ReadData framed_datagram)
                   example_world))
         = [NewMessage; MessageAppend datagram; Send datagram])
  /\ (sends_of
        (fst (processTransmit FreeBSD (ReadData framed_datagram)
                exhausted_world))
      = []
      /\ stack_calls_of
           (fst (processTransmit FreeBSD (ReadData framed_datagram)
                   exhausted_world))
         = [NewMessage]).
Proof.
  assert (Hcase :
            (bsd_like FreeBSD = false
             /\ firstn (Z.to_nat kMaxIp6Size) framed_datagram = datagram
             /\ datagram <> [])
            \/ (bsd_like FreeBSD = true
                /\ exists af_hi af_lo,
                    firstn (Z.to_nat kMaxIp6Size) framed_datagram
                    = [0; 0; af_hi; af_lo] ++ datagram)
            \/ (bsd_like FreeBSD = true
                /\ firstn (Z.to_nat kMaxIp6Size) framed_datagram = datagram
                /\ datagram <> [] /\ nth 0 datagram 0 <> 0)).
  { right. left. split; [reflexivity|]. exists 0x00, 0x0A. reflexivity. }
  split; [split; reflexivity|].
  split.
  - exact (processTransmit_delivers FreeBSD example_world framed_datagram
             datagram Hcase).
  - exact (processTransmit_delivers FreeBSD exhausted_world framed_datagram
             datagram Hcase).
Defined.

(** Two consecutive state-change callbacks, the stack enabled throughout,
    on a host that rejects [SIOCSIFFLAGS]: the request is issued twice. *)
Lemma rejected_set_flags_is_repeated :
  count_SIOCSIFFLAGS
    (fst (two_state_changes example_headers 0 0
            (world_rejecting is_set_flags EPERM))) = 2%nat
  /\ ~ (count_SIOCSIFFLAGS
          (fst (two_state_changes example_headers 0 0
                  (world_rejecting is_set_flags EPERM))) <= 1)%nat.
Proof. split; [reflexivity | vm_compute; lia]. Qed.

Lemma link_reconciliation_idempotent_witness :
  (IFF_UP example_headers <> 0
   /\ forall name flags,
       k_ioctl_fault (kernel example_world) (SIOCSIFFLAGS name flags) = None)
  /\ (count_SIOCSIFFLAGS
        (fst (two_state_changes example_headers 0 0 example_world)) <= 1)%nat.
Proof.
  split; [split; [discriminate | reflexivity]|].
  apply (link_reconciliation_idempotent example_headers example_world 0 0);
    [discriminate | reflexivity].
Defined.

(* ================================================================== *)
(** * Further properties *)

(** ** More on prefix masks *)

Lemma leading_ones_le_length (bs : list bool) :
  (leading_ones bs <= length bs)%nat.
Proof.
  induction bs as [|[|] bs IH]; cbn [leading_ones length]; lia.
Qed.

Lemma bits_of_bytes_length (l : list Z) :
  length (bits_of_bytes l) = (8 * length l)%nat.
Proof.
  induction l as [|b l IH]; [reflexivity|].
  change (bits_of_bytes (b :: l)) with (bits_of_byte b ++ bits_of_bytes l).
  rewrite length_app, IH, bits_of_byte_length. cbn [length]. lia.
Qed.

Lemma leading_ones_all (bs : list bool) :
  leading_ones bs = length bs -> bs = repeat true (length bs).
Proof.
  induction bs as [|[|] bs IH]; cbn [leading_ones length repeat]; intros Hl.
  - reflexivity.
  - f_equal. apply IH. lia.
  - discriminate.
Qed.

Lemma leading_ones_firstn (bs : list bool) :
  firstn (leading_ones bs) bs = repeat true (leading_ones bs)
  /\ nth (leading_ones bs) bs false = false.
Proof.
  induction bs as [|[|] bs [IH1 IH2]]; cbn [leading_ones firstn repeat nth].
  - auto.
  - split; [f_equal; exact IH1 | exact IH2].
  - auto.
Qed.

(** X1.  For any netmask of sixteen octets, contiguous or not,
    [calculate_prefix_len] is the length of the run of one-bits the mask
    starts with: the bits before that position are ones, the bit at it,
    if there is one, is zero, and the result is at most 128. *)
Theorem calculate_prefix_len_leading_run (mask : in6_addr) :
  length mask = 16%nat -> Forall byte_ok mask ->
  let n := Z.to_nat (calculate_prefix_len mask) in
  0 <= calculate_prefix_len mask <= 128
  /\ firstn n (bits_of_bytes mask) = repeat true n
  /\ nth n (bits_of_bytes mask) false = false.
Proof.
  intros Hl Hok n.
  pose proof (calculate_prefix_len_counts mask Hok) as Hc.
  pose proof (leading_ones_le_length (bits_of_bytes mask)) as Hle.
  rewrite bits_of_bytes_length, Hl in Hle.
  assert (Hn : n = leading_ones (bits_of_bytes mask))
    by (unfold n; rewrite Hc; apply Nat2Z.id).
  split; [lia|]. rewrite Hn. apply leading_ones_firstn.
Qed.

Lemma calculate_prefix_len_leading_run_witness :
  (length [0xFF; 0xF0; 0xFF; 0; 0; 0; 0; 0; 0; 0; 0; 0; 0; 0; 0; 0] = 16%nat
   /\ Forall byte_ok [0xFF; 0xF0; 0xFF; 0; 0; 0; 0; 0; 0; 0; 0; 0; 0; 0; 0; 0])
  /\ (0 <= calculate_prefix_len
             [0xFF; 0xF0; 0xFF; 0; 0; 0; 0; 0; 0; 0; 0; 0; 0; 0; 0; 0] <= 128
      /\ firstn 12
           (bits_of_bytes
              [0xFF; 0xF0; 0xFF; 0; 0; 0; 0; 0; 0; 0; 0; 0; 0; 0; 0; 0])
         = repeat true 12
      /\ nth 12
           (bits_of_bytes
              [0xFF; 0xF0; 0xFF; 0; 0; 0; 0; 0; 0; 0; 0; 0; 0; 0; 0; 0])
           false = false).
Proof.
  assert (Hok : Forall byte_ok
                  [0xFF; 0xF0; 0xFF; 0; 0; 0; 0; 0; 0; 0; 0; 0; 0; 0; 0; 0])
    by (repeat constructor; unfold byte_ok; lia).
  split; [split; [reflexivity | exact Hok]|].
  exact (calculate_prefix_len_leading_run
           [0xFF; 0xF0; 0xFF; 0; 0; 0; 0; 0; 0; 0; 0; 0; 0; 0; 0; 0]
           eq_refl Hok).
Defined.

(** X2.  The prefix mask the BSD address requests are given reads back as
    the prefix length: [calculate_prefix_len] of [apply_mask] of the
    all-ones mask is the prefix length, cut at 128. *)
Theorem prefix_mask_round_trip (aPrefixLength : Z) :
  0 <= aPrefixLength < 256 ->
  exists mask,
    apply_mask all_ones aPrefixLength = Some mask
    /\ calculate_prefix_len mask = Z.min aPrefixLength 128.
Proof.
  intros Hp.
  set (n := Z.to_nat (Z.min aPrefixLength 128)).
  assert (Hn : (n <= 128)%nat) by (unfold n; lia).
  exists (leading_ones_mask n). split.
  - apply apply_mask_all_ones_uint8. exact Hp.
  - destruct (leading_ones_mask_bits n Hn) as (Hbits & Hok & _).
    rewrite calculate_prefix_len_counts by exact Hok.
    rewrite Hbits. unfold prefix_bits. rewrite leading_ones_prefix.
    unfold n. lia.
Qed.

Lemma prefix_mask_round_trip_witness :
  0 <= 64 < 256
  /\ exists mask,
      apply_mask all_ones 64 = Some mask
      /\ calculate_prefix_len mask = Z.min 64 128.
Proof.
  split; [lia|]. apply (prefix_mask_round_trip 64). lia.
Defined.

Lemma bits_of_byte_inj (a b : Z) :
  byte_ok a -> byte_ok b -> bits_of_byte a = bits_of_byte b -> a = b.
Proof.
  intros Ha Hb Hab.
  assert (Hr : forall x, byte_ok x -> byte_of_bits (bits_of_byte x) = x).
  { intros x Hx. apply Z.eqb_eq.
    apply (byte_cases (fun x => byte_of_bits (bits_of_byte x) =? x));
      [vm_compute; reflexivity | exact Hx]. }
  rewrite <- (Hr a Ha), <- (Hr b Hb), Hab. reflexivity.
Qed.

Lemma bits_of_bytes_inj (l1 l2 : list Z) :
  Forall byte_ok l1 -> Forall byte_ok l2 -> length l1 = length l2 ->
  bits_of_bytes l1 = bits_of_bytes l2 -> l1 = l2.
Proof.
  intros H1. revert l2.
  induction H1 as [|a l1 Ha H1 IH]; intros l2 H2 Hlen Hbits.
  - destruct l2; [reflexivity | discriminate].
  - destruct H2 as [|b l2 Hb H2]; [discriminate|].
    change (bits_of_byte a ++ bits_of_bytes l1
            = bits_of_byte b ++ bits_of_bytes l2) in Hbits.
    pose proof (f_equal (firstn 8) Hbits) as Hh.
    pose proof (f_equal (skipn 8) Hbits) as Ht.
    unfold bits_of_byte in Hh, Ht. cbn [map app firstn skipn] in Hh, Ht.
    f_equal.
    + apply bits_of_byte_inj; assumption.
    + apply IH; [assumption | cbn [length] in Hlen; lia | exact Ht].
Qed.

Lemma Forall_firstn_byte_ok (l : list Z) (n : nat) :
  Forall byte_ok l -> Forall byte_ok (firstn n l).
Proof.
  intros Hl. revert n.
  induction Hl as [|x l Hx Hl IH]; intros [|n]; cbn [firstn]; auto.
Qed.

Lemma Forall_zeros_byte_ok (m : nat) : Forall byte_ok (repeat 0 m).
Proof.
  apply Forall_forall. intros x Hx. apply repeat_spec in Hx. subst x.
  unfold byte_ok. lia.
Qed.

Lemma apply_mask_byte_ok (address r : in6_addr) (n : nat) :
  length address = 16%nat -> (n <= 128)%nat -> Forall byte_ok address ->
  apply_mask address (Z.of_nat n) = Some r -> Forall byte_ok r.
Proof.
  intros Hl Hn Hok Hr.
  pose proof (apply_mask_shape address n Hl Hn) as Hs.
  cbv zeta in Hs. remember (n mod 8)%nat as k. remember (n / 8)%nat as p.
  rewrite Hs in Hr. destruct k; injection Hr as <-.
  - apply Forall_app. split;
      [apply Forall_firstn_byte_ok, Hok | apply Forall_zeros_byte_ok].
  - apply Forall_app. split; [apply Forall_firstn_byte_ok, Hok|].
    constructor; [|apply Forall_zeros_byte_ok].
    unfold byte_ok, to_uint8. apply Z.mod_pos_bound. lia.
Qed.

Lemma firstn_repeat_false (k m : nat) :
  (k <= m)%nat -> firstn k (repeat false m) = repeat false k.
Proof.
  revert m. induction k as [|k IH]; intros [|m] Hk; cbn [firstn repeat];
    try reflexivity; try lia.
  f_equal. apply IH. lia.
Qed.

(** X3.  Masks compose: cutting an address at [m1] bits and the result at
    [m2] bits is cutting the address at the smaller of the two; in
    particular [apply_mask] is idempotent. *)
Theorem apply_mask_compose (address : in6_addr) (m1 m2 : Z) :
  length address = 16%nat -> Forall byte_ok address ->
  0 <= m1 < 256 -> 0 <= m2 < 256 ->
  exists r1,
    apply_mask address m1 = Some r1
    /\ apply_mask r1 m2 = apply_mask address (Z.min m1 m2).
Proof.
  intros Hl Hok H1 H2.
  set (n1 := Z.to_nat (Z.min m1 128)).
  set (n2 := Z.to_nat (Z.min m2 128)).
  assert (Hn1 : (n1 <= 128)%nat) by (unfold n1; lia).
  assert (Hn2 : (n2 <= 128)%nat) by (unfold n2; lia).
  assert (Hn3 : Z.to_nat (Z.min (Z.min m1 m2) 128) = Nat.min n1 n2)
    by (unfold n1, n2; lia).
  destruct (apply_mask_bits address n1 Hl Hn1) as (r1 & Hr1 & Hl1 & Hb1).
  pose proof (apply_mask_byte_ok _ _ _ Hl Hn1 Hok Hr1) as Hok1.
  destruct (apply_mask_bits r1 n2 Hl1 Hn2) as (r2 & Hr2 & Hl2 & Hb2).
  pose proof (apply_mask_byte_ok _ _ _ Hl1 Hn2 Hok1 Hr2) as Hok2.
  assert (Hn12 : (Nat.min n1 n2 <= 128)%nat) by lia.
  destruct (apply_mask_bits address (Nat.min n1 n2) Hl Hn12)
    as (r3 & Hr3 & Hl3 & Hb3).
  pose proof (apply_mask_byte_ok _ _ _ Hl Hn12 Hok Hr3) as Hok3.
  exists r1. split; [rewrite apply_mask_clamp by exact H1; exact Hr1|].
  rewrite (apply_mask_clamp r1) by exact H2.
  rewrite (apply_mask_clamp address) by lia.
  rewrite Hn3. fold n2. rewrite Hr2, Hr3. f_equal.
  apply bits_of_bytes_inj; try assumption; [congruence|].
  rewrite Hb2, Hb3, Hb1.
  assert (HB : length (bits_of_bytes address) = 128%nat)
    by (rewrite bits_of_bytes_length, Hl; reflexivity).
  assert (HX : length (firstn n1 (bits_of_bytes address)) = n1)
    by (rewrite length_firstn; lia).
  rewrite firstn_app, HX.
  destruct (Nat.le_ge_cases n2 n1) as [Hle|Hge].
  - replace (n2 - n1)%nat with 0%nat by lia.
    rewrite firstn_O, app_nil_r, firstn_firstn.
    replace (Nat.min n2 n1) with n2 by lia.
    replace (Nat.min n1 n2) with n2 by lia. reflexivity.
  - rewrite (firstn_all2 (n := n2)) by lia.
    rewrite firstn_repeat_false by lia.
    rewrite <- app_assoc, <- repeat_app.
    replace (Nat.min n1 n2) with n1 by lia.
    do 2 f_equal. lia.
Qed.

Lemma apply_mask_compose_witness :
  (length addr_2001_db8_1 = 16%nat /\ Forall byte_ok addr_2001_db8_1
   /\ 0 <= 64 < 256 /\ 0 <= 20 < 256)
  /\ exists r1,
      apply_mask addr_2001_db8_1 64 = Some r1
      /\ apply_mask r1 20 = apply_mask addr_2001_db8_1 (Z.min 64 20).
Proof.
  assert (Hok : Forall byte_ok addr_2001_db8_1)
    by (repeat constructor; unfold byte_ok; lia).
  split; [repeat split; try lia; exact Hok|].
  apply (apply_mask_compose addr_2001_db8_1 64 20); try lia;
    [reflexivity | exact Hok].
Defined.

Section UnicastLinkShuttle.

Context {St : Type} `{OtStack St}.

(** *** Unicast addresses, the other paths *)

(** X4.  Removing a unicast address never ends the process and leaves
    the bridge as it was, on every platform and whatever the kernel
    answers: at most one request is sent and at most one warning logged;
    without the ip socket no request is sent and the warning is logged. *)
Theorem UpdateUnicast_remove_returns (platform : Platform) (w : World St)
    (aAddress : in6_addr) (aPrefixLength : Z) :
  0 <= aPrefixLength < 256 ->
  let r := UpdateUnicast platform aAddress aPrefixLength false w in
  snd r = Normal tt w
  /\ (length (ioctls_of (fst r)) <= 1)%nat
  /\ (warnings_of (fst r) <= 1)%nat
  /\ (0 <= sIpFd (globals w)
      \/ (ioctls_of (fst r) = [] /\ warnings_of (fst r) = 1%nat)).
Proof.
  intros Hlen. destruct w as [g k s]. cbv zeta.
  unfold UpdateUnicast, make_aliasreq, at_exit, bind, get_globals,
    VerifyOrExit, VerifyOrDie, ioctl, ioctl_result, perror, otLogInfoPlat,
    otLogWarnPlat, emit, goto_exit, ret.
  rewrite (apply_mask_all_ones_uint8 _ Hlen).
  cbn [globals kernel stack].
  destruct (sIpFd g >=? 0) eqn:Efd.
  - assert (E' : (sIpFd g <? 0) = false) by lia. rewrite E'.
    destruct (bsd_like platform); cbn -[leading_ones_mask];
      (destruct (k_ioctl_fault k _) as [e|]; cbn -[leading_ones_mask];
       [try destruct (errno_is_EALREADY e); cbn -[leading_ones_mask]|]);
      (split; [reflexivity|]; split; [lia|]; split; [lia|]; left; lia).
  - cbn. split; [reflexivity|]. split; [lia|]. split; [lia|].
    right. split; reflexivity.
Qed.

(** *** The link, once more *)

Lemma other_flags_kept (flags up : Z) (ot : bool) :
  Z.land (if ot then Z.lor flags up else Z.land flags (Z.lnot up)) (Z.lnot up)
  = Z.land flags (Z.lnot up).
Proof.
  apply Z.bits_inj'. intros n Hn. destruct ot;
    rewrite ?Z.land_spec, ?Z.lor_spec, ?Z.land_spec, ?Z.lnot_spec by lia;
    destruct (Z.testbit flags n), (Z.testbit up n); reflexivity.
Qed.

(** X5.  When the kernel accepts its requests, one run of [UpdateLink]
    makes the two sides agree: afterwards the kernel's [IFF_UP] is the
    stack's ip6-enabled flag, the other interface flags are as they were,
    and neither the stack nor the descriptors have changed. *)
Theorem UpdateLink_converges (hdr : Headers) (w : World St) :
  IFF_UP hdr <> 0 ->
  sIpFd (globals w) >= 0 ->
  (forall req, k_ioctl_fault (kernel w) req = None) ->
  exists w',
    snd (UpdateLink hdr w) = Normal tt w'
    /\ kernel_link_up hdr (kernel w') = stk_ip6_enabled (stack w)
    /\ Z.land (k_ifflags (kernel w')) (Z.lnot (IFF_UP hdr))
       = Z.land (k_ifflags (kernel w)) (Z.lnot (IFF_UP hdr))
    /\ stack w' = stack w
    /\ globals w' = globals w.
Proof.
  intros Hup Hfd Hacc.
  rewrite UpdateLink_run.
  assert (E : (sIpFd (globals w) <? 0) = false) by lia.
  rewrite E, !Hacc.
  destruct (Bool.eqb _ _) eqn:Eeq.
  - exists w. cbn [snd]. apply eqb_prop in Eeq. auto.
  - eexists. cbn [snd]. split; [reflexivity|].
    cbn [kernel stack globals k_ifflags]. unfold kernel_link_up.
    cbn [k_ifflags].
    rewrite converged_after_set by exact Hup.
    rewrite other_flags_kept. auto.
Qed.

(** *** The packet shuttle, the other paths *)

(** X6.  [processReceive] frees the message of the stack exactly once on
    every path (no tunnel, a datagram that does not fit, a failed or short
    write, success): the free is the last thing before the closing log
    line, so that whatever is written to the tunnel is written before it,
    and the function returns with the bridge as it was. *)
Theorem processReceive_releases_message (hdr : Headers) (platform : Platform)
    (w : World St) (aMessage : otMessage) :
  (exists before level,
      fst (processReceive hdr platform aMessage w)
      = before ++ [EvStack (MessageFree aMessage); EvLog level]
      /\ frees_of before = []
      /\ writes_of before
         = writes_of (fst (processReceive hdr platform aMessage w)))
  /\ frees_of (fst (processReceive hdr platform aMessage w)) = [aMessage]
  /\ snd (processReceive hdr platform aMessage w) = Normal tt w.
Proof.
  assert (Hshape : forall (before : Trace) (level : LogLevel) (r : Result unit),
             frees_of before = [] ->
             r = Normal tt w ->
             (exists before' level',
                 fst (before ++ [EvStack (MessageFree aMessage); EvLog level],
                      r)
                 = before' ++ [EvStack (MessageFree aMessage); EvLog level']
                 /\ frees_of before' = []
                 /\ writes_of before'
                    = writes_of
                        (fst (before ++ [EvStack (MessageFree aMessage);
                                         EvLog level], r)))
             /\ frees_of
                  (fst (before ++ [EvStack (MessageFree aMessage);
                                   EvLog level], r)) = [aMessage]
             /\ snd (before ++ [EvStack (MessageFree aMessage); EvLog level],
                     r) = Normal tt w).
  { intros before level r Hb ->. cbn [fst snd].
    unfold frees_of, writes_of in *. rewrite !flat_map_app, Hb. cbn.
    rewrite app_nil_r.
    split; [exists before, level; auto|]. split; reflexivity. }
  destruct w as [g k s].
  unfold processReceive, at_exit, bind, get_globals, VerifyOrExit,
    otMessageRead, otMessageGetLength, write, otMessageFree, log_error,
    perror, otLogInfoPlat, otLogWarnPlat, emit, goto_exit, ret.
  cbn [globals kernel stack].
  destruct (sTunFd g >? 0); shuttle_cbn;
    [|apply (Hshape [] LogInfo); reflexivity].
  match goal with
  | |- context [if ?c then _ else _] => destruct c
  end; shuttle_cbn; [|apply (Hshape [] LogWarn); reflexivity].
  destruct (k_write_fault k) as [[n|e]|]; shuttle_cbn;
    repeat (match goal with
            | |- context [if (?a =? ?b) then _ else _] => destruct (a =? b)
            end; shuttle_cbn);
    match goal with
    | |- context [EvWrite ?fd ?d :: EvPerror ?m :: _] =>
        apply (Hshape [EvWrite fd d; EvPerror m] LogWarn); reflexivity
    | |- context [EvWrite ?fd ?d :: _] =>
        apply (Hshape [EvWrite fd d] LogInfo); reflexivity
    end.
Qed.

(** What [processReceive] writes on a platform without framing. *)
Lemma processReceive_writes_bare (hdr : Headers) (platform : Platform)
    (w : World St) (aMessage : otMessage) :
  bsd_like platform = false ->
  Z.of_nat (length aMessage) <= kMaxIp6Size ->
  sTunFd (globals w) > 0 ->
  writes_of (fst (processReceive hdr platform aMessage w))
  = [(sTunFd (globals w), aMessage)].
Proof.
  intros Hbsd Hfit Hfd. destruct w as [g k s]. cbn [globals] in *.
  unfold kMaxIp6Size in Hfit.
  unfold processReceive, at_exit, bind, get_globals, VerifyOrExit,
    otMessageRead, otMessageGetLength, write, otMessageFree, log_error,
    perror, otLogInfoPlat, otLogWarnPlat, emit, goto_exit, ret.
  rewrite Hbsd. cbn [globals kernel stack fst snd].
  rewrite Z.mod_small by lia.
  change (kMaxIp6Size + 4 - 4) with 1536.
  change (Z.to_nat 0) with 0%nat. rewrite skipn_O.
  assert (Efd : (sTunFd g >? 0) = true) by (apply Z.gtb_lt; lia).
  rewrite Efd. shuttle_cbn.
  assert (Hbody : firstn (Z.to_nat 1536) aMessage = aMessage)
    by (apply firstn_all2; lia).
  rewrite Hbody, Z.eqb_refl, Nat2Z.id, firstn_all. shuttle_cbn.
  destruct (k_write_fault k) as [[n|e]|]; shuttle_cbn;
    repeat (match goal with
            | |- context [if ?c then _ else _] => destruct c
            end; shuttle_cbn);
    reflexivity.
Qed.

(** X7.  A datagram of the stack that does not fit the packet buffer of
    [kMaxIp6Size] octets is dropped on every platform: nothing is written
    to the tunnel, and with the tunnel open the drop is reported by a
    warning. *)
Theorem processReceive_oversize_dropped (hdr : Headers) (platform : Platform)
    (w : World St) (aMessage : otMessage) :
  kMaxIp6Size < Z.of_nat (length aMessage) < 65536 ->
  writes_of (fst (processReceive hdr platform aMessage w)) = []
  /\ (sTunFd (globals w) <= 0
      \/ warnings_of (fst (processReceive hdr platform aMessage w)) = 1%nat).
Proof.
  intros Hlen. destruct w as [g k s]. cbn [globals] in *.
  unfold kMaxIp6Size in Hlen.
  unfold processReceive, at_exit, bind, get_globals, VerifyOrExit,
    otMessageRead, otMessageGetLength, write, otMessageFree, log_error,
    perror, otLogInfoPlat, otLogWarnPlat, emit, goto_exit, ret.
  cbn [globals kernel stack fst snd].
  rewrite Z.mod_small by lia.
  change (kMaxIp6Size + 4 - 4) with 1536.
  change (Z.to_nat 0) with 0%nat. rewrite skipn_O, length_firstn.
  assert (Eread : (Z.of_nat (Nat.min (Z.to_nat 1536) (length aMessage))
                   =? Z.of_nat (length aMessage)) = false)
    by (apply Z.eqb_neq; lia).
  rewrite Eread.
  destruct (sTunFd g >? 0) eqn:Efd; shuttle_cbn.
  - split; [reflexivity | right; reflexivity].
  - split; [reflexivity|]. left.
    rewrite Z.gtb_ltb in Efd. apply Z.ltb_ge in Efd. lia.
Qed.

(** Every run of [processTransmit] on a datagram the stack has room for. *)
Lemma processTransmit_sends_body (platform : Platform) (w : World St)
    (data : list Z) :
  let packet := firstn (Z.to_nat kMaxIp6Size) data in
  let strip := bsd_like platform && (Z.of_nat (length packet) >=? 4)
               && (nth 0 packet 0 =? 0) && (nth 1 packet 0 =? 0) in
  let body := if strip then skipn 4 packet else packet in
  packet <> [] ->
  stk_has_buffers (stack w) 0 = true ->
  stk_has_buffers (stack w) (length body) = true ->
  sends_of (fst (processTransmit platform (ReadData data) w)) = [body].
Proof.
  intros packet strip body Hne Hnew Happ.
  assert (Hplen : (length packet <= 1536)%nat).
  { unfold packet. rewrite length_firstn. unfold kMaxIp6Size. lia. }
  assert (Hpos : (Z.of_nat (length packet) >? 0) = true).
  { apply Z.gtb_lt. destruct packet; [congruence | cbn [length]; lia]. }
  destruct w as [g k s]. cbn [stack] in Hnew, Happ.
  unfold processTransmit, at_exit, bind, VerifyOrExit, otIp6NewMessage,
    otMessageAppend, otIp6Send, otMessageFree, stack_call, log_error,
    otLogInfoPlat, otLogWarnPlat, emit, goto_exit, ret.
  fold packet. cbn [stack globals kernel].
  rewrite Hpos. shuttle_cbn. rewrite Hnew. shuttle_cbn. fold strip.
  assert (Hbody :
            firstn (Z.to_nat ((if strip then Z.of_nat (length packet) - 4
                               else Z.of_nat (length packet)) mod 65536))
              (skipn (Z.to_nat (if strip then 4 else 0)) packet) = body).
  { unfold body. destruct strip eqn:Es.
    - assert (Hge : Z.of_nat (length packet) >= 4).
      { unfold strip in Es. apply andb_true_iff in Es. destruct Es as [Es _].
        apply andb_true_iff in Es. destruct Es as [Es _].
        apply andb_true_iff in Es. destruct Es as [_ Es].
        apply Z.geb_le in Es. lia. }
      rewrite Z.mod_small by lia. change (Z.to_nat 4) with 4%nat.
      apply firstn_all2. rewrite length_skipn. lia.
    - rewrite Z.mod_small by lia. change (Z.to_nat 0) with 0%nat.
      rewrite skipn_O. apply firstn_all2. lia. }
  rewrite Hbody, Happ. shuttle_cbn.
  destruct (stk_send body s) as [e s']. shuttle_cbn.
  destruct (otError_is_none e); reflexivity.
Qed.

(** X8.  What the bridge writes to the tunnel for a datagram of the stack
    comes back as that datagram: [processTransmit] on the octets
    [processReceive] wrote hands the stack one message with the same
    octets, with or without af-prefix framing and whatever [PF_INET6]
    is. *)
Theorem shuttle_round_trip (hdr : Headers) (platform : Platform)
    (w1 w2 : World St) (D : list Z) :
  D <> [] ->
  Z.of_nat (length D) + 4 <= kMaxIp6Size ->
  sTunFd (globals w1) > 0 ->
  stk_has_buffers (stack w2) 0 = true ->
  stk_has_buffers (stack w2) (length D) = true ->
  exists octets,
    writes_of (fst (processReceive hdr platform D w1))
    = [(sTunFd (globals w1), octets)]
    /\ sends_of (fst (processTransmit platform (ReadData octets) w2)) = [D].
Proof.
  intros Hne Hfit Hfd Hnew Happ. unfold kMaxIp6Size in Hfit.
  destruct (bsd_like platform) eqn:Hbsd.
  - exists ([0; 0; 0; PF_INET6 hdr mod 256] ++ D). split.
    + apply (processReceive_writes hdr platform w1 D Hbsd); [lia| | ];
        unfold kMaxIp6Size; lia.
    + pose proof (processTransmit_sends_body platform w2
                    ([0; 0; 0; PF_INET6 hdr mod 256] ++ D)) as Hrun.
      cbv zeta in Hrun.
      assert (Hp : firstn (Z.to_nat kMaxIp6Size)
                     ([0; 0; 0; PF_INET6 hdr mod 256] ++ D)
                   = [0; 0; 0; PF_INET6 hdr mod 256] ++ D).
      { apply firstn_all2. rewrite length_app. cbn [length].
        unfold kMaxIp6Size. lia. }
      rewrite Hp, Hbsd in Hrun. cbn [app length nth andb] in Hrun.
      rewrite !Z.eqb_refl in Hrun.
      replace (Z.of_nat (S (S (S (S (length D))))) >=? 4) with true in Hrun
        by (symmetry; apply Z.geb_le; lia).
      cbn [andb skipn] in Hrun.
      apply Hrun; [discriminate | exact Hnew | exact Happ].
  - exists D. split.
    + apply processReceive_writes_bare; [exact Hbsd | unfold kMaxIp6Size; lia
                                        | exact Hfd].
    + pose proof (processTransmit_sends_body platform w2 D) as Hrun.
      cbv zeta in Hrun.
      assert (Hp : firstn (Z.to_nat kMaxIp6Size) D = D).
      { apply firstn_all2. unfold kMaxIp6Size. lia. }
      rewrite Hp, Hbsd in Hrun. cbn [andb] in Hrun.
      apply Hrun; [exact Hne | exact Hnew | exact Happ].
Qed.

(** X9.  A message [processTransmit] obtains from the stack is handed
    back exactly once, by a send when the append succeeded and by a free
    when it failed; without a datagram (a read error or an empty read) the
    stack is not called at all.  The bridge itself is left as it was. *)
Theorem processTransmit_message_ownership (platform : Platform)
    (w : World St) (rd : ReadResult) :
  let r := processTransmit platform rd w in
  (exists w', snd r = Normal tt w'
              /\ globals w' = globals w /\ kernel w' = kernel w)
  /\ (stack_calls_of (fst r) = []
      \/ stack_calls_of (fst r) = [NewMessage]
      \/ (exists d, stack_calls_of (fst r)
                    = [NewMessage; MessageAppend d; MessageFree []])
      \/ (exists d, stack_calls_of (fst r)
                    = [NewMessage; MessageAppend d; Send d]))
  /\ (stack_calls_of (fst r) = []
      \/ exists octet data, rd = ReadData (octet :: data)).
Proof.
  destruct w as [g k s]. cbv zeta.
  unfold processTransmit, at_exit, bind, VerifyOrExit, otIp6NewMessage,
    otMessageAppend, otIp6Send, otMessageFree, stack_call, log_error,
    otLogInfoPlat, otLogWarnPlat, emit, goto_exit, ret.
  destruct rd as [e|data].
  - shuttle_cbn. split; [eexists; split; [reflexivity|auto]|]. auto.
  - destruct (Z.of_nat (length (firstn (Z.to_nat kMaxIp6Size) data)) >? 0)
      eqn:Epos; shuttle_cbn.
    2:{ split; [eexists; split; [reflexivity|auto]|]. auto. }
    assert (Hdata : exists octet rest, ReadData data
                                       = ReadData (octet :: rest)).
    { destruct data as [|octet rest]; [discriminate Epos | eauto]. }
    destruct (stk_has_buffers s 0); shuttle_cbn.
    2:{ split; [eexists; split; [reflexivity|auto]|].
        split; [auto | right; exact Hdata]. }
    match goal with
    | |- context [stk_has_buffers s ?n] => destruct (stk_has_buffers s n)
    end; shuttle_cbn.
    + match goal with
      | |- context [stk_send ?m s] => destruct (stk_send m s) as [e s']
      end; shuttle_cbn.
      destruct (otError_is_none e); shuttle_cbn;
        (split; [eexists; split; [reflexivity|auto]|]);
        (split; [right; right; right; eexists; reflexivity
                | right; exact Hdata]).
    + split; [eexists; split; [reflexivity|auto]|].
      split; [right; right; left; eexists; reflexivity
             | right; exact Hdata].
Qed.

End UnicastLinkShuttle.

Lemma ioctls_of_app (t1 t2 : Trace) :
  ioctls_of (t1 ++ t2) = ioctls_of t1 ++ ioctls_of t2.
Proof. apply flat_map_app. Qed.

Section KernelEvents.

Context {St : Type} `{OtStack St}.

(** *** Kernel events, the other paths *)

(** X10.  The netlink handler looks only at address messages of the
    tunnel: a message for another interface index or another address
    family asks nothing of the stack and nothing of the kernel. *)
Theorem netlink_other_interface_ignored (hdr : Headers) (w : World St)
    (msg : nlmsg_addr) :
  ifa_index msg <> sTunIndex (globals w)
  \/ ifa_family msg <> AF_INET6 hdr ->
  processNetifAddrEvent_netlink hdr msg w = ([EvLog LogInfo], Normal tt w).
Proof.
  intros Hother. destruct w as [g k s]. cbn [globals] in *.
  unfold processNetifAddrEvent_netlink, at_exit, bind, get_globals,
    VerifyOrExit, log_error, otLogInfoPlat, emit, goto_exit, ret.
  cbn [globals].
  assert (E : (ifa_index msg =? sTunIndex g)
              && (ifa_family msg =? AF_INET6 hdr) = false).
  { apply andb_false_iff. destruct Hother as [Hne|Hne];
      [left | right]; apply Z.eqb_neq; exact Hne. }
  rewrite E. reflexivity.
Qed.

(** The attribute loop of a delete message never leaves early. *)
Lemma netlink_attrs_delete_run (msg : nlmsg_addr) (attrs : list rtattr) :
  nlmsg_type msg = RTM_DELADDR ->
  forall (error : otError) (w : World St),
  exists t e' w',
    netlink_attrs msg attrs error w = (t, Normal e' w')
    /\ globals w' = globals w /\ kernel w' = kernel w
    /\ stack_calls_of t = map netlink_del_call (filter is_address_attr attrs)
    /\ ioctls_of t = [].
Proof.
  intros Htype. induction attrs as [|rta rest IH]; intros error w.
  - exists [], error, w. cbn. auto.
  - cbn [netlink_attrs filter]. unfold is_address_attr at 1.
    rewrite Htype.
    destruct (rta_type rta) eqn:Ek; cbn [map]; unfold netlink_del_call at 1;
      try (destruct w as [g k s];
           destruct (IsMulticast (rta_data rta)) eqn:Emc; cbn [negb];
           unfold otIp6UnsubscribeMulticastAddress, otIp6RemoveUnicastAddress,
             bind, stack_call, note_or_warn, otLogNotePlat, otLogWarnPlat,
             emit, ret;
           cbn [stack globals kernel];
           match goal with
           | |- context [stk_unsubscribe_multicast ?a s] =>
               destruct (stk_unsubscribe_multicast a s) as [e s']
           | |- context [stk_remove_unicast ?a s] =>
               destruct (stk_remove_unicast a s) as [e s']
           end;
           destruct (IH (if otError_is_none e || otError_is_not_found e
                         then OT_ERROR_NONE else e)
                       {| globals := g; kernel := k; stack := s' |})
             as (t & e' & w' & Hrun & Hg & Hk & Hc & Hi);
           destruct (otError_is_none e || otError_is_not_found e);
           cbn [app]; rewrite Hrun; do 3 eexists;
           (split; [reflexivity|]); cbn [globals kernel] in *;
           repeat split; auto; cbn [stack_calls_of ioctls_of flat_map app]; fold (stack_calls_of t); fold (ioctls_of t); rewrite ?Hc, ?Hi; reflexivity).
    destruct (IH error w) as (t & e' & w' & Hrun & Hg & Hk & Hc & Hi).
    unfold bind, otLogWarnPlat, emit. rewrite Hrun.
    do 3 eexists. split; [reflexivity|]. repeat split; auto.
Qed.

(** X11.  A netlink delete message is worked off in full: every address
    attribute, in the order of the message, becomes one call of the stack
    (unicast remove, or multicast unsubscribe for an address ff..), and no
    answer of the stack ends the walk early; the kernel is asked
    nothing. *)
Theorem netlink_delete_walks_all_attributes (hdr : Headers) (w : World St)
    (msg : nlmsg_addr) :
  nlmsg_type msg = RTM_DELADDR ->
  ifa_index msg = sTunIndex (globals w) ->
  ifa_family msg = AF_INET6 hdr ->
  let r := processNetifAddrEvent_netlink hdr msg w in
  stack_calls_of (fst r)
  = map netlink_del_call (filter is_address_attr (ifa_attrs msg))
  /\ ioctls_of (fst r) = []
  /\ exists w', snd r = Normal tt w'
                /\ globals w' = globals w /\ kernel w' = kernel w.
Proof.
  intros Htype Hidx Hfam r.
  destruct (netlink_attrs_delete_run msg (ifa_attrs msg) Htype
              OT_ERROR_NONE w) as (t & e' & w' & Hrun & Hg & Hk & Hc & Hi).
  assert (Hr : exists l, r = (t ++ [EvLog l], Normal tt w')).
  { subst r. unfold processNetifAddrEvent_netlink, at_exit.
    unfold bind at 1, get_globals. unfold bind at 1, VerifyOrExit.
    rewrite Hidx, Hfam, !Z.eqb_refl. cbn [andb ret app].
    rewrite Hrun. unfold log_error, otLogInfoPlat, otLogWarnPlat, emit.
    destruct (otError_is_none e'); eexists; reflexivity. }
  destruct Hr as [l Hr]. rewrite Hr. cbn [fst snd].
  rewrite stack_calls_of_app, ioctls_of_app, Hc, Hi. cbn.
  rewrite ?app_nil_r. split; [reflexivity|]. split; [reflexivity|].
  exists w'; auto.
Qed.

(** X12.  A netlink add message stops at the first unicast address the
    stack does not take, [OT_ERROR_ALREADY] included: the attributes after
    it are not looked at, and the handler ends with a warning. *)
Theorem netlink_add_stops_at_refused_unicast (hdr : Headers) (w : World St)
    (msg : nlmsg_addr) (rta : rtattr) (rest : list rtattr) :
  nlmsg_type msg = RTM_NEWADDR ->
  ifa_index msg = sTunIndex (globals w) ->
  ifa_family msg = AF_INET6 hdr ->
  ifa_attrs msg = rta :: rest ->
  is_address_attr rta = true ->
  IsMulticast (rta_data rta) = false ->
  let netAddr := {| mAddress := rta_data rta;
                    mPrefixLength := ifa_prefixlen msg |} in
  fst (stk_add_unicast netAddr (stack w)) <> OT_ERROR_NONE ->
  let r := processNetifAddrEvent_netlink hdr msg w in
  stack_calls_of (fst r) = [AddUnicastAddress netAddr]
  /\ last (fst r) (EvLog LogInfo) = EvLog LogWarn
  /\ snd r = Normal tt {| globals := globals w; kernel := kernel w;
                          stack := snd (stk_add_unicast netAddr (stack w)) |}.
Proof.
  intros Htype Hidx Hfam Hattrs Hkind Hmc netAddr Herr r. subst r.
  destruct w as [g k s]. cbn [globals kernel stack] in *.
  unfold processNetifAddrEvent_netlink, at_exit, bind, get_globals,
    VerifyOrExit.
  rewrite Hattrs, Hidx, Hfam. cbn [globals]. rewrite !Z.eqb_refl.
  cbn [andb ret netlink_attrs]. rewrite Htype, Hmc. cbn [negb].
  unfold otIp6AddUnicastAddress, stack_call, note_or_warn, SuccessOrExit,
    log_error, otLogNotePlat, otLogWarnPlat, otLogInfoPlat, emit, goto_exit,
    ret, bind.
  cbn [stack globals kernel].
  unfold is_address_attr in Hkind.
  fold netAddr.
  destruct (rta_type rta) eqn:Ek; try discriminate Hkind;
    cbn [stack globals kernel]; fold netAddr;
    destruct (stk_add_unicast netAddr s) as [e s']; cbn [fst snd] in *;
    destruct e; try (exfalso; apply Herr; reflexivity); cbn; auto.
Qed.

(** The routing-socket handler up to the point where it has the address
    of an address message of the tunnel. *)
Lemma mc_link_local_is_multicast (a : in6_addr) :
  IN6_IS_ADDR_MC_LINKLOCAL a = true -> IsMulticast a = true.
Proof.
  unfold IN6_IS_ADDR_MC_LINKLOCAL, IsMulticast. intros Hm.
  apply andb_true_iff in Hm. tauto.
Qed.

Lemma link_local_is_unicast (a : in6_addr) :
  IN6_IS_ADDR_LINKLOCAL a = true -> IsMulticast a = false.
Proof.
  unfold IN6_IS_ADDR_LINKLOCAL, IsMulticast. intros Hm.
  apply andb_true_iff in Hm. destruct Hm as [H0 _].
  apply Z.eqb_eq in H0. rewrite H0. reflexivity.
Qed.

Lemma set_octet_3_keeps_kind (a : in6_addr) :
  IsMulticast (set_octet a 3 0) = IsMulticast a.
Proof.
  unfold IsMulticast, set_octet.
  destruct a as [|x a]; reflexivity.
Qed.

Lemma without_embedded_scope_kind (a : in6_addr) :
  IsMulticast (without_embedded_scope a) = IsMulticast a.
Proof.
  unfold without_embedded_scope.
  destruct (IN6_IS_ADDR_LINKLOCAL a || IN6_IS_ADDR_MC_LINKLOCAL a);
    [apply set_octet_3_keeps_kind | reflexivity].
Qed.

Lemma calculate_prefix_len_leading_ones_mask (n : nat) :
  (n <= 128)%nat ->
  to_uint8 (calculate_prefix_len (leading_ones_mask n)) = Z.of_nat n.
Proof.
  intros Hn. destruct (leading_ones_mask_bits n Hn) as (Hbits & Hok & _).
  rewrite calculate_prefix_len_counts by exact Hok.
  rewrite Hbits. unfold prefix_bits. rewrite leading_ones_prefix.
  unfold to_uint8. apply Z.mod_small. lia.
Qed.

(** The handler on an address message of the tunnel that carries an IPv6
    address: what is left of it once the message is parsed. *)
Lemma route_handler_parsed (hdr : Headers) (platform : Platform)
    (w : World St) (rtm : rt_msghdr) (netmask_uninit : in6_addr)
    (addr6 netmask : sockaddr_in6) :
  rtm_type rtm = RTM_NEWADDR \/ rtm_type rtm = RTM_DELADDR ->
  rtm_index rtm = sTunIndex (globals w) ->
  rtm_addrs rtm <> 0 ->
  scan_sockaddrs hdr (RTAX_MAX hdr) 0 (rtm_addrs rtm) (rtm_sockaddrs rtm)
    {| sin6_family := 0; sin6_addr := [] |}
    {| sin6_family := 0; sin6_addr := netmask_uninit |} = (addr6, netmask) ->
  sin6_family addr6 = AF_INET6 hdr ->
  let addr := without_embedded_scope (sin6_addr addr6) in
  let netAddr :=
    {| mAddress := addr;
       mPrefixLength := to_uint8 (calculate_prefix_len (sin6_addr netmask)) |} in
  processNetifAddrEvent_route hdr platform rtm netmask_uninit w
  = at_exit
      (if MsgType_eqb (rtm_type rtm) RTM_NEWADDR then
         if negb (IsMulticast addr) then
           bind (unicastAddressIsSubscribed netAddr) (fun subscribed =>
           if subscribed then bind otLogNotePlat (fun _ => ret OT_ERROR_NONE)
           else if IN6_IS_ADDR_LINKLOCAL (sin6_addr addr6) then
             bind (make_aliasreq platform (sTunName (globals w)) addr
                     (mPrefixLength netAddr)) (fun ifr6 =>
             bind (ioctl (sIpFd (globals w)) (SIOCDIFADDR_IN6 ifr6))
               (fun err =>
             bind (note_or_warn (sys_is_zero err))
               (fun _ => ret OT_ERROR_NONE)))
           else
             bind (otIp6AddUnicastAddress netAddr) (fun error =>
             bind (note_or_warn (otError_is_none error
                                 || otError_is_already error))
               (fun _ => ret error)))
         else
           bind (otIp6SubscribeMulticastAddress addr) (fun error =>
           bind (note_or_warn (otError_is_none error
                               || otError_is_already error))
             (fun _ => ret error))
       else
         if negb (IsMulticast addr) then
           bind (otIp6RemoveUnicastAddress addr) (fun error =>
           bind (note_or_warn (otError_is_none error
                               || otError_is_not_found error))
             (fun _ => ret error))
         else
           bind (otIp6UnsubscribeMulticastAddress addr) (fun error =>
           bind (note_or_warn (otError_is_none error
                               || otError_is_not_found error))
             (fun _ => ret error)))
      (fun _ => ret tt) w.
Proof.
  intros Htype Hidx Hmask Hscan Hfam addr netAddr.
  destruct w as [g k s]. cbn [globals] in *.
  apply Z.eqb_neq in Hmask.
  assert (Haddr : (if IN6_IS_ADDR_LINKLOCAL (sin6_addr addr6)
                   then set_octet (sin6_addr addr6) 3 0
                   else if IN6_IS_ADDR_MC_LINKLOCAL (sin6_addr addr6)
                        then set_octet (sin6_addr addr6) 3 0
                        else sin6_addr addr6) = addr).
  { unfold addr, without_embedded_scope.
    destruct (IN6_IS_ADDR_LINKLOCAL (sin6_addr addr6)); reflexivity. }
  unfold processNetifAddrEvent_route, at_exit.
  unfold bind at 1, get_globals. cbn [globals].
  unfold bind at 1, VerifyOrExit.
  rewrite Hidx, Z.eqb_refl.
  destruct Htype as [Htype|Htype]; rewrite Htype;
    cbn [MsgType_eqb orb andb negb ret]; rewrite ?orb_true_r;
    cbn [MsgType_eqb orb andb negb ret];
    rewrite Hmask; cbn [negb]; rewrite Hscan, Hfam, Z.eqb_refl, Haddr;
    cbn [app]; rewrite ?andb_false_r; cbn [orb];
    fold netAddr;
    match goal with
    | |- _ = (let (t, r) := ?X in _) => destruct X as [t0 r0]
    end; reflexivity.
Qed.

(** X13.  An address the stack already has is not imported again: when the
    kernel announces on the routing socket a unicast address of the tunnel
    that is in the stack's unicast list (the echo of an address the bridge
    itself configured), the handler reads that list and only notes the
    address: no address is added, removed, subscribed or unsubscribed, the
    kernel is asked nothing, no warning is logged, and the state stays as
    it is. *)
Theorem route_known_address_only_noted (hdr : Headers) (platform : Platform)
    (w : World St) (rtm : rt_msghdr) (netmask_uninit : in6_addr)
    (addr6 netmask : sockaddr_in6) :
  rtm_type rtm = RTM_NEWADDR ->
  rtm_index rtm = sTunIndex (globals w) ->
  rtm_addrs rtm <> 0 ->
  scan_sockaddrs hdr (RTAX_MAX hdr) 0 (rtm_addrs rtm) (rtm_sockaddrs rtm)
    {| sin6_family := 0; sin6_addr := [] |}
    {| sin6_family := 0; sin6_addr := netmask_uninit |} = (addr6, netmask) ->
  sin6_family addr6 = AF_INET6 hdr ->
  IsMulticast (sin6_addr addr6) = false ->
  existsb (fun a => in6_eqb (mAddress a)
                      (without_embedded_scope (sin6_addr addr6)))
    (stk_unicast_addresses (stack w)) = true ->
  let r := processNetifAddrEvent_route hdr platform rtm netmask_uninit w in
  address_calls_of (fst r) = []
  /\ ioctls_of (fst r) = []
  /\ warnings_of (fst r) = 0%nat
  /\ snd r = Normal tt w.
Proof.
  intros Htype Hidx Hmask Hscan Hfam Hmc Hknown r.
  assert (Hrun : r = ([EvLog LogNote], Normal tt w)).
  { subst r.
    rewrite (route_handler_parsed hdr platform w rtm netmask_uninit addr6
               netmask (or_introl Htype) Hidx Hmask Hscan Hfam).
    rewrite Htype, without_embedded_scope_kind, Hmc.
    cbn [MsgType_eqb negb].
    unfold at_exit, bind, unicastAddressIsSubscribed,
      otIp6GetUnicastAddresses, bind, ret, otLogNotePlat, emit.
    cbn [mAddress]. rewrite Hknown. reflexivity. }
  rewrite Hrun. repeat split; reflexivity.
Qed.

(** X14.  A new unicast address of the tunnel that is not link-local and
    not known to the stack is handed to the stack with the prefix length
    read off the netmask: for a netmask of [n] leading one-bits the stack
    is given prefix length [n]; no request goes to the kernel. *)
Theorem route_new_address_imported (hdr : Headers) (platform : Platform)
    (w : World St) (rtm : rt_msghdr) (netmask_uninit : in6_addr)
    (addr6 netmask : sockaddr_in6) (n : nat) :
  rtm_type rtm = RTM_NEWADDR ->
  rtm_index rtm = sTunIndex (globals w) ->
  rtm_addrs rtm <> 0 ->
  scan_sockaddrs hdr (RTAX_MAX hdr) 0 (rtm_addrs rtm) (rtm_sockaddrs rtm)
    {| sin6_family := 0; sin6_addr := [] |}
    {| sin6_family := 0; sin6_addr := netmask_uninit |} = (addr6, netmask) ->
  sin6_family addr6 = AF_INET6 hdr ->
  IsMulticast (sin6_addr addr6) = false ->
  IN6_IS_ADDR_LINKLOCAL (sin6_addr addr6) = false ->
  existsb (fun a => in6_eqb (mAddress a) (sin6_addr addr6))
    (stk_unicast_addresses (stack w)) = false ->
  (n <= 128)%nat ->
  sin6_addr netmask = leading_ones_mask n ->
  let t := fst (processNetifAddrEvent_route hdr platform rtm netmask_uninit w)
  in
  stack_calls_of t
  = [AddUnicastAddress {| mAddress := sin6_addr addr6;
                          mPrefixLength := Z.of_nat n |}]
  /\ ioctls_of t = [].
Proof.
  intros Htype Hidx Hmask Hscan Hfam Hmc Hll Hnew Hn Hnm t. subst t.
  rewrite (route_handler_parsed hdr platform w rtm netmask_uninit addr6
             netmask (or_introl Htype) Hidx Hmask Hscan Hfam).
  assert (Hsame : without_embedded_scope (sin6_addr addr6) = sin6_addr addr6).
  { unfold without_embedded_scope. rewrite Hll.
    destruct (IN6_IS_ADDR_MC_LINKLOCAL (sin6_addr addr6)) eqn:E;
      [|reflexivity].
    apply mc_link_local_is_multicast in E. congruence. }
  rewrite Htype, Hsame, Hmc, Hll, Hnm,
    (calculate_prefix_len_leading_ones_mask n Hn).
  cbn [MsgType_eqb negb].
  destruct w as [g k s]. cbn [stack] in Hnew.
  unfold at_exit, bind, unicastAddressIsSubscribed, otIp6GetUnicastAddresses,
    otIp6AddUnicastAddress, stack_call, note_or_warn, otLogNotePlat,
    otLogWarnPlat, emit, ret.
  unfold bind.
  cbn [mAddress stack globals kernel]. rewrite Hnew.
  cbn [stack globals kernel].
  match goal with
  | |- context [stk_add_unicast ?a s] => destruct (stk_add_unicast a s) as [e s']
  end.
  destruct (otError_is_none e || otError_is_already e); cbn; auto.
Qed.

(** X15.  A deleted address of the tunnel announced on the routing socket
    becomes exactly one call of the stack, for the address with the
    embedded scope cleared: remove for a unicast address, unsubscribe for
    a multicast address; the kernel is asked nothing and the handler
    returns whatever the stack answers. *)
Theorem route_delete_forwarded (hdr : Headers) (platform : Platform)
    (w : World St) (rtm : rt_msghdr) (netmask_uninit : in6_addr)
    (addr6 netmask : sockaddr_in6) :
  rtm_type rtm = RTM_DELADDR ->
  rtm_index rtm = sTunIndex (globals w) ->
  rtm_addrs rtm <> 0 ->
  scan_sockaddrs hdr (RTAX_MAX hdr) 0 (rtm_addrs rtm) (rtm_sockaddrs rtm)
    {| sin6_family := 0; sin6_addr := [] |}
    {| sin6_family := 0; sin6_addr := netmask_uninit |} = (addr6, netmask) ->
  sin6_family addr6 = AF_INET6 hdr ->
  let addr := without_embedded_scope (sin6_addr addr6) in
  let r := processNetifAddrEvent_route hdr platform rtm netmask_uninit w in
  stack_calls_of (fst r)
  = [if IsMulticast (sin6_addr addr6)
     then UnsubscribeMulticastAddress addr
     else RemoveUnicastAddress addr]
  /\ ioctls_of (fst r) = []
  /\ exists w', snd r = Normal tt w'
                /\ globals w' = globals w /\ kernel w' = kernel w.
Proof.
  intros Htype Hidx Hmask Hscan Hfam addr r. subst r.
  rewrite (route_handler_parsed hdr platform w rtm netmask_uninit addr6
             netmask (or_intror Htype) Hidx Hmask Hscan Hfam).
  rewrite Htype, without_embedded_scope_kind. fold addr.
  cbn [MsgType_eqb].
  destruct w as [g k s].
  unfold at_exit, bind, otIp6RemoveUnicastAddress,
    otIp6UnsubscribeMulticastAddress, stack_call, note_or_warn,
    otLogNotePlat, otLogWarnPlat, emit, ret.
  cbn [stack globals kernel].
  destruct (IsMulticast (sin6_addr addr6)); cbn [negb stack globals kernel];
    match goal with
    | |- context [stk_unsubscribe_multicast ?a s] =>
        destruct (stk_unsubscribe_multicast a s) as [e s']
    | |- context [stk_remove_unicast ?a s] =>
        destruct (stk_remove_unicast a s) as [e s']
    end;
    destruct (otError_is_none e || otError_is_not_found e); cbn;
    (split; [reflexivity|]); (split; [reflexivity|]);
    eexists; (split; [reflexivity|]); split; reflexivity.
Qed.

(** X16.  The routing-socket handler leaves the address messages of other
    interfaces alone: nothing is logged, asked or changed. *)
Theorem route_other_interface_ignored (hdr : Headers) (platform : Platform)
    (w : World St) (rtm : rt_msghdr) (netmask_uninit : in6_addr) :
  rtm_type rtm = RTM_NEWADDR \/ rtm_type rtm = RTM_DELADDR ->
  rtm_index rtm <> sTunIndex (globals w) ->
  processNetifAddrEvent_route hdr platform rtm netmask_uninit w
  = ([], Normal tt w).
Proof.
  intros Htype Hidx. destruct w as [g k s]. cbn [globals] in *.
  apply Z.eqb_neq in Hidx.
  unfold processNetifAddrEvent_route, at_exit.
  unfold bind at 1, get_globals. cbn [globals].
  unfold bind at 1, VerifyOrExit. rewrite Hidx.
  destruct Htype as [Htype|Htype]; rewrite Htype; reflexivity.
Qed.

End KernelEvents.

Section MldMonitor.

Context {St : Type} `{OtStack St}.

(** *** The MLD monitor on arbitrary datagrams *)

Lemma nth_byte_ok (l : list Z) (i : nat) :
  Forall byte_ok l -> 0 <= nth i l 0 < 256.
Proof.
  intros Hl. revert i. induction Hl as [|x l Hx Hl IH]; intros i.
  - destruct i; cbn; lia.
  - destruct i; cbn [nth]; [exact Hx | apply IH].
Qed.

(** The record loop on any buffer of octets: it ends, every call is for
    sixteen octets of the buffer, and each call uses up twenty octets. *)
Lemma mld_records_in_buffer (buffer : list Z) (n : nat) :
  Forall byte_ok buffer ->
  forall (offset : Z) (w : World St),
  0 <= offset ->
  exists t w',
    mld_records n buffer offset w = (t, Normal tt w')
    /\ globals w' = globals w
    /\ Forall (fun c => exists a, group_of_call c = Some a
                                  /\ length a = 16%nat)
         (stack_calls_of t)
    /\ (length (stack_calls_of t) <= n)%nat
    /\ 20 * Z.of_nat (length (stack_calls_of t))
       <= Z.max 0 (Z.of_nat (length buffer) - offset).
Proof.
  intros Hb. induction n as [|n IH]; intros offset w Hoff.
  - exists [], w. cbn. repeat split; auto. lia.
  - cbn [mld_records].
    destruct (offset <? Z.of_nat (length buffer)) eqn:E1.
    2:{ exists [], w. cbn. repeat split; auto; lia. }
    destruct (Z.of_nat (length buffer) >=? sizeof_MLDv2Record + offset) eqn:E2.
    2:{ destruct (IH offset w Hoff) as (t & w' & Hrun & Hg & Hall & Hn & Hlen).
        exists t, w'. repeat split; auto. }
    apply Z.ltb_lt in E1. apply Z.geb_le in E2.
    unfold sizeof_MLDv2Record, sizeof_in6_addr in *.
    set (address := firstn 16 (skipn (Z.to_nat (offset + 4)) buffer)).
    set (mRecordType := nth (Z.to_nat offset) buffer 0).
    set (mNumSources := ntohs (nth (Z.to_nat (offset + 2)) buffer 0)
                          (nth (Z.to_nat (offset + 3)) buffer 0)).
    assert (Hsrc : 0 <= mNumSources).
    { unfold mNumSources, ntohs.
      pose proof (nth_byte_ok buffer (Z.to_nat (offset + 2)) Hb).
      pose proof (nth_byte_ok buffer (Z.to_nat (offset + 3)) Hb). lia. }
    assert (Haddr : length address = 16%nat).
    { unfold address. rewrite length_firstn, length_skipn. lia. }
    destruct (handle_mld_record_run mRecordType address w)
      as (t1 & w1 & Hrun1 & Hg1 & Hcalls1).
    rewrite (bind_normal _ _ _ _ _ _ Hrun1).
    destruct (IH (offset + (20 + 16 * mNumSources)) w1 ltac:(lia))
      as (t2 & w2 & Hrun2 & Hg2 & Hall2 & Hn2 & Hlen2).
    rewrite Hrun2. exists (t1 ++ t2), w2.
    split; [reflexivity|]. split; [congruence|].
    rewrite stack_calls_of_app, Hcalls1.
    set (calls1 := if mRecordType =? 4
                   then [SubscribeMulticastAddress address]
                   else if mRecordType =? 3
                        then [UnsubscribeMulticastAddress address]
                        else []).
    assert (Hone : Forall (fun c => exists a, group_of_call c = Some a
                                              /\ length a = 16%nat) calls1
                   /\ (length calls1 <= 1)%nat).
    { unfold calls1.
      destruct (mRecordType =? 4); [|destruct (mRecordType =? 3)];
        (split; [|cbn; lia]); repeat constructor;
        exists address; split; auto. }
    destruct Hone as [Hall1 Hn1].
    split; [apply Forall_app; split; assumption|].
    rewrite length_app. split; [lia|]. lia.
Qed.

(** The handler up to the record loop: either a report of the tunnel's
    own that goes to the loop, or nothing at all. *)
Lemma processMLDEvent_run (hdr : Headers) (rv : RecvResult)
    (getifaddrs : option (list ifaddrs)) (w : World St) :
  (exists data srcAddr ifAddrs,
      rv = RecvFrom data srcAddr /\ getifaddrs = Some ifAddrs
      /\ from_self hdr (sTunName (globals w)) srcAddr ifAddrs = true
      /\ nth 0 data 0 = kICMPv6MLDv2Type
      /\ sizeof_MLDv2Header <= Z.of_nat (length data)
      /\ let buffer := firstn (Z.to_nat kMaxMLDEvent) data in
         forall t w',
           mld_records
             (Z.to_nat (ntohs (nth 6 buffer 0) (nth 7 buffer 0)))
             buffer sizeof_MLDv2Header w = (t, Normal tt w') ->
           processMLDEvent hdr rv getifaddrs w = (t, Normal tt w'))
  \/ processMLDEvent hdr rv getifaddrs w = ([], Normal tt w).
Proof.
  destruct rv as [e|data srcAddr]; [right; reflexivity|].
  unfold processMLDEvent, at_exit, bind, VerifyOrExit, get_globals,
    goto_exit, ret.
  set (buffer := firstn (Z.to_nat kMaxMLDEvent) data).
  destruct (Z.of_nat (length buffer) >? 0) eqn:E0;
    [|right; reflexivity].
  destruct ((nth 0 buffer 0 =? kICMPv6MLDv2Type)
            && (Z.of_nat (length buffer) >=? sizeof_MLDv2Header)) eqn:E1;
    [|right; reflexivity].
  destruct getifaddrs as [ifAddrs|]; [|right; reflexivity].
  destruct (from_self hdr (sTunName (globals w)) srcAddr ifAddrs) eqn:E2;
    [|right; reflexivity].
  left. exists data, srcAddr, ifAddrs.
  apply andb_true_iff in E1. destruct E1 as [Ety Elen].
  apply Z.eqb_eq in Ety. apply Z.geb_le in Elen.
  assert (Hle : (length buffer <= length data)%nat)
    by (unfold buffer; rewrite length_firstn; lia).
  assert (Hnth : nth 0 buffer 0 = nth 0 data 0).
  { apply Z.gtb_lt in E0. unfold buffer in *.
    rewrite <- (firstn_skipn (Z.to_nat kMaxMLDEvent) data) at 2.
    rewrite app_nth1; [reflexivity | lia]. }
  repeat split; auto; try congruence; try lia.
  intros t w' Hrun. fold buffer in Hrun. rewrite Hrun. cbn [app].
  rewrite !app_nil_r. reflexivity.
Qed.

(** X17.  The MLD monitor acts on nothing but the tunnel's own reports:
    whenever [processMLDEvent] asks anything of the stack, [recvfrom] has
    delivered a datagram of ICMPv6 type 143 that is at least as long as the
    MLDv2 header, [getifaddrs] has succeeded, and the source of the
    datagram is an IPv6 address of the tunnel interface. *)
Theorem processMLDEvent_acts_on_own_reports_only (hdr : Headers)
    (rv : RecvResult) (getifaddrs : option (list ifaddrs)) (w : World St) :
  stack_calls_of (fst (processMLDEvent hdr rv getifaddrs w)) <> [] ->
  exists data srcAddr ifAddrs,
    rv = RecvFrom data srcAddr /\ getifaddrs = Some ifAddrs
    /\ from_self hdr (sTunName (globals w)) srcAddr ifAddrs = true
    /\ nth 0 data 0 = kICMPv6MLDv2Type
    /\ sizeof_MLDv2Header <= Z.of_nat (length data).
Proof.
  intros Hcalls.
  destruct (processMLDEvent_run hdr rv getifaddrs w)
    as [(data & srcAddr & ifAddrs & Hrv & Hif & Hself & Hty & Hlen & _)|Hno].
  - exists data, srcAddr, ifAddrs. auto.
  - rewrite Hno in Hcalls. exfalso. apply Hcalls. reflexivity.
Qed.

(** X18.  Whatever octets arrive on the MLD socket, the handler returns,
    leaves the bridge's own state alone, and stays inside the datagram:
    every call of the stack is a subscribe or unsubscribe for sixteen
    octets, there are at most as many calls as the header announces
    records, and each call accounts for twenty octets of the (at most
    8192) octets received after the header. *)
Theorem processMLDEvent_stays_in_datagram (hdr : Headers)
    (data : list Z) (srcAddr : in6_addr)
    (getifaddrs : option (list ifaddrs)) (w : World St) :
  Forall byte_ok data ->
  let r := processMLDEvent hdr (RecvFrom data srcAddr) getifaddrs w in
  let calls := stack_calls_of (fst r) in
  let mNumRecords := ntohs (nth 6 data 0) (nth 7 data 0) in
  (exists w', snd r = Normal tt w' /\ globals w' = globals w)
  /\ Forall (fun c => exists a, group_of_call c = Some a
                                /\ length a = 16%nat) calls
  /\ (length calls <= Z.to_nat mNumRecords)%nat
  /\ 20 * Z.of_nat (length calls)
     <= Z.max 0 (Z.min (Z.of_nat (length data)) kMaxMLDEvent
                 - sizeof_MLDv2Header).
Proof.
  intros Hb r calls mNumRecords. subst calls r mNumRecords.
  destruct (processMLDEvent_run hdr (RecvFrom data srcAddr) getifaddrs w)
    as [(data' & srcAddr' & ifAddrs & Hrv & Hif & Hself & Hty & Hlen & Hrun)
       |Hno].
  2:{ rewrite Hno. cbn. split; [exists w; auto|].
      split; [constructor|]. split; lia. }
  injection Hrv as <- <-. cbv zeta in Hrun.
  set (buffer := firstn (Z.to_nat kMaxMLDEvent) data) in *.
  assert (Hbb : Forall byte_ok buffer)
    by (apply Forall_firstn_byte_ok; exact Hb).
  destruct (mld_records_in_buffer buffer
              (Z.to_nat (ntohs (nth 6 buffer 0) (nth 7 buffer 0))) Hbb
              sizeof_MLDv2Header w ltac:(unfold sizeof_MLDv2Header; lia))
    as (t & w' & Hloop & Hg & Hall & Hn & Hbytes).
  rewrite (Hrun t w' Hloop). cbn [fst snd].
  split; [exists w'; auto|]. split; [exact Hall|].
  assert (Hblen : Z.of_nat (length buffer)
                  = Z.min (Z.of_nat (length data)) kMaxMLDEvent).
  { unfold buffer. rewrite length_firstn. unfold kMaxMLDEvent. lia. }
  assert (Hnth : forall i, (i < 8)%nat -> nth i buffer 0 = nth i data 0).
  { intros i Hi. unfold buffer.
    rewrite <- (firstn_skipn (Z.to_nat kMaxMLDEvent) data) at 2.
    rewrite app_nth1; [reflexivity|].
    rewrite length_firstn. unfold kMaxMLDEvent, sizeof_MLDv2Header in *.
    lia. }
  rewrite <- (Hnth 6%nat), <- (Hnth 7%nat) by lia.
  split; [exact Hn|]. rewrite <- Hblen. exact Hbytes.
Qed.

End MldMonitor.

Lemma setsockopts_of_core (t : Trace) : setsockopts_of (map XCore t) = [].
Proof. induction t as [|e t IH]; [reflexivity | exact IH]. Qed.

Lemma set_enabled_of_core (t : Trace) : set_enabled_of (map XCore t) = [].
Proof. induction t as [|e t IH]; [reflexivity | exact IH]. Qed.

Lemma core_events_core (t : Trace) : core_events (map XCore t) = t.
Proof. induction t as [|e t IH]; [reflexivity | cbn; f_equal; exact IH]. Qed.

Lemma set_enabled_of_app (t1 t2 : XTrace) :
  set_enabled_of (t1 ++ t2) = set_enabled_of t1 ++ set_enabled_of t2.
Proof. apply flat_map_app. Qed.

Lemma core_events_app (t1 t2 : XTrace) :
  core_events (t1 ++ t2) = core_events t1 ++ core_events t2.
Proof. apply flat_map_app. Qed.

Section MulticastGroups.

Context {St : Type} `{OtStack St} `{OtStackLink St}.

(** *** Multicast groups *)

(** Every run of [UpdateMulticast]. *)
Lemma UpdateMulticast_run (code : otError -> ExitCode)
    (rejects : SockOpt -> option Errno) (aAddress : in6_addr)
    (aIsAdded : bool) (w : World St) :
  let g := globals w in
  let mreq := {| ipv6mr_multiaddr := aAddress;
                 ipv6mr_interface := sTunIndex g |} in
  let opt := if aIsAdded then IPV6_JOIN_GROUP mreq
             else IPV6_LEAVE_GROUP mreq in
  let call := XSetsockopt (sIpFd g) opt in
  UpdateMulticast code rejects aAddress aIsAdded w =
  if sIpFd g <? 0 then ([XCore (EvLog LogInfo)], Normal tt w)
  else match rejects opt with
       | None => ([call; XCore (EvLog LogInfo)], Normal tt w)
       | Some e =>
           if match e with
              | EINVAL => IN6_IS_ADDR_MC_LINKLOCAL aAddress
              | _ => false
              end
           then ([call; XCore (EvLog LogWarn); XCore (EvLog LogInfo)],
                 Normal tt w)
           else ([call; XCore (EvLog LogWarn);
                  XCore (EvPerror "setsockopt")],
                 Dead (code OT_ERROR_FAILED))
       end.
Proof.
  destruct w as [g k s]. cbn [globals]. cbv zeta.
  unfold UpdateMulticast, at_exitX, bindX, core, get_globals, VerifyOrExit,
    setsockopt, SuccessOrDie, otLogWarnPlat, otLogInfoPlat, perror, emit,
    goto_exit, die, retX, ret.
  cbn [globals].
  destruct (sIpFd g <? 0) eqn:Efd.
  - assert (E : (sIpFd g >=? 0) = false) by lia. rewrite E. reflexivity.
  - assert (E : (sIpFd g >=? 0) = true) by lia. rewrite E. cbn [map app].
    destruct (rejects _) as [e|]; [|reflexivity].
    destruct e; try reflexivity.
    destruct (IN6_IS_ADDR_MC_LINKLOCAL aAddress); reflexivity.
Qed.

(** X19.  [UpdateMulticast] with the ip socket open makes its request
    exactly once, a join for an added and a leave for a removed group on
    the tunnel's interface index, and forgives one failure only: it
    returns, with the bridge as it was, when the kernel accepts the
    request or answers [EINVAL] for a link-local group; every other
    refusal ends the process through [SuccessOrDie] with
    [OT_ERROR_FAILED]. *)
Theorem UpdateMulticast_outcome (code : otError -> ExitCode)
    (rejects : SockOpt -> option Errno) (aAddress : in6_addr)
    (aIsAdded : bool) (w : World St) :
  let g := globals w in
  let mreq := {| ipv6mr_multiaddr := aAddress;
                 ipv6mr_interface := sTunIndex g |} in
  let opt := if aIsAdded then IPV6_JOIN_GROUP mreq
             else IPV6_LEAVE_GROUP mreq in
  sIpFd g >= 0 ->
  let r := UpdateMulticast code rejects aAddress aIsAdded w in
  setsockopts_of (fst r) = [(sIpFd g, opt)]
  /\ ioctls_of (core_events (fst r)) = []
  /\ snd r = match rejects opt with
             | None => Normal tt w
             | Some EINVAL =>
                 if IN6_IS_ADDR_MC_LINKLOCAL aAddress then Normal tt w
                 else Dead (code OT_ERROR_FAILED)
             | Some _ => Dead (code OT_ERROR_FAILED)
             end.
Proof.
  intros g mreq opt Hfd r. subst r.
  rewrite UpdateMulticast_run. fold g. fold mreq. fold opt.
  assert (E : (sIpFd g <? 0) = false) by lia.
  rewrite E.
  destruct (rejects opt) as [e|]; [|cbn; auto].
  destruct e; try (cbn; auto; fail).
  destruct (IN6_IS_ADDR_MC_LINKLOCAL aAddress); cbn; auto.
Qed.

(** X20.  [processAddressChange] tells the two kinds of address apart by
    the first octet alone: an address ff.. goes to the socket option and
    nowhere else (one join or leave for that group on the tunnel's
    interface index, no [ioctl], whatever the prefix length), any other
    address goes to [UpdateUnicast] and to no socket option. *)
Theorem processAddressChange_dispatch (platform : Platform)
    (code : otError -> ExitCode) (rejects : SockOpt -> option Errno)
    (aAddress : in6_addr) (aPrefixLength : Z) (aIsAdded : bool)
    (w : World St) :
  sIpFd (globals w) >= 0 ->
  let t := fst (processAddressChange platform code rejects aAddress
                  aPrefixLength aIsAdded w) in
  let mreq := {| ipv6mr_multiaddr := aAddress;
                 ipv6mr_interface := sTunIndex (globals w) |} in
  if nth 0 aAddress 0 =? 0xff
  then setsockopts_of t
       = [(sIpFd (globals w),
           if aIsAdded then IPV6_JOIN_GROUP mreq else IPV6_LEAVE_GROUP mreq)]
       /\ ioctls_of (core_events t) = []
  else setsockopts_of t = []
       /\ core_events t
          = fst (UpdateUnicast platform aAddress aPrefixLength aIsAdded w).
Proof.
  intros Hfd t mreq. subst t.
  unfold processAddressChange.
  destruct (nth 0 aAddress 0 =? 255).
  - rewrite UpdateMulticast_run.
    assert (E : (sIpFd (globals w) <? 0) = false) by lia.
    rewrite E. fold mreq.
    destruct (rejects _) as [e|]; [|cbn; auto].
    destruct (match e with
              | EINVAL => IN6_IS_ADDR_MC_LINKLOCAL aAddress
              | _ => false
              end); cbn; auto.
  - unfold core.
    destruct (UpdateUnicast platform aAddress aPrefixLength aIsAdded w)
      as [t r].
    cbn [fst]. split; [apply setsockopts_of_core | apply core_events_core].
Qed.

End MulticastGroups.

Section HandlersReturn.

Context {St : Type} `{OtStack St}.

(** *** The handlers come back *)

(** The attribute loop ends, at its end or at [exit], with the
    descriptors and the kernel as they were. *)
Lemma netlink_attrs_returns (msg : nlmsg_addr) (attrs : list rtattr) :
  forall (error : otError) (w : World St),
  exists t e' w',
    (netlink_attrs msg attrs error w = (t, Normal e' w')
     \/ netlink_attrs msg attrs error w = (t, Goto e' w'))
    /\ globals w' = globals w /\ kernel w' = kernel w.
Proof.
  induction attrs as [|rta rest IH]; intros error w.
  - exists [], error, w. cbn. auto.
  - cbn [netlink_attrs].
    destruct w as [g k s].
    destruct (rta_type rta); destruct (nlmsg_type msg);
      try destruct (IsMulticast (rta_data rta)); cbn [negb];
      unfold otIp6AddUnicastAddress, otIp6SubscribeMulticastAddress,
        otIp6RemoveUnicastAddress, otIp6UnsubscribeMulticastAddress, bind,
        stack_call, note_or_warn, SuccessOrExit, otLogNotePlat,
        otLogWarnPlat, emit, goto_exit, ret;
      cbn [stack globals kernel];
      try match goal with
          | |- context [stk_add_unicast ?a s] =>
              destruct (stk_add_unicast a s) as [e s']
          | |- context [stk_subscribe_multicast ?a s] =>
              destruct (stk_subscribe_multicast a s) as [e s']
          | |- context [stk_remove_unicast ?a s] =>
              destruct (stk_remove_unicast a s) as [e s']
          | |- context [stk_unsubscribe_multicast ?a s] =>
              destruct (stk_unsubscribe_multicast a s) as [e s']
          end;
      try destruct e; cbn [otError_is_none otError_is_already
                             otError_is_not_found orb app];
      first [ match goal with
              | |- context [netlink_attrs msg rest ?e0 ?w0] =>
                  destruct (IH e0 w0) as (t & e' & w' & [Hr|Hr] & Hg' & Hk');
                  rewrite Hr; cbn [globals kernel] in *;
                  do 3 eexists;
                  (split; [first [left; reflexivity | right; reflexivity]
                          | split; assumption])
              end
            | do 3 eexists; split; [right; reflexivity | split; reflexivity] ].
Qed.

Lemma netlink_handler_returns (hdr : Headers) (msg : nlmsg_addr)
    (w : World St) :
  exists t w',
    processNetifAddrEvent_netlink hdr msg w = (t, Normal tt w')
    /\ globals w' = globals w /\ kernel w' = kernel w.
Proof.
  unfold processNetifAddrEvent_netlink, at_exit.
  unfold bind at 1, get_globals. unfold bind at 1, VerifyOrExit.
  destruct ((ifa_index msg =? sTunIndex (globals w))
            && (ifa_family msg =? AF_INET6 hdr)).
  - cbn [ret app].
    destruct (netlink_attrs_returns msg (ifa_attrs msg) OT_ERROR_NONE w)
      as (t & e' & w' & [Hr|Hr] & Hg & Hk); rewrite Hr;
      unfold log_error, otLogInfoPlat, otLogWarnPlat, emit;
      destruct (otError_is_none e'); do 2 eexists;
      (split; [reflexivity | split; assumption]).
  - do 2 eexists. split; [reflexivity | split; reflexivity].
Qed.

Lemma route_handler_returns (hdr : Headers) (platform : Platform)
    (rtm : rt_msghdr) (netmask_uninit : in6_addr) (w : World St) :
  exists t w',
    processNetifAddrEvent_route hdr platform rtm netmask_uninit w
    = (t, Normal tt w')
    /\ globals w' = globals w.
Proof.
  destruct w as [g k s].
  unfold processNetifAddrEvent_route, at_exit.
  unfold bind at 1, get_globals. cbn [globals]. unfold bind at 1, VerifyOrExit.
  match goal with
  | |- context [if ?c then ret tt else _] => destruct c
  end; [|do 2 eexists; split; reflexivity].
  cbn [ret app].
  match goal with
  | |- context [if negb ?c then scan_sockaddrs ?a ?b ?i ?m ?l ?x ?y else ?q] =>
      destruct (if negb c then scan_sockaddrs a b i m l x y else q)
        as [addr6 netmask]
  end.
  destruct (sin6_family addr6 =? AF_INET6 hdr);
    [|do 2 eexists; split; reflexivity].
  set (addr := if IN6_IS_ADDR_LINKLOCAL (sin6_addr addr6)
               then set_octet (sin6_addr addr6) 3 0
               else if IN6_IS_ADDR_MC_LINKLOCAL (sin6_addr addr6)
                    then set_octet (sin6_addr addr6) 3 0
                    else sin6_addr addr6).
  assert (Hlen : 0 <= to_uint8 (calculate_prefix_len (sin6_addr netmask)) < 256)
    by (unfold to_uint8; apply Z.mod_pos_bound; lia).
  unfold unicastAddressIsSubscribed, otIp6GetUnicastAddresses, make_aliasreq,
    otIp6AddUnicastAddress, otIp6SubscribeMulticastAddress,
    otIp6RemoveUnicastAddress, otIp6UnsubscribeMulticastAddress, stack_call,
    ioctl, note_or_warn, otLogNotePlat, otLogWarnPlat, emit, bind, ret.
  cbn [mPrefixLength mAddress].
  rewrite (apply_mask_all_ones_uint8 _ Hlen).
  cbn [stack globals kernel].
  repeat match goal with
         | |- context [if ?c then _ else _] =>
             destruct c; cbn [stack globals kernel]
         | |- context [stk_add_unicast ?a s] =>
             destruct (stk_add_unicast a s); cbn [stack globals kernel]
         | |- context [stk_subscribe_multicast ?a s] =>
             destruct (stk_subscribe_multicast a s);
             cbn [stack globals kernel]
         | |- context [stk_remove_unicast ?a s] =>
             destruct (stk_remove_unicast a s); cbn [stack globals kernel]
         | |- context [stk_unsubscribe_multicast ?a s] =>
             destruct (stk_unsubscribe_multicast a s);
             cbn [stack globals kernel]
         end;
    do 2 eexists; split; reflexivity.
Qed.

Lemma mld_records_returns (buffer : list Z) (n : nat) :
  forall (offset : Z) (w : World St),
  exists t w',
    mld_records n buffer offset w = (t, Normal tt w')
    /\ globals w' = globals w.
Proof.
  induction n as [|n IH]; intros offset w.
  - exists [], w. cbn. auto.
  - cbn [mld_records].
    destruct (offset <? Z.of_nat (length buffer));
      [|exists [], w; cbn; auto].
    destruct (Z.of_nat (length buffer) >=? sizeof_MLDv2Record + offset);
      [|apply IH].
    match goal with
    | |- context [handle_mld_record ?ty ?a] =>
        destruct (handle_mld_record_run ty a w)
          as (t1 & w1 & Hrun1 & Hg1 & _)
    end.
    rewrite (bind_normal _ _ _ _ _ _ Hrun1).
    match goal with
    | |- context [mld_records n buffer ?o w1] =>
        destruct (IH o w1) as (t2 & w2 & Hrun2 & Hg2)
    end.
    rewrite Hrun2. exists (t1 ++ t2), w2.
    split; [reflexivity | congruence].
Qed.

Lemma processMLDEvent_returns (hdr : Headers) (rv : RecvResult)
    (getifaddrs : option (list ifaddrs)) (w : World St) :
  exists t w',
    processMLDEvent hdr rv getifaddrs w = (t, Normal tt w')
    /\ globals w' = globals w.
Proof.
  destruct (processMLDEvent_run hdr rv getifaddrs w)
    as [(data & srcAddr & ifAddrs & _ & _ & _ & _ & _ & Hrun)|Hno].
  - cbv zeta in Hrun.
    match type of Hrun with
    | forall t w', mld_records ?n ?b ?o w = _ -> _ =>
        destruct (mld_records_returns b n o w) as (t & w' & Hloop & Hg)
    end.
    exists t, w'. split; [apply Hrun; exact Hloop | exact Hg].
  - exists [], w. auto.
Qed.

Lemma processTransmit_returns (platform : Platform) (rd : ReadResult)
    (w : World St) :
  exists t w',
    processTransmit platform rd w = (t, Normal tt w')
    /\ globals w' = globals w.
Proof.
  destruct w as [g k s].
  unfold processTransmit, at_exit, bind, VerifyOrExit, otIp6NewMessage,
    otMessageAppend, otIp6Send, otMessageFree, stack_call, log_error,
    otLogInfoPlat, otLogWarnPlat, emit, goto_exit, ret.
  destruct rd as [e|data]; [do 2 eexists; split; reflexivity|].
  shuttle_cbn.
  repeat match goal with
         | |- context [if ?c then _ else _] => destruct c; shuttle_cbn
         | |- context [stk_send ?m s] => destruct (stk_send m s); shuttle_cbn
         end;
    do 2 eexists; split; reflexivity.
Qed.

End HandlersReturn.

Section LinkEvents.

Context {St : Type} `{OtStack St} `{OtStackLink St}.

(** *** Link and interface events *)

Lemma processNetifLinkEvent_run (hdr : Headers) (ifinfo : ifinfomsg)
    (w : World St) :
  let up := negb (Z.land (ifi_flags ifinfo) (IFF_UP hdr) =? 0) in
  processNetifLinkEvent hdr ifinfo w =
  if ifi_index ifinfo =? sTunIndex (globals w)
  then ([XSetEnabled up;
         XCore (EvLog (if otError_is_none
                            (fst (stk_set_enabled up (stack w)))
                       then LogInfo else LogWarn))],
        Normal tt {| globals := globals w; kernel := kernel w;
                     stack := snd (stk_set_enabled up (stack w)) |})
  else ([XCore (EvLog LogInfo)], Normal tt w).
Proof.
  destruct w as [g k s]. cbv zeta. cbn [globals kernel stack].
  unfold processNetifLinkEvent, at_exitX, bindX, core, get_globals,
    VerifyOrExit, SuccessOrExit, otIp6SetEnabled, log_error, otLogInfoPlat,
    otLogWarnPlat, emit, goto_exit, retX, ret.
  cbn [globals kernel stack].
  destruct (ifi_index ifinfo =? sTunIndex g); [|reflexivity].
  cbn [map app globals kernel stack].
  destruct (stk_set_enabled _ s) as [e s']. cbn [fst snd stack].
  destruct e; reflexivity.
Qed.

(** X21.  On Linux the stack follows the kernel: a link message for the
    tunnel interface sets the stack's ip6-enabled flag to the [IFF_UP] bit
    of the interface flags the message carries, a link message for any
    other interface changes nothing; the kernel is never asked. *)
Theorem processNetifLinkEvent_follows_kernel (hdr : Headers)
    (ifinfo : ifinfomsg) (w : World St) :
  let up := negb (Z.land (ifi_flags ifinfo) (IFF_UP hdr) =? 0) in
  let r := processNetifLinkEvent hdr ifinfo w in
  set_enabled_of (fst r)
  = (if ifi_index ifinfo =? sTunIndex (globals w) then [up] else [])
  /\ ioctls_of (core_events (fst r)) = []
  /\ snd r
     = Normal tt
         (if ifi_index ifinfo =? sTunIndex (globals w)
          then {| globals := globals w; kernel := kernel w;
                  stack := snd (stk_set_enabled up (stack w)) |}
          else w).
Proof.
  intros up r. subst r. rewrite processNetifLinkEvent_run. fold up.
  destruct (ifi_index ifinfo =? sTunIndex (globals w)); cbn; auto.
Qed.

Lemma dispatch_netlink_run (hdr : Headers) (msg : nlmsghdr) (w : World St) :
  exists t w',
    dispatch_netlink hdr msg w = (t, Normal tt w')
    /\ globals w' = globals w /\ kernel w' = kernel w
    /\ set_enabled_of t = link_change hdr (sTunIndex (globals w)) msg.
Proof.
  unfold dispatch_netlink, link_change.
  destruct (nlmsg_type (nh_ifaddr msg)) eqn:Ety;
    try (destruct (netlink_handler_returns hdr (nh_ifaddr msg) w)
           as (t & w' & Hrun & Hg & Hk);
         unfold core; rewrite Hrun; exists (map XCore t), w';
         repeat split; auto; apply set_enabled_of_core);
    try (rewrite processNetifLinkEvent_run;
         destruct (ifi_index (nh_ifinfo msg) =? sTunIndex (globals w));
         do 2 eexists; repeat split; reflexivity);
    exists [XCore (EvLog LogWarn)], w; repeat split; reflexivity.
Qed.

Lemma netlink_messages_run (hdr : Headers) (msgs : list nlmsghdr) :
  forall w : World St,
  exists t w',
    netlink_messages hdr msgs w = (t, Normal tt w')
    /\ globals w' = globals w /\ kernel w' = kernel w
    /\ set_enabled_of t
       = flat_map (link_change hdr (sTunIndex (globals w))) msgs.
Proof.
  induction msgs as [|msg rest IH]; intros w.
  - exists [], w. repeat split; reflexivity.
  - cbn [netlink_messages flat_map]. unfold bindX.
    destruct (dispatch_netlink_run hdr msg w)
      as (t1 & w1 & Hrun1 & Hg1 & Hk1 & He1).
    rewrite Hrun1.
    destruct (IH w1) as (t2 & w2 & Hrun2 & Hg2 & Hk2 & He2).
    rewrite Hrun2. exists (t1 ++ t2), w2.
    split; [reflexivity|]. split; [congruence|]. split; [congruence|].
    rewrite set_enabled_of_app, He1, He2, Hg1. reflexivity.
Qed.

(** X22.  A netlink datagram is worked off message by message, whatever
    the messages are: the handler comes back with the descriptors and the
    kernel as they were, and the stack's ip6-enabled flag is set once for
    every link message of the tunnel, in the order of the datagram, to the
    [IFF_UP] bit that message carries. *)
Theorem netlink_datagram_walked (hdr : Headers) (platform : Platform)
    (msgs : list nlmsghdr) (w : World St) :
  bsd_like platform = false ->
  let r := processNetifEvent hdr platform (NetifNetlink msgs) w in
  set_enabled_of (fst r)
  = flat_map (link_change hdr (sTunIndex (globals w))) msgs
  /\ exists w', snd r = Normal tt w'
                /\ globals w' = globals w /\ kernel w' = kernel w.
Proof.
  intros Hlinux r. subst r. unfold processNetifEvent. rewrite Hlinux.
  destruct (netlink_messages_run hdr msgs w)
    as (t & w' & Hrun & Hg & Hk & He).
  rewrite Hrun. cbn [fst snd]. split; [exact He|]. exists w'. auto.
Qed.

Lemma processNetifInfoEvent_run (hdr : Headers) (ifm : route_msg)
    (w : World St) :
  processNetifInfoEvent hdr ifm w =
  if ifm_index ifm =? sTunIndex (globals w)
  then (map XCore (fst (UpdateLink hdr w)) ++ [XCore (EvLog LogInfo)],
        snd (UpdateLink hdr w))
  else ([XCore (EvLog LogInfo)], Normal tt w).
Proof.
  unfold processNetifInfoEvent, at_exitX.
  unfold bindX at 1, core at 1, get_globals. cbn [map app].
  unfold bindX at 1, core at 1, VerifyOrExit.
  destruct (ifm_index ifm =? sTunIndex (globals w)); [|reflexivity].
  cbn [ret map app]. unfold bindX, core.
  destruct (UpdateLink_normal hdr w) as (w' & Hrun & _).
  destruct (UpdateLink hdr w) as [t r]. cbn [snd fst] in *. subst r.
  unfold retX, log_error, otLogInfoPlat, emit. cbn.
  rewrite app_nil_r. reflexivity.
Qed.

(** X23.  On the routing-socket platforms the kernel follows the stack:
    an [RTM_IFINFO] message for the tunnel interface makes the bridge
    reconcile the link, so that, with a kernel that accepts its requests,
    the interface's [IFF_UP] afterwards is the stack's ip6-enabled flag;
    the stack itself is not changed and [otIp6SetEnabled] is not
    called. *)
Theorem route_ifinfo_reconciles_link (hdr : Headers) (platform : Platform)
    (msg : route_msg) (netmask_uninit : in6_addr) (w : World St) :
  bsd_like platform = true ->
  rtm_type (rm_hdr msg) = RTM_IFINFO ->
  ifm_index msg = sTunIndex (globals w) ->
  IFF_UP hdr <> 0 ->
  sIpFd (globals w) >= 0 ->
  (forall req, k_ioctl_fault (kernel w) req = None) ->
  let r := processNetifEvent hdr platform (NetifRoute msg netmask_uninit) w in
  set_enabled_of (fst r) = []
  /\ exists w',
      snd r = Normal tt w'
      /\ kernel_link_up hdr (kernel w') = stk_ip6_enabled (stack w)
      /\ stack w' = stack w
      /\ globals w' = globals w.
Proof.
  intros Hbsd Hty Hidx Hup Hfd Hacc r. subst r.
  unfold processNetifEvent, dispatch_route. rewrite Hbsd, Hty.
  rewrite processNetifInfoEvent_run, Hidx, Z.eqb_refl. cbn [fst snd].
  rewrite set_enabled_of_app, set_enabled_of_core. split; [reflexivity|].
  rewrite UpdateLink_run.
  assert (E : (sIpFd (globals w) <? 0) = false) by lia.
  rewrite E, !Hacc.
  destruct (Bool.eqb _ _) eqn:Eeq.
  - exists w. cbn [snd]. apply eqb_prop in Eeq. auto.
  - eexists. cbn [snd]. split; [reflexivity|].
    cbn [kernel stack globals k_ifflags]. unfold kernel_link_up.
    cbn [k_ifflags].
    rewrite converged_after_set by exact Hup. auto.
Qed.

Lemma processNetifEvent_returns (hdr : Headers) (platform : Platform)
    (rv : NetifRecv) (w : World St) :
  exists t w',
    processNetifEvent hdr platform rv w = (t, Normal tt w')
    /\ globals w' = globals w.
Proof.
  unfold processNetifEvent.
  destruct rv as [|msgs|msg netmask_uninit].
  - exists [], w. auto.
  - destruct (bsd_like platform); [exists [], w; auto|].
    destruct (netlink_messages_run hdr msgs w)
      as (t & w' & Hrun & Hg & _).
    exists t, w'. auto.
  - destruct (bsd_like platform); [|exists [], w; auto].
    unfold dispatch_route.
    assert (Haddr : exists t w',
               core (processNetifAddrEvent_route hdr platform (rm_hdr msg)
                       netmask_uninit) w = (t, Normal tt w')
               /\ globals w' = globals w).
    { destruct (route_handler_returns hdr platform (rm_hdr msg)
                  netmask_uninit w) as (t & w' & Hrun & Hg).
      unfold core. rewrite Hrun. eauto. }
    assert (Hwarn : exists t w',
               core (St := St) otLogWarnPlat w = (t, Normal tt w')
               /\ globals w' = globals w).
    { exists [XCore (EvLog LogWarn)], w. auto. }
    destruct (rtm_type (rm_hdr msg)); try exact Haddr; try exact Hwarn.
    + destruct (has_RTM_NEWMADDR platform); assumption.
    + destruct (has_RTM_NEWMADDR platform); assumption.
    + rewrite processNetifInfoEvent_run.
      destruct (UpdateLink_normal hdr w) as (w' & Hrun & Hg & _).
      destruct (ifm_index msg =? sTunIndex (globals w)).
      * rewrite Hrun. eauto.
      * eauto.
Qed.

End LinkEvents.

(** *** The event loop *)

Lemma raise_max_max (fd aMaxFd : Z) : raise_max fd aMaxFd = Z.max fd aMaxFd.
Proof.
  unfold raise_max. destruct (fd >? aMaxFd) eqn:E; lia.
Qed.

Lemma FD_SET_in_range (FD_SETSIZE fd : Z) (s : fd_set) :
  0 <= fd < FD_SETSIZE ->
  FD_SET FD_SETSIZE fd s = Some (fun x => (x =? fd) || s x).
Proof.
  intros Hfd. unfold FD_SET.
  assert (E : (0 <=? fd) && (fd <? FD_SETSIZE) = true).
  { apply andb_true_iff. split; [apply Z.leb_le | apply Z.ltb_lt]; lia. }
  rewrite E. reflexivity.
Qed.

(** X24.  With the bridge set up, [platformNetifUpdateFdSet] adds exactly
    the watched descriptors (the tunnel, the event socket and, with the
    MLD monitor, its socket) to the read set and to the error set, keeps
    every descriptor that was in a set, and raises the maximum to the
    largest of them; the ip socket is not watched. *)
Theorem platformNetifUpdateFdSet_adds_watched (platform : Platform)
    (FD_SETSIZE : Z) (g : Globals) (aReadFdSet aErrorFdSet : fd_set)
    (aMaxFd : Z) :
  sTunIndex g > 0 ->
  0 <= sIpFd g ->
  Forall (fun fd => 0 <= fd < FD_SETSIZE) (watched_fds platform g) ->
  exists rd er,
    platformNetifUpdateFdSet platform FD_SETSIZE g aReadFdSet aErrorFdSet
      aMaxFd
    = FdSets rd er (fold_right Z.max aMaxFd (watched_fds platform g))
    /\ (forall fd, rd fd = existsb (Z.eqb fd) (watched_fds platform g)
                           || aReadFdSet fd)
    /\ (forall fd, er fd = existsb (Z.eqb fd) (watched_fds platform g)
                           || aErrorFdSet fd).
Proof.
  intros Hidx Hip Hall. unfold watched_fds in *.
  apply Forall_app in Hall. destruct Hall as [Hcore Hmld].
  inversion Hcore as [|? ? Htun Hrest]; subst.
  inversion Hrest as [|? ? Hnl _]; subst.
  unfold platformNetifUpdateFdSet.
  assert (E1 : (sTunIndex g >? 0) = true) by lia.
  assert (E2 : (sTunFd g >=? 0) && (sNetlinkFd g >=? 0) && (sIpFd g >=? 0)
               = true).
  { rewrite !andb_true_iff. repeat split; lia. }
  rewrite E1, E2. cbn [negb].
  rewrite !(FD_SET_in_range _ (sTunFd g)) by exact Htun.
  rewrite !(FD_SET_in_range _ (sNetlinkFd g)) by exact Hnl.
  rewrite !raise_max_max.
  destruct (OPENTHREAD_POSIX_USE_MLD_MONITOR platform).
  - inversion Hmld as [|? ? Hm _]; subst.
    rewrite !(FD_SET_in_range _ (sMLDMonitorFd g)) by exact Hm.
    do 2 eexists. split; [apply f_equal; cbn [fold_right app]; lia|].
    split; intros fd; cbn;
      destruct (fd =? sTunFd g), (fd =? sNetlinkFd g),
        (fd =? sMLDMonitorFd g); reflexivity.
  - do 2 eexists. split; [apply f_equal; cbn [fold_right app]; lia|].
    split; intros fd; cbn;
      destruct (fd =? sTunFd g), (fd =? sNetlinkFd g); reflexivity.
Qed.

Section EventLoop.

Context {St : Type} `{OtStack St} `{OtStackLink St}.

(** X26.  An error condition on a watched descriptor ends the process:
    with the bridge set up, [platformNetifProcess] closes the first
    descriptor found in the error set, looking at the tunnel, then at the
    event socket, then (with the MLD monitor) at the MLD socket, and
    terminates with [OT_EXIT_FAILURE]; nothing else is closed and no
    datagram and no kernel event is read before that. *)
Theorem platformNetifProcess_error_terminates (hdr : Headers)
    (platform : Platform) (aReadFdSet aErrorFdSet : fd_set)
    (tun_read : ReadResult) (netif_recv : NetifRecv)
    (mld_recv : RecvResult) (getifaddrs : option (list ifaddrs))
    (w : World St) (fd : Z) :
  sTunIndex (globals w) > 0 ->
  find (fun fd => FD_ISSET fd aErrorFdSet)
    (watched_fds platform (globals w)) = Some fd ->
  platformNetifProcess hdr platform aReadFdSet aErrorFdSet
    tun_read netif_recv mld_recv getifaddrs w
  = ([XCore (EvClose fd)], Dead OT_EXIT_FAILURE).
Proof.
  intros Hidx Herr. destruct w as [g k s].
  cbn [globals] in *.
  assert (E1 : (sTunIndex g >? 0) = true) by lia.
  unfold platformNetifProcess, at_exitX, bindX, core, DieNow, get_globals,
    VerifyOrExit, close, emit, die, retX, ret.
  cbn [globals]. rewrite E1. cbn [map app globals].
  unfold watched_fds in *. cbn [find app] in Herr.
  destruct (FD_ISSET (sTunFd g) aErrorFdSet) eqn:Etun.
  { injection Herr as <-. reflexivity. }
  cbn [map app globals].
  destruct (FD_ISSET (sNetlinkFd g) aErrorFdSet) eqn:Enl.
  { injection Herr as <-. reflexivity. }
  cbn [map app globals].
  destruct (OPENTHREAD_POSIX_USE_MLD_MONITOR platform);
    [|discriminate Herr].
  cbn [find andb] in *.
  destruct (FD_ISSET (sMLDMonitorFd g) aErrorFdSet) eqn:Emld;
    [|discriminate Herr].
  injection Herr as <-. reflexivity.
Qed.

(** X27.  Nothing the descriptors deliver ends the process: without an
    error condition on a watched descriptor, [platformNetifProcess]
    returns to the event loop with the descriptors as they were, whatever
    the tunnel, the event socket and the MLD socket hand over. *)
Theorem platformNetifProcess_returns (hdr : Headers)
    (platform : Platform) (aReadFdSet aErrorFdSet : fd_set)
    (tun_read : ReadResult) (netif_recv : NetifRecv)
    (mld_recv : RecvResult) (getifaddrs : option (list ifaddrs))
    (w : World St) :
  existsb (fun fd => FD_ISSET fd aErrorFdSet)
    (watched_fds platform (globals w)) = false ->
  exists w',
    snd (platformNetifProcess hdr platform aReadFdSet aErrorFdSet
           tun_read netif_recv mld_recv getifaddrs w) = Normal tt w'
    /\ globals w' = globals w.
Proof.
  intros Herr.
  unfold watched_fds in Herr. rewrite existsb_app in Herr.
  cbn [existsb] in Herr.
  apply orb_false_iff in Herr. destruct Herr as [Hcore Hmld].
  apply orb_false_iff in Hcore. destruct Hcore as [Etun Enl'].
  rewrite orb_false_r in Enl'.
  assert (Emld : OPENTHREAD_POSIX_USE_MLD_MONITOR platform
                 && FD_ISSET (sMLDMonitorFd (globals w)) aErrorFdSet = false).
  { destruct (OPENTHREAD_POSIX_USE_MLD_MONITOR platform); [|reflexivity].
    cbn [existsb] in Hmld. rewrite orb_false_r in Hmld. exact Hmld. }
  unfold platformNetifProcess, at_exitX.
  unfold bindX at 1, core at 1, get_globals. cbn [map app].
  unfold bindX at 1, core at 1, VerifyOrExit.
  destruct (sTunIndex (globals w) >? 0); [|exists w; auto].
  cbn [ret map app].
  unfold bindX at 1, core at 1. cbn [map app].
  unfold bindX at 1. rewrite Etun. unfold retX at 1. cbn [app].
  unfold bindX at 1, core at 1. cbn [map app].
  unfold bindX at 1. rewrite Enl'. unfold retX at 1. cbn [app].
  unfold bindX at 1, core at 1. cbn [map app].
  unfold bindX at 1. rewrite Emld. unfold retX at 1. cbn [app].
  unfold bindX at 1, core at 1. cbn [map app].
  assert (Htx : exists t1 w1,
             (if FD_ISSET (sTunFd (globals w)) aReadFdSet
              then core (processTransmit platform tun_read)
              else retX tt) w = (t1, Normal tt w1)
             /\ globals w1 = globals w).
  { destruct (FD_ISSET (sTunFd (globals w)) aReadFdSet);
      [|exists [], w; auto].
    destruct (processTransmit_returns platform tun_read w)
      as (t & w' & Hrun & Hg).
    unfold core. rewrite Hrun. eauto. }
  destruct Htx as (t1 & w1 & Hrun1 & Hg1).
  unfold bindX at 1. rewrite Hrun1.
  unfold bindX at 1, core at 1, get_globals. cbn [map app].
  assert (Hev : exists t2 w2,
             (if FD_ISSET (sNetlinkFd (globals w1)) aReadFdSet
              then processNetifEvent hdr platform netif_recv
              else retX tt) w1 = (t2, Normal tt w2)
             /\ globals w2 = globals w1).
  { destruct (FD_ISSET (sNetlinkFd (globals w1)) aReadFdSet);
      [|exists [], w1; auto].
    apply processNetifEvent_returns. }
  destruct Hev as (t2 & w2 & Hrun2 & Hg2).
  unfold bindX at 1. rewrite Hrun2.
  unfold bindX at 1, core at 1, get_globals. cbn [map app].
  assert (Hmldr : exists t3 w3,
             (if OPENTHREAD_POSIX_USE_MLD_MONITOR platform
                 && FD_ISSET (sMLDMonitorFd (globals w2)) aReadFdSet
              then core (processMLDEvent hdr mld_recv getifaddrs)
              else retX tt) w2 = (t3, Normal tt w3)
             /\ globals w3 = globals w2).
  { destruct (OPENTHREAD_POSIX_USE_MLD_MONITOR platform
              && FD_ISSET (sMLDMonitorFd (globals w2)) aReadFdSet);
      [|exists [], w2; auto].
    destruct (processMLDEvent_returns hdr mld_recv getifaddrs w2)
      as (t & w' & Hrun & Hg).
    unfold core. rewrite Hrun. eauto. }
  destruct Hmldr as (t3 & w3 & Hrun3 & Hg3).
  unfold bindX at 1. rewrite Hrun3.
  unfold retX. cbn [snd]. exists w3. split; [reflexivity | congruence].
Qed.

End EventLoop.

Section Teardown.

Context {St : Type} `{OtStack St} `{OtStackLink St}.

(** *** After the teardown *)

(** What [platformNetifDeinit] leaves behind. *)
Lemma platformNetifDeinit_clears (platform : Platform) (w : World St) :
  exists w1,
    snd (platformNetifDeinit platform w) = Normal tt w1
    /\ sTunFd (globals w1) = -1
    /\ sIpFd (globals w1) = -1
    /\ sTunIndex (globals w1) = 0.
Proof.
  destruct w as [[tun ip nl mld idx name] k s].
  destruct (tun =? -1) eqn:Etun; [apply Z.eqb_eq in Etun; subst tun|];
    (destruct (ip =? -1) eqn:Eip; [apply Z.eqb_eq in Eip; subst ip|]);
    (destruct (nl =? -1) eqn:Enl; [apply Z.eqb_eq in Enl; subst nl|]);
    (destruct (mld =? -1) eqn:Emld; [apply Z.eqb_eq in Emld; subst mld|]);
    destruct platform;
    unfold platformNetifDeinit, destroyTunnel, modify_globals, bind,
      get_globals, set_globals, close, emit, ret, ioctl, perror;
    cbn [has_destroyTunnel OPENTHREAD_POSIX_USE_MLD_MONITOR
           has_RTM_NEWMADDR negb];
    repeat (progress
              (repeat match goal with
                      | E : (_ =? -1) = false |- _ => rewrite E
                      end;
               rewrite ?Z.eqb_refl, ?ioctl_effect_destroy;
               try match goal with
                   | |- context [sys_is_zero ?r] => destruct (sys_is_zero r)
                   end;
               cbn -[Z.eqb]));
    eexists; (split; [reflexivity|]); repeat split; reflexivity.
Qed.

Lemma UpdateUnicast_without_socket (platform : Platform) (w : World St)
    (aAddress : in6_addr) (aPrefixLength : Z) (aIsAdded : bool) :
  sIpFd (globals w) < 0 ->
  UpdateUnicast platform aAddress aPrefixLength aIsAdded w
  = ([EvLog LogWarn], Normal tt w).
Proof.
  intros Hfd. unfold UpdateUnicast, at_exit.
  unfold bind at 1, get_globals. unfold bind at 1, VerifyOrExit.
  assert (E : (sIpFd (globals w) >=? 0) = false) by lia.
  rewrite E. reflexivity.
Qed.

Lemma processReceive_without_tunnel (hdr : Headers) (platform : Platform)
    (w : World St) (aMessage : otMessage) :
  sTunFd (globals w) <= 0 ->
  writes_of (fst (processReceive hdr platform aMessage w)) = [].
Proof.
  intros Hfd. unfold processReceive, at_exit.
  unfold bind at 1, get_globals. unfold bind at 1, VerifyOrExit.
  assert (E : (sTunFd (globals w) >? 0) = false) by lia.
  rewrite E. reflexivity.
Qed.

Lemma platformNetifProcess_not_set_up (hdr : Headers) (platform : Platform)
    (aReadFdSet aErrorFdSet : fd_set) (tun_read : ReadResult)
    (netif_recv : NetifRecv) (mld_recv : RecvResult)
    (getifaddrs : option (list ifaddrs)) (w : World St) :
  sTunIndex (globals w) <= 0 ->
  platformNetifProcess hdr platform aReadFdSet aErrorFdSet tun_read
    netif_recv mld_recv getifaddrs w = ([], Normal tt w).
Proof.
  intros Hidx. unfold platformNetifProcess, at_exitX.
  unfold bindX at 1, core at 1, get_globals. cbn [map app].
  unfold bindX at 1, core at 1, VerifyOrExit.
  assert (E : (sTunIndex (globals w) >? 0) = false) by lia.
  rewrite E. reflexivity.
Qed.

(** X25.  After [platformNetifDeinit] every entry point of the bridge is
    inert: the event loop is given no descriptor and reads none, a
    datagram of the stack is not written anywhere, and an address or
    state change of the stack sends no request to the kernel. *)
Theorem teardown_makes_bridge_inert (hdr : Headers) (platform : Platform)
    (FD_SETSIZE : Z) (code : otError -> ExitCode) (w : World St) :
  exists w1,
    snd (platformNetifDeinit platform w) = Normal tt w1
    /\ (forall aReadFdSet aErrorFdSet aMaxFd,
           platformNetifUpdateFdSet platform FD_SETSIZE (globals w1)
             aReadFdSet aErrorFdSet aMaxFd
           = FdSets aReadFdSet aErrorFdSet aMaxFd)
    /\ (forall aReadFdSet aErrorFdSet tun_read netif_recv mld_recv getifaddrs,
           platformNetifProcess hdr platform aReadFdSet aErrorFdSet tun_read
             netif_recv mld_recv getifaddrs w1 = ([], Normal tt w1))
    /\ (forall aMessage,
           writes_of (fst (processReceive hdr platform aMessage w1)) = [])
    /\ (forall aAddress aPrefixLength aIsAdded rejects,
           ioctls_of (core_events
                        (fst (processAddressChange platform code rejects
                                aAddress aPrefixLength aIsAdded w1))) = []
           /\ setsockopts_of
                (fst (processAddressChange platform code rejects
                        aAddress aPrefixLength aIsAdded w1)) = [])
    /\ (forall aFlags,
           ioctls_of (fst (processStateChange hdr aFlags w1)) = []).
Proof.
  destruct (platformNetifDeinit_clears platform w)
    as (w1 & Hrun & Htun & Hip & Hidx).
  exists w1. split; [exact Hrun|].
  split.
  { intros rd er m. unfold platformNetifUpdateFdSet.
    rewrite Hidx. reflexivity. }
  split.
  { intros. apply platformNetifProcess_not_set_up. lia. }
  split.
  { intros. apply processReceive_without_tunnel. lia. }
  split.
  { intros a p added rejects. unfold processAddressChange.
    destruct (nth 0 a 0 =? 255).
    - rewrite UpdateMulticast_run.
      assert (E : (sIpFd (globals w1) <? 0) = true) by lia.
      rewrite E. split; reflexivity.
    - unfold core. rewrite UpdateUnicast_without_socket by lia.
      split; reflexivity. }
  intros aFlags. unfold processStateChange.
  destruct (negb _); [|reflexivity].
  rewrite UpdateLink_run.
  assert (E : (sIpFd (globals w1) <? 0) = true) by lia.
  rewrite E. reflexivity.
Qed.

End Teardown.

Section SetUp.

Context {St : Type} `{OtStack St}.

(** *** The set-up *)

Lemma platformConfigureNetLink_outcome (platform : Platform)
    (has_route_msgfilter : bool) (host : Host) (w : World St) :
  let fd := host_open host EventSocket in
  (exists t code,
      platformConfigureNetLink platform has_route_msgfilter host w
      = (t, Dead code))
  \/ (exists t,
         platformConfigureNetLink platform has_route_msgfilter host w
         = (t, Normal tt {| globals := with_sNetlinkFd fd (globals w);
                            kernel := kernel w; stack := stack w |})
         /\ fd >= 0).
Proof.
  destruct w as [g k s]. cbv zeta.
  destruct platform, has_route_msgfilter;
    setup_unfold; setup_cbn; repeat setup_step;
    first [ left; do 2 eexists; reflexivity
          | right; eexists; split; [reflexivity | lia] ].
Qed.

Lemma platformConfigureTunDevice_outcome (platform : Platform) (host : Host)
    (aInterfaceName : option string) (w : World St) :
  let fd := host_open host (TunDevice (OPENTHREAD_POSIX_TUN_DEVICE platform))
  in
  (exists t code,
      platformConfigureTunDevice platform host aInterfaceName w
      = (t, Dead code))
  \/ (exists t name,
         platformConfigureTunDevice platform host aInterfaceName w
         = (t, Normal tt {| globals := with_sTunName name
                                         (with_sTunFd fd (globals w));
                            kernel := kernel w; stack := stack w |})
         /\ fd >= 0).
Proof.
  destruct w as [g k s]. cbv zeta.
  destruct platform, aInterfaceName as [name|];
    setup_unfold; setup_cbn; repeat setup_step;
    first [ left; do 2 eexists; reflexivity
          | right; do 2 eexists; split; [reflexivity | lia] ].
Qed.

Lemma mldListenerInit_outcome (platform : Platform) (host : Host)
    (w : World St) :
  let fd := host_open host MldSocket in
  (exists t code, mldListenerInit platform host w = (t, Dead code))
  \/ (exists t,
         mldListenerInit platform host w
         = (t, Normal tt {| globals := with_sMLDMonitorFd fd (globals w);
                            kernel := kernel w; stack := stack w |})
         /\ fd >= 0).
Proof.
  destruct w as [g k s]. cbv zeta.
  destruct platform;
    setup_unfold; setup_cbn; repeat setup_step;
    first [ left; do 2 eexists; reflexivity
          | exfalso; setup_facts; fail
          | right; eexists; split; [reflexivity|]; setup_facts; lia ].
Qed.

(** X28.  [platformNetifInit] either ends the process or leaves the bridge
    fully set up: when it returns, the interface index is positive and
    the ip socket, the event socket, the tunnel and (with the MLD monitor)
    the MLD socket are open descriptors, so that no [assert] of
    [platformNetifUpdateFdSet] fails afterwards. *)
Theorem platformNetifInit_sets_up_or_dies (platform : Platform)
    (has_route_msgfilter udp : bool) (host : Host)
    (aInterfaceName : option string) (w : World St) :
  let r := platformNetifInit platform has_route_msgfilter udp host
             aInterfaceName w in
  (exists code, snd r = Dead code)
  \/ (exists w',
         snd r = Normal tt w'
         /\ sTunIndex (globals w') > 0
         /\ sIpFd (globals w') >= 0
         /\ sNetlinkFd (globals w') >= 0
         /\ sTunFd (globals w') >= 0
         /\ (OPENTHREAD_POSIX_USE_MLD_MONITOR platform = false
             \/ sMLDMonitorFd (globals w') >= 0)
         /\ forall FD_SETSIZE aReadFdSet aErrorFdSet aMaxFd,
             platformNetifUpdateFdSet platform FD_SETSIZE (globals w')
               aReadFdSet aErrorFdSet aMaxFd <> AssertFailed).
Proof.
  intros r.
  assert (Hasserts : forall g,
             sTunIndex g > 0 -> sIpFd g >= 0 -> sNetlinkFd g >= 0 ->
             sTunFd g >= 0 ->
             forall FD_SETSIZE aReadFdSet aErrorFdSet aMaxFd,
               platformNetifUpdateFdSet platform FD_SETSIZE g
                 aReadFdSet aErrorFdSet aMaxFd <> AssertFailed).
  { intros g0 Hidx Hip Hnl Htun size rd er m.
    unfold platformNetifUpdateFdSet.
    assert (E1 : (sTunIndex g0 >? 0) = true) by lia.
    assert (E2 : (sTunFd g0 >=? 0) && (sNetlinkFd g0 >=? 0)
                 && (sIpFd g0 >=? 0) = true).
    { rewrite !andb_true_iff. repeat split; lia. }
    rewrite E1, E2. cbn [negb].
    repeat match goal with
           | |- context [FD_SET ?n ?fd ?x] => destruct (FD_SET n fd x)
           | |- context [if ?c then _ else _] => destruct c
           end; discriminate. }
  assert (Hrun : exists t res,
             r = (t, res)
             /\ ((exists code, res = Dead code)
                 \/ (exists w',
                        res = Normal tt w'
                        /\ sTunIndex (globals w') > 0
                        /\ sIpFd (globals w') >= 0
                        /\ sNetlinkFd (globals w') >= 0
                        /\ sTunFd (globals w') >= 0
                        /\ (OPENTHREAD_POSIX_USE_MLD_MONITOR platform = false
                            \/ sMLDMonitorFd (globals w') >= 0))));
    [|destruct Hrun as (t & res & -> & [Hdead|(w' & Hres & Hi & Hip & Hnl
                                               & Htun & Hmld)]);
      [left; exact Hdead
      |right; exists w'; repeat split; auto; apply Hasserts; assumption]].
  subst r. destruct w as [g k s].
  unfold platformNetifInit.
  unfold bindX at 1, open_endpoint at 1.
  unfold bindX at 1, core at 1, modify_globals, bind, get_globals,
    set_globals. cbn [globals kernel stack map app].
  unfold bindX at 1, core at 1, VerifyOrDie, die.
  destruct (host_open host IpSocket >=? 0) eqn:Eip;
    [|do 2 eexists; split; [reflexivity | left; eexists; reflexivity]].
  cbn [ret map app].
  unfold bindX at 1, stack_setup at 1. cbn [app].
  unfold bindX at 1.
  match goal with
  | |- context [platformConfigureNetLink ?p ?f ?h ?w0] =>
      destruct (platformConfigureNetLink_outcome p f h w0)
        as [(t1 & c1 & Hnl)|(t1 & Hnl & Hnlfd)]; rewrite Hnl
  end; [do 2 eexists; split; [reflexivity | left; eexists; reflexivity]|].
  cbn [globals kernel stack].
  unfold bindX at 1.
  match goal with
  | |- context [platformConfigureTunDevice ?p ?h ?n ?w0] =>
      destruct (platformConfigureTunDevice_outcome p h n w0)
        as [(t2 & c2 & Htun)|(t2 & name & Htun & Htunfd)]; rewrite Htun
  end; [do 2 eexists; split; [reflexivity | left; eexists; reflexivity]|].
  cbn [globals kernel stack].
  unfold bindX at 1, core at 1, get_globals. cbn [globals map app].
  unfold bindX at 1, if_nametoindex at 1.
  unfold bindX at 1, core at 1, modify_globals, bind, get_globals,
    set_globals. cbn [globals kernel stack map app].
  unfold bindX at 1, core at 1, VerifyOrDie, die.
  match goal with
  | |- context [if ?idx >? 0 then _ else _] =>
      destruct (idx >? 0) eqn:Eidx
  end; [|do 2 eexists; split; [reflexivity | left; eexists; reflexivity]].
  cbn [ret map app].
  unfold bindX at 1.
  assert (Hudp : exists tu,
             (if udp
              then stack_setup
                     (PlatformUdpInit
                        (sTunName
                           (with_sTunName name
                              (with_sTunFd
                                 (host_open host
                                    (TunDevice
                                       (OPENTHREAD_POSIX_TUN_DEVICE platform)))
                                 (with_sNetlinkFd
                                    (host_open host EventSocket)
                                    (with_sIpFd (host_open host IpSocket)
                                       g))))))
              else retX tt)
             = fun w0 : World St => (tu, Normal tt w0)).
  { destruct udp; eexists; reflexivity. }
  destruct Hudp as [tu Hudp]. rewrite Hudp.
  unfold bindX at 1.
  set (w3 := {| globals := with_sTunIndex _ _; kernel := k; stack := s |}).
  assert (Hmld : (exists t3 c3,
                     (if OPENTHREAD_POSIX_USE_MLD_MONITOR platform
                      then mldListenerInit platform host else retX tt) w3
                     = (t3, Dead c3))
                 \/ (exists t3 w4,
                        (if OPENTHREAD_POSIX_USE_MLD_MONITOR platform
                         then mldListenerInit platform host else retX tt) w3
                        = (t3, Normal tt w4)
                        /\ sTunIndex (globals w4) = sTunIndex (globals w3)
                        /\ sIpFd (globals w4) = sIpFd (globals w3)
                        /\ sNetlinkFd (globals w4) = sNetlinkFd (globals w3)
                        /\ sTunFd (globals w4) = sTunFd (globals w3)
                        /\ (OPENTHREAD_POSIX_USE_MLD_MONITOR platform = false
                            \/ sMLDMonitorFd (globals w4) >= 0)
                        /\ kernel w4 = k /\ stack w4 = s)).
  { destruct (OPENTHREAD_POSIX_USE_MLD_MONITOR platform).
    - destruct (mldListenerInit_outcome platform host w3)
        as [(t3 & c3 & Hm)|(t3 & Hm & Hmfd)]; [left; eauto|].
      right. do 2 eexists. split; [exact Hm|]. cbn. repeat split; auto.
    - right. exists [], w3. split; [reflexivity|].
      repeat split; auto. }
  destruct Hmld as [(t3 & c3 & Hm)|(t3 & w4 & Hm & Hi & Hip & Hnlq & Htq & Hmq
                                     & Hk & Hs)];
    rewrite Hm; [do 2 eexists; split; [reflexivity | left; eexists; reflexivity]|].
  unfold bindX, stack_setup, retX.
  destruct (OPENTHREAD_POSIX_MULTICAST_PROMISCUOUS_REQUIRED platform);
    do 2 eexists; (split; [reflexivity|]); right; exists w4;
    (split; [reflexivity|]);
    rewrite Hi, Hip, Hnlq, Htq; unfold w3; setup_cbn;
    cbn [sTunName with_sTunName with_sTunFd with_sNetlinkFd with_sIpFd] in Eidx;
    repeat split; auto; lia.
Qed.

(** X29.  A host that opens every descriptor, refuses nothing and knows
    the tunnel interface gets a complete bridge: [platformNetifInit]
    returns, having opened the ip socket, the event socket, the tunnel
    device and (with the MLD monitor) the MLD socket in that order, with
    each descriptor, the name of the tunnel and its index stored.  On
    Linux the name is the one the kernel chose for the requested name or
    for the pattern wpan%d; elsewhere it is the device's own name and the
    requested name is not used. *)
Theorem platformNetifInit_succeeds (platform : Platform)
    (has_route_msgfilter udp : bool) (host : Host)
    (aInterfaceName : option string) (w : World St) :
  let requested := strncpy_name match aInterfaceName with
                                | Some name => name
                                | None => "wpan%d"%string
                                end in
  let tun_name := if bsd_like platform then "tun0"%string
                  else strncpy_name (host_tun_name host requested) in
  let mld := OPENTHREAD_POSIX_USE_MLD_MONITOR platform in
  let device := TunDevice (OPENTHREAD_POSIX_TUN_DEVICE platform) in
  (forall e, host_open host e >= 0) ->
  (forall c, host_refuses host c = None) ->
  (bsd_like platform = false ->
   forall name, aInterfaceName = Some name ->
                (String.length name < IFNAMSIZ)%nat) ->
  host_if_nametoindex host tun_name > 0 ->
  let r := platformNetifInit platform has_route_msgfilter udp host
             aInterfaceName w in
  snd r
  = Normal tt
      {| globals :=
           {| sTunFd := host_open host device;
              sIpFd := host_open host IpSocket;
              sNetlinkFd := host_open host EventSocket;
              sMLDMonitorFd := if mld then host_open host MldSocket
                               else sMLDMonitorFd (globals w);
              sTunIndex := host_if_nametoindex host tun_name;
              sTunName := tun_name |};
         kernel := kernel w; stack := stack w |}
  /\ opens_of (fst r)
     = [IpSocket; EventSocket; device] ++ if mld then [MldSocket] else [].
Proof.
  intros requested tun_name mld device Hopen Hacc Hname Hidx r.
  subst r mld device. destruct w as [g k s].
  assert (Eip : (host_open host IpSocket >=? 0) = true)
    by (specialize (Hopen IpSocket); lia).
  assert (Enl : (host_open host EventSocket >=? 0) = true)
    by (specialize (Hopen EventSocket); lia).
  assert (Enl' : (host_open host EventSocket <? 0) = false)
    by (specialize (Hopen EventSocket); lia).
  assert (Emld' : (host_open host MldSocket <? 0) = false)
    by (specialize (Hopen MldSocket); lia).
  assert (Etun : forall p, (host_open host (TunDevice p) >=? 0) = true)
    by (intros p; specialize (Hopen (TunDevice p)); lia).
  assert (Etun' : forall p, (host_open host (TunDevice p) <? 0) = false)
    by (intros p; specialize (Hopen (TunDevice p)); lia).
  assert (Eidx : (host_if_nametoindex host tun_name >? 0) = true) by lia.
  assert (Elen : bsd_like platform = false ->
                 forall name, aInterfaceName = Some name ->
                              (String.length name <? IFNAMSIZ)%nat = true).
  { intros Hl name Hn. apply Nat.ltb_lt. exact (Hname Hl name Hn). }
  subst tun_name requested.
  destruct platform, has_route_msgfilter, udp, aInterfaceName as [name|];
    try pose proof (Elen eq_refl name eq_refl) as Elen';
    setup_unfold; setup_cbn; cbn [bsd_like] in Eidx;
    change (strncpy_name tun_device_basename) with "tun0"%string in *;
    repeat (progress (rewrite ?Hacc, ?Eip, ?Enl, ?Enl', ?Emld', ?Etun,
                        ?Etun', ?Eidx;
                      try rewrite Elen'; setup_cbn));
    split; reflexivity.
Qed.

(** X30.  On Linux an interface name that does not fit [IFNAMSIZ] with
    its terminator is an invalid argument: with the sockets and the tunnel
    device open, [platformNetifInit] given a name of sixteen or more
    characters ends the process with [OT_EXIT_INVALID_ARGUMENTS] before
    any request is made on the tunnel device. *)
Theorem platformNetifInit_rejects_long_name (platform : Platform)
    (has_route_msgfilter udp : bool) (host : Host) (name : string)
    (w : World St) :
  bsd_like platform = false ->
  (IFNAMSIZ <= String.length name)%nat ->
  (forall e, host_open host e >= 0) ->
  host_refuses host BindNetlinkGroups = None ->
  let r := platformNetifInit platform has_route_msgfilter udp host
             (Some name) w in
  snd r = Dead OT_EXIT_INVALID_ARGUMENTS
  /\ setups_of (fst r)
     = [(host_open host EventSocket, BindNetlinkGroups)].
Proof.
  intros Hlinux Hlen Hopen Hbind r. subst r. destruct w as [g k s].
  assert (Eip : (host_open host IpSocket >=? 0) = true)
    by (specialize (Hopen IpSocket); lia).
  assert (Enl : (host_open host EventSocket >=? 0) = true)
    by (specialize (Hopen EventSocket); lia).
  assert (Enl' : (host_open host EventSocket <? 0) = false)
    by (specialize (Hopen EventSocket); lia).
  assert (Etun : forall p, (host_open host (TunDevice p) >=? 0) = true)
    by (intros p; specialize (Hopen (TunDevice p)); lia).
  assert (Elen : (String.length name <? IFNAMSIZ)%nat = false)
    by (apply Nat.ltb_ge; exact Hlen).
  destruct platform; try discriminate Hlinux.
  setup_unfold; setup_cbn.
  rewrite Eip, Enl, Enl', Hbind, Etun, Elen. setup_cbn.
  split; reflexivity.
Qed.

End SetUp.

(* ================================================================== *)
(** ** Concrete runs of the further properties *)

Lemma UpdateUnicast_remove_returns_witness :
  0 <= 64 < 256
  /\ let r := UpdateUnicast FreeBSD addr_2001_db8_1 64 false
                (world_rejecting (fun _ => true) EADDRNOTAVAIL) in
     snd r = Normal tt (world_rejecting (fun _ => true) EADDRNOTAVAIL)
     /\ (length (ioctls_of (fst r)) <= 1)%nat
     /\ (warnings_of (fst r) <= 1)%nat
     /\ (0 <= sIpFd (globals (world_rejecting (fun _ => true) EADDRNOTAVAIL))
         \/ (ioctls_of (fst r) = [] /\ warnings_of (fst r) = 1%nat)).
Proof.
  split; [lia|].
  apply (UpdateUnicast_remove_returns FreeBSD
           (world_rejecting (fun _ => true) EADDRNOTAVAIL)
           addr_2001_db8_1 64).
  lia.
Defined.

Lemma UpdateLink_converges_witness :
  (IFF_UP example_headers <> 0
   /\ sIpFd (globals example_world) >= 0
   /\ forall req, k_ioctl_fault (kernel example_world) req = None)
  /\ exists w',
      snd (UpdateLink example_headers example_world) = Normal tt w'
      /\ kernel_link_up example_headers (kernel w')
         = stk_ip6_enabled (stack example_world)
      /\ Z.land (k_ifflags (kernel w')) (Z.lnot (IFF_UP example_headers))
         = Z.land (k_ifflags (kernel example_world))
             (Z.lnot (IFF_UP example_headers))
      /\ stack w' = stack example_world
      /\ globals w' = globals example_world.
Proof.
  assert (Hup : IFF_UP example_headers <> 0) by discriminate.
  assert (Hfd : sIpFd (globals example_world) >= 0) by (cbn; lia).
  assert (Hacc : forall req, k_ioctl_fault (kernel example_world) req = None)
    by reflexivity.
  split; [auto|].
  apply (UpdateLink_converges example_headers example_world Hup Hfd Hacc).
Defined.

Lemma processReceive_oversize_dropped_witness :
  kMaxIp6Size < Z.of_nat (length oversize_message) < 65536
  /\ writes_of
       (fst (processReceive example_headers Linux oversize_message
               example_world)) = []
  /\ (sTunFd (globals example_world) <= 0
      \/ warnings_of
           (fst (processReceive example_headers Linux oversize_message
                   example_world)) = 1%nat).
Proof.
  assert (Hlen : kMaxIp6Size < Z.of_nat (length oversize_message) < 65536).
  { unfold oversize_message, kMaxIp6Size. rewrite repeat_length. lia. }
  split; [exact Hlen|].
  apply (processReceive_oversize_dropped example_headers Linux example_world
           oversize_message Hlen).
Defined.

Lemma shuttle_round_trip_witness :
  (datagram <> []
   /\ Z.of_nat (length datagram) + 4 <= kMaxIp6Size
   /\ sTunFd (globals example_world) > 0
   /\ stk_has_buffers (stack example_world) 0 = true
   /\ stk_has_buffers (stack example_world) (length datagram) = true)
  /\ exists octets,
      writes_of (fst (processReceive example_headers FreeBSD datagram
                        example_world))
      = [(sTunFd (globals example_world), octets)]
      /\ sends_of (fst (processTransmit FreeBSD (ReadData octets)
                          example_world)) = [datagram].
Proof.
  assert (Hne : datagram <> []) by discriminate.
  assert (Hfit : Z.of_nat (length datagram) + 4 <= kMaxIp6Size)
    by (vm_compute; discriminate).
  assert (Hfd : sTunFd (globals example_world) > 0) by reflexivity.
  split; [repeat split; auto|].
  apply (shuttle_round_trip example_headers FreeBSD example_world
           example_world datagram Hne Hfit Hfd); reflexivity.
Defined.

Lemma netlink_other_interface_ignored_witness :
  (ifa_index (netlink_address_message RTM_NEWADDR 9 three_attributes)
   <> sTunIndex (globals example_world)
   \/ ifa_family (netlink_address_message RTM_NEWADDR 9 three_attributes)
      <> AF_INET6 example_headers)
  /\ processNetifAddrEvent_netlink example_headers
       (netlink_address_message RTM_NEWADDR 9 three_attributes)
       example_world
     = ([EvLog LogInfo], Normal tt example_world).
Proof.
  assert (Hother :
            ifa_index (netlink_address_message RTM_NEWADDR 9 three_attributes)
            <> sTunIndex (globals example_world)
            \/ ifa_family
                 (netlink_address_message RTM_NEWADDR 9 three_attributes)
               <> AF_INET6 example_headers)
    by (left; discriminate).
  split; [exact Hother|].
  apply (netlink_other_interface_ignored example_headers example_world
           (netlink_address_message RTM_NEWADDR 9 three_attributes) Hother).
Defined.

Lemma netlink_delete_walks_all_attributes_witness :
  (nlmsg_type (netlink_address_message RTM_DELADDR 7 three_attributes)
   = RTM_DELADDR
   /\ ifa_index (netlink_address_message RTM_DELADDR 7 three_attributes)
      = sTunIndex (globals example_world)
   /\ ifa_family (netlink_address_message RTM_DELADDR 7 three_attributes)
      = AF_INET6 example_headers)
  /\ let r := processNetifAddrEvent_netlink example_headers
                (netlink_address_message RTM_DELADDR 7 three_attributes)
                example_world in
     stack_calls_of (fst r)
     = [RemoveUnicastAddress addr_2001_db8_1;
        UnsubscribeMulticastAddress addr_ff03_abcd]
     /\ ioctls_of (fst r) = []
     /\ exists w', snd r = Normal tt w'
                   /\ globals w' = globals example_world
                   /\ kernel w' = kernel example_world.
Proof.
  split; [repeat split; reflexivity|].
  apply (netlink_delete_walks_all_attributes example_headers example_world
           (netlink_address_message RTM_DELADDR 7 three_attributes));
    reflexivity.
Defined.

Lemma netlink_add_stops_at_refused_unicast_witness :
  (fst (stk_add_unicast
          {| mAddress := addr_2001_db8_1; mPrefixLength := 64 |}
          (stack (world_knowing addr_2001_db8_1))) <> OT_ERROR_NONE)
  /\ let r := processNetifAddrEvent_netlink example_headers
                (netlink_address_message RTM_NEWADDR 7 three_attributes)
                (world_knowing addr_2001_db8_1) in
     stack_calls_of (fst r)
     = [AddUnicastAddress
          {| mAddress := addr_2001_db8_1; mPrefixLength := 64 |}]
     /\ last (fst r) (EvLog LogInfo) = EvLog LogWarn
     /\ snd r
        = Normal tt
            {| globals := globals (world_knowing addr_2001_db8_1);
               kernel := kernel (world_knowing addr_2001_db8_1);
               stack :=
                 snd (stk_add_unicast
                        {| mAddress := addr_2001_db8_1;
                           mPrefixLength := 64 |}
                        (stack (world_knowing addr_2001_db8_1))) |}.
Proof.
  assert (Hrefused :
            fst (stk_add_unicast
                   {| mAddress := addr_2001_db8_1; mPrefixLength := 64 |}
                   (stack (world_knowing addr_2001_db8_1)))
            <> OT_ERROR_NONE) by (vm_compute; discriminate).
  split; [exact Hrefused|].
  apply (netlink_add_stops_at_refused_unicast example_headers
           (world_knowing addr_2001_db8_1)
           (netlink_address_message RTM_NEWADDR 7 three_attributes)
           {| rta_type := IFA_ADDRESS; rta_data := addr_2001_db8_1 |}
           [ {| rta_type := IFA_other 6; rta_data := [] |};
             {| rta_type := IFA_LOCAL; rta_data := addr_ff03_abcd |} ]);
    try reflexivity.
  exact Hrefused.
Defined.

Lemma route_known_address_only_noted_witness :
  (IsMulticast addr_fe80_abcd_scoped = false
   /\ existsb (fun a => in6_eqb (mAddress a)
                          (without_embedded_scope addr_fe80_abcd_scoped))
        (stk_unicast_addresses (stack (world_knowing addr_fe80_abcd)))
      = true)
  /\ let r := processNetifAddrEvent_route example_headers FreeBSD
                (route_address_message RTM_NEWADDR 7 addr_fe80_abcd_scoped)
                [] (world_knowing addr_fe80_abcd) in
     address_calls_of (fst r) = []
     /\ ioctls_of (fst r) = []
     /\ warnings_of (fst r) = 0%nat
     /\ snd r = Normal tt (world_knowing addr_fe80_abcd).
Proof.
  split; [split; reflexivity|].
  apply (route_known_address_only_noted example_headers FreeBSD
           (world_knowing addr_fe80_abcd)
           (route_address_message RTM_NEWADDR 7 addr_fe80_abcd_scoped) []
           {| sin6_family := 0x0A; sin6_addr := addr_fe80_abcd_scoped |}
           {| sin6_family := 0x0A; sin6_addr := leading_ones_mask 64 |});
    try reflexivity.
  discriminate.
Defined.

Lemma route_new_address_imported_witness :
  (IsMulticast addr_2001_db8_1 = false
   /\ IN6_IS_ADDR_LINKLOCAL addr_2001_db8_1 = false
   /\ existsb (fun a => in6_eqb (mAddress a) addr_2001_db8_1)
        (stk_unicast_addresses (stack example_world)) = false
   /\ (64 <= 128)%nat)
  /\ let t := fst (processNetifAddrEvent_route example_headers FreeBSD
                     (route_address_message RTM_NEWADDR 7 addr_2001_db8_1)
                     [] example_world) in
     stack_calls_of t
     = [AddUnicastAddress {| mAddress := addr_2001_db8_1;
                             mPrefixLength := Z.of_nat 64 |}]
     /\ ioctls_of t = [].
Proof.
  split; [repeat split; try reflexivity; lia|].
  apply (route_new_address_imported example_headers FreeBSD example_world
           (route_address_message RTM_NEWADDR 7 addr_2001_db8_1) []
           {| sin6_family := 0x0A; sin6_addr := addr_2001_db8_1 |}
           {| sin6_family := 0x0A; sin6_addr := leading_ones_mask 64 |}
           64%nat);
    try reflexivity; try lia.
  discriminate.
Defined.

Lemma route_delete_forwarded_witness :
  (rtm_type (route_address_message RTM_DELADDR 7 addr_fe80_abcd_scoped)
   = RTM_DELADDR
   /\ rtm_index (route_address_message RTM_DELADDR 7 addr_fe80_abcd_scoped)
      = sTunIndex (globals example_world))
  /\ let r := processNetifAddrEvent_route example_headers NetBSD
                (route_address_message RTM_DELADDR 7 addr_fe80_abcd_scoped)
                [] example_world in
     stack_calls_of (fst r) = [RemoveUnicastAddress addr_fe80_abcd]
     /\ ioctls_of (fst r) = []
     /\ exists w', snd r = Normal tt w'
                   /\ globals w' = globals example_world
                   /\ kernel w' = kernel example_world.
Proof.
  split; [split; reflexivity|].
  apply (route_delete_forwarded example_headers NetBSD example_world
           (route_address_message RTM_DELADDR 7 addr_fe80_abcd_scoped) []
           {| sin6_family := 0x0A; sin6_addr := addr_fe80_abcd_scoped |}
           {| sin6_family := 0x0A; sin6_addr := leading_ones_mask 64 |});
    try reflexivity.
  discriminate.
Defined.

Lemma route_other_interface_ignored_witness :
  (rtm_index (route_address_message RTM_NEWADDR 9 addr_2001_db8_1)
   <> sTunIndex (globals example_world))
  /\ processNetifAddrEvent_route example_headers FreeBSD
       (route_address_message RTM_NEWADDR 9 addr_2001_db8_1) []
       example_world
     = ([], Normal tt example_world).
Proof.
  assert (Hidx : rtm_index (route_address_message RTM_NEWADDR 9
                              addr_2001_db8_1)
                 <> sTunIndex (globals example_world)) by discriminate.
  split; [exact Hidx|].
  apply (route_other_interface_ignored example_headers FreeBSD example_world
           (route_address_message RTM_NEWADDR 9 addr_2001_db8_1) []
           (or_introl eq_refl) Hidx).
Defined.

Lemma processMLDEvent_acts_on_own_reports_only_witness :
  (stack_calls_of
     (fst (processMLDEvent example_headers
             (RecvFrom (encode_report 0 0 0 0 0 [record_type3])
                addr_fe80_abcd)
             (Some own_addresses) example_world)) <> [])
  /\ exists data srcAddr ifAddrs,
      RecvFrom (encode_report 0 0 0 0 0 [record_type3]) addr_fe80_abcd
      = RecvFrom data srcAddr
      /\ Some own_addresses = Some ifAddrs
      /\ from_self example_headers (sTunName (globals example_world)) srcAddr
           ifAddrs = true
      /\ nth 0 data 0 = kICMPv6MLDv2Type
      /\ sizeof_MLDv2Header <= Z.of_nat (length data).
Proof.
  assert (Hcalls :
            stack_calls_of
              (fst (processMLDEvent example_headers
                      (RecvFrom (encode_report 0 0 0 0 0 [record_type3])
                         addr_fe80_abcd)
                      (Some own_addresses) example_world)) <> [])
    by (vm_compute; discriminate).
  split; [exact Hcalls|].
  apply (processMLDEvent_acts_on_own_reports_only example_headers
           (RecvFrom (encode_report 0 0 0 0 0 [record_type3]) addr_fe80_abcd)
           (Some own_addresses) example_world Hcalls).
Defined.

Lemma processMLDEvent_stays_in_datagram_witness :
  Forall byte_ok overstated_report
  /\ let r := processMLDEvent example_headers
                (RecvFrom overstated_report addr_fe80_abcd)
                (Some own_addresses) example_world in
     let calls := stack_calls_of (fst r) in
     let mNumRecords := ntohs (nth 6 overstated_report 0)
                          (nth 7 overstated_report 0) in
     (exists w', snd r = Normal tt w' /\ globals w' = globals example_world)
     /\ Forall (fun c => exists a, group_of_call c = Some a
                                   /\ length a = 16%nat) calls
     /\ (length calls <= Z.to_nat mNumRecords)%nat
     /\ 20 * Z.of_nat (length calls)
        <= Z.max 0 (Z.min (Z.of_nat (length overstated_report)) kMaxMLDEvent
                    - sizeof_MLDv2Header).
Proof.
  assert (Hb : Forall byte_ok overstated_report)
    by (repeat constructor; unfold byte_ok; lia).
  split; [exact Hb|].
  apply (processMLDEvent_stays_in_datagram example_headers overstated_report
           addr_fe80_abcd (Some own_addresses) example_world Hb).
Defined.

Lemma UpdateMulticast_outcome_witness :
  sIpFd (globals example_world) >= 0
  /\ let mreq := {| ipv6mr_multiaddr := addr_ff02_1;
                    ipv6mr_interface := 7 |} in
     let r := UpdateMulticast example_SuccessOrDie_code
                (sockopt_refused EINVAL) addr_ff02_1 true example_world in
     setsockopts_of (fst r) = [(3, IPV6_JOIN_GROUP mreq)]
     /\ ioctls_of (core_events (fst r)) = []
     /\ snd r = Normal tt example_world.
Proof.
  assert (Hfd : sIpFd (globals example_world) >= 0) by (cbn; lia).
  split; [exact Hfd|].
  apply (UpdateMulticast_outcome example_SuccessOrDie_code
           (sockopt_refused EINVAL) addr_ff02_1 true example_world Hfd).
Defined.

Lemma processAddressChange_dispatch_witness :
  sIpFd (globals example_world) >= 0
  /\ let t := fst (processAddressChange FreeBSD example_SuccessOrDie_code
                     sockopt_accepted addr_ff03_abcd 128 true
                     example_world) in
     setsockopts_of t
     = [(3, IPV6_JOIN_GROUP {| ipv6mr_multiaddr := addr_ff03_abcd;
                               ipv6mr_interface := 7 |})]
     /\ ioctls_of (core_events t) = [].
Proof.
  assert (Hfd : sIpFd (globals example_world) >= 0) by (cbn; lia).
  split; [exact Hfd|].
  apply (processAddressChange_dispatch FreeBSD example_SuccessOrDie_code
           sockopt_accepted addr_ff03_abcd 128 true example_world Hfd).
Defined.

Lemma netlink_datagram_walked_witness :
  bsd_like Linux = false
  /\ let msgs := [netlink_link_message RTM_NEWLINK 7 1;
                  netlink_link_message RTM_NEWLINK 9 0;
                  {| nh_ifaddr := netlink_new_fe80;
                     nh_ifinfo := {| ifi_index := 0; ifi_flags := 0 |} |};
                  netlink_link_message RTM_DELLINK 7 0] in
     let r := processNetifEvent example_headers Linux (NetifNetlink msgs)
                example_world in
     set_enabled_of (fst r) = [true; false]
     /\ exists w', snd r = Normal tt w'
                   /\ globals w' = globals example_world
                   /\ kernel w' = kernel example_world.
Proof.
  split; [reflexivity|].
  apply (netlink_datagram_walked example_headers Linux
           [netlink_link_message RTM_NEWLINK 7 1;
            netlink_link_message RTM_NEWLINK 9 0;
            {| nh_ifaddr := netlink_new_fe80;
               nh_ifinfo := {| ifi_index := 0; ifi_flags := 0 |} |};
            netlink_link_message RTM_DELLINK 7 0]
           example_world eq_refl).
Defined.

Lemma route_ifinfo_reconciles_link_witness :
  (bsd_like FreeBSD = true
   /\ IFF_UP example_headers <> 0
   /\ sIpFd (globals example_world) >= 0
   /\ forall req, k_ioctl_fault (kernel example_world) req = None)
  /\ let r := processNetifEvent example_headers FreeBSD
                (NetifRoute (route_ifinfo_message 7) []) example_world in
     set_enabled_of (fst r) = []
     /\ exists w',
         snd r = Normal tt w'
         /\ kernel_link_up example_headers (kernel w')
            = stk_ip6_enabled (stack example_world)
         /\ stack w' = stack example_world
         /\ globals w' = globals example_world.
Proof.
  assert (Hup : IFF_UP example_headers <> 0) by discriminate.
  assert (Hfd : sIpFd (globals example_world) >= 0) by (cbn; lia).
  assert (Hacc : forall req, k_ioctl_fault (kernel example_world) req = None)
    by reflexivity.
  split; [auto|].
  apply (route_ifinfo_reconciles_link example_headers FreeBSD
           (route_ifinfo_message 7) [] example_world eq_refl eq_refl eq_refl
           Hup Hfd Hacc).
Defined.

Lemma platformNetifUpdateFdSet_adds_watched_witness :
  (sTunIndex example_globals > 0
   /\ 0 <= sIpFd example_globals
   /\ Forall (fun fd => 0 <= fd < example_FD_SETSIZE)
        (watched_fds Linux example_globals))
  /\ exists rd er,
      platformNetifUpdateFdSet Linux example_FD_SETSIZE example_globals
        (fd_set_of [0]) no_fds 2
      = FdSets rd er
          (fold_right Z.max 2 (watched_fds Linux example_globals))
      /\ (forall fd, rd fd = existsb (Z.eqb fd)
                               (watched_fds Linux example_globals)
                             || fd_set_of [0] fd)
      /\ (forall fd, er fd = existsb (Z.eqb fd)
                               (watched_fds Linux example_globals)
                             || no_fds fd).
Proof.
  assert (Hidx : sTunIndex example_globals > 0) by reflexivity.
  assert (Hip : 0 <= sIpFd example_globals) by (cbn; lia).
  assert (Hall : Forall (fun fd => 0 <= fd < example_FD_SETSIZE)
                   (watched_fds Linux example_globals))
    by (repeat constructor; unfold example_FD_SETSIZE; cbn; lia).
  split; [auto|].
  apply (platformNetifUpdateFdSet_adds_watched Linux example_FD_SETSIZE
           example_globals (fd_set_of [0]) no_fds 2 Hidx Hip Hall).
Defined.

Lemma platformNetifProcess_error_terminates_witness :
  (sTunIndex (globals example_world) > 0
   /\ find (fun fd => FD_ISSET fd (fd_set_of [4; 5]))
        (watched_fds Linux (globals example_world)) = Some 5)
  /\ platformNetifProcess example_headers Linux
       (fd_set_of [5; 4]) (fd_set_of [4; 5]) (ReadData datagram)
       NetifNothing (RecvErr EBADF) None example_world
     = ([XCore (EvClose 5)], Dead OT_EXIT_FAILURE).
Proof.
  assert (Hidx : sTunIndex (globals example_world) > 0) by reflexivity.
  assert (Herr : find (fun fd => FD_ISSET fd (fd_set_of [4; 5]))
                   (watched_fds Linux (globals example_world)) = Some 5)
    by reflexivity.
  split; [auto|].
  apply (platformNetifProcess_error_terminates example_headers Linux
           (fd_set_of [5; 4]) (fd_set_of [4; 5]) (ReadData datagram)
           NetifNothing (RecvErr EBADF) None example_world 5 Hidx Herr).
Defined.

Lemma platformNetifProcess_returns_witness :
  (existsb (fun fd => FD_ISSET fd no_fds)
     (watched_fds Linux (globals example_world)) = false)
  /\ exists w',
      snd (platformNetifProcess example_headers Linux
             (fd_set_of [5; 4; 6]) no_fds (ReadData datagram)
             (NetifNetlink [netlink_link_message RTM_NEWLINK 7 1])
             (RecvFrom overstated_report addr_fe80_abcd)
             (Some own_addresses) example_world) = Normal tt w'
      /\ globals w' = globals example_world.
Proof.
  split; [reflexivity|].
  apply (platformNetifProcess_returns example_headers Linux
           (fd_set_of [5; 4; 6]) no_fds (ReadData datagram)
           (NetifNetlink [netlink_link_message RTM_NEWLINK 7 1])
           (RecvFrom overstated_report addr_fe80_abcd)
           (Some own_addresses) example_world eq_refl).
Defined.

Lemma platformNetifInit_succeeds_witness :
  ((forall e, host_open example_host e >= 0)
   /\ (forall c, host_refuses example_host c = None)
   /\ (String.length "wpan0" < IFNAMSIZ)%nat
   /\ host_if_nametoindex example_host "wpan0" > 0)
  /\ let r := platformNetifInit Linux false false example_host
                (Some "wpan0"%string) initial_world in
     snd r = Normal tt example_world
     /\ opens_of (fst r)
        = [IpSocket; EventSocket; TunDevice "/dev/net/tun"; MldSocket].
Proof.
  assert (Hopen : forall e, host_open example_host e >= 0)
    by (intros []; cbn; lia).
  assert (Hacc : forall c, host_refuses example_host c = None)
    by reflexivity.
  assert (Hlen : (String.length "wpan0" < IFNAMSIZ)%nat)
    by (cbn; unfold IFNAMSIZ; lia).
  assert (Hidx : host_if_nametoindex example_host "wpan0" > 0)
    by reflexivity.
  split; [auto|].
  apply (platformNetifInit_succeeds Linux false false example_host
           (Some "wpan0"%string) initial_world Hopen Hacc).
  - intros _ name Hname. injection Hname as <-. exact Hlen.
  - exact Hidx.
Defined.

Lemma platformNetifInit_rejects_long_name_witness :
  (bsd_like Linux = false
   /\ (IFNAMSIZ <= String.length "thread-border-router0")%nat
   /\ (forall e, host_open example_host e >= 0)
   /\ host_refuses example_host BindNetlinkGroups = None)
  /\ let r := platformNetifInit Linux false false example_host
                (Some "thread-border-router0"%string) initial_world in
     snd r = Dead OT_EXIT_INVALID_ARGUMENTS
     /\ setups_of (fst r) = [(4, BindNetlinkGroups)].
Proof.
  assert (Hopen : forall e, host_open example_host e >= 0)
    by (intros []; cbn; lia).
  assert (Hlen : (IFNAMSIZ <= String.length "thread-border-router0")%nat)
    by (cbn; unfold IFNAMSIZ; lia).
  split; [auto|].
  apply (platformNetifInit_rejects_long_name Linux false false example_host
           "thread-border-router0" initial_world eq_refl Hlen Hopen eq_refl).
Defined.
